(** * Baby-tracker heatmap: aggregation, segmentation and date filtering

    A shallow embedding of the computational core of the application
    (modules [Heatmap] and [App] of the JavaScript sources) together with
    the properties claimed for it.

    Modelling conventions.
    - A JavaScript [Date] is its time value: an integer number of
      milliseconds since the epoch.  The local-time getters ([getHours],
      [getDate], ...) depend on the host's time zone; they are the methods
      of the class [TimeZone], so every theorem holds in every time zone.
      The instance [UTC] is used to evaluate the code on concrete inputs.
    - A [Set] of date strings is a [gset string]; a plain object used as a
      dictionary is a [gmap string _]; the array of 1440 sets is a list.
    - [minuteDays[m].add(d)] throws a [TypeError] when [m] is not an index
      of the array; throwing code returns [option], [None] being the throw.
    - Intensities are quotients of two set sizes; they are exact rationals
      here (the program computes them in binary floating point). *)

From Stdlib Require Import ZArith QArith Qabs Qminmax Qround Qpower Lia Lqa Sorted Ascii.
From stdpp Require Import base option list gmap sets strings pretty sorting.

Open Scope Z_scope.

(** ** The host's [Date] object *)

Definition Date := Z.

Class TimeZone := {
  getFullYear : Date -> Z;
  getMonth : Date -> Z;
  getDate : Date -> Z;
  getHours : Date -> Z;
  getMinutes : Date -> Z;
  setDate : Date -> Z -> Date;
  getHours_range : forall d, 0 <= getHours d < 24;
  getMinutes_range : forall d, 0 <= getMinutes d < 60
}.

(** [date.getTime()] and [new Date(ms)]. *)
Definition getTime (d : Date) : Z := d.
Definition newDate (ms : Z) : Date := ms.

Module UTCDate.

Definition msPerDay : Z := 86400000.
Definition msPerHour : Z := 3600000.
Definition msPerMinute : Z := 60000.

Definition Day (t : Date) : Z := t / msPerDay.

(** Year, month (1..12) and day of month of a day number, in the
    proleptic Gregorian calendar. *)
Definition civil (z0 : Z) : Z * Z * Z :=
  let z := z0 + 719468 in
  let era := z / 146097 in
  let doe := z - era * 146097 in
  let yoe := (doe - doe / 1460 + doe / 36524 - doe / 146096) / 365 in
  let doy := doe - (365 * yoe + yoe / 4 - yoe / 100) in
  let mp := (5 * doy + 2) / 153 in
  let d := doy - (153 * mp + 2) / 5 + 1 in
  let m := if mp <? 10 then mp + 3 else mp - 9 in
  let y := yoe + era * 400 in
  (if m <=? 2 then y + 1 else y, m, d).

Definition fullYear (t : Date) : Z := fst (fst (civil (Day t))).
Definition month (t : Date) : Z := snd (fst (civil (Day t))) - 1.
Definition date (t : Date) : Z := snd (civil (Day t)).
Definition hours (t : Date) : Z := (t / msPerHour) mod 24.
Definition minutes (t : Date) : Z := (t / msPerMinute) mod 60.

(** [setDate(k)] keeps the time within the day and moves to day [k] of
    the current month, days outside the month overflowing into the
    neighbouring months: the day number changes by [k - getDate()]. *)
Definition withDate (t : Date) (k : Z) : Date := t + (k - date t) * msPerDay.

End UTCDate.

#[export] Instance UTC : TimeZone := {|
  getFullYear := UTCDate.fullYear;
  getMonth := UTCDate.month;
  getDate := UTCDate.date;
  getHours := UTCDate.hours;
  getMinutes := UTCDate.minutes;
  setDate := UTCDate.withDate;
  getHours_range := fun t => Z.mod_pos_bound (t / UTCDate.msPerHour) 24 eq_refl;
  getMinutes_range := fun t => Z.mod_pos_bound (t / UTCDate.msPerMinute) 60 eq_refl
|}.

(** ** JavaScript helpers *)

(** [String(n).padStart(2, '0')] for an integer [n]. *)
Definition String_ (n : Z) : string := pretty n.

Definition padStart2 (s : string) : string :=
  match String.length s with
  | O => "00"
  | S O => "0" +:+ s
  | _ => s
  end.

(** [a > b] on numbers. *)
Definition Qgtb (a b : Q) : bool := negb (Qle_bool a b).

Definition Math_min (a b : Q) : Q := Qmin a b.
Definition Math_abs (a : Q) : Q := Qabs a.

(** [for (const x of l) body], the state threaded explicitly and a throw
    in the body ending the loop. *)
Fixpoint forOf {A S : Type} (l : list A) (body : A -> S -> option S) (s : S)
  : option S :=
  match l with
  | [] => Some s
  | x :: l' => s' ← body x s; forOf l' body s'
  end.

(** [for (let m = from; ...; m++) body] running [n] times. *)
Fixpoint forCount {S : Type} (n : nat) (from : Z) (body : Z -> S -> option S)
  (s : S) : option S :=
  match n with
  | O => Some s
  | Datatypes.S n' => s' ← body from s; forCount n' (from + 1) body s'
  end.

(** [for (let m = from; m < to; m++) body]. *)
Definition forRange {S : Type} (from to : Z) (body : Z -> S -> option S)
  (s : S) : option S :=
  forCount (Z.to_nat (to - from)) from body s.

Module Heatmap.

Definition MINUTES_PER_DAY : Z := 1440.

Definition ACTIVITY_COLORS : gmap string string :=
  list_to_map [("sleep", "#66BB6A"); ("nursing", "#F48FB1");
               ("pumping", "#CE93D8"); ("bottle", "#64B5F6");
               ("diaper", "#FFB74D")].

Definition ACTIVITY_NAMES : gmap string string :=
  list_to_map [("sleep", "Sleep"); ("nursing", "Nursing");
               ("pumping", "Pumping"); ("bottle", "Bottle");
               ("diaper", "Diaper")].

(** Activity objects as the parser builds them; only the fields the
    heatmap reads are kept. *)
Record DurationActivity := { start : Date; durationMinutes : Z }.
Record InstantActivity := { time : Date }.

(** The object [{ sleep: [...], nursing: [...], ... }]. *)
Record Activities := {
  sleep : list DurationActivity;
  nursing : list DurationActivity;
  pumping : list DurationActivity;
  bottle : list InstantActivity;
  diaper : list InstantActivity
}.

(** [allActivities[type]] for the duration kinds and the instant kinds;
    a key the object does not have is [undefined], which the guard of
    [calculateAllHeatmaps] treats like an empty array. *)
Definition durationActivities (a : Activities) (type : string)
  : list DurationActivity :=
  if decide (type = "sleep") then sleep a
  else if decide (type = "nursing") then nursing a
  else if decide (type = "pumping") then pumping a
  else [].

Definition instantActivities (a : Activities) (type : string)
  : list InstantActivity :=
  if decide (type = "bottle") then bottle a
  else if decide (type = "diaper") then diaper a
  else [].

(** Result of the per-kind aggregation. *)
Record Aggregate := {
  minuteDays : list (gset string);
  uniqueDays : gset string;
  totalCount : nat
}.

(** The same object once [calculateAllHeatmaps] has added its fields. *)
Record HeatmapData := {
  data : Aggregate;
  intensities : list Q;
  color : option string;
  name : option string
}.

Record Run := { startMinute : Z; endMinute : Z; intensity : Q }.

(** [minuteDays[m].add(dateStr)]. *)
Definition addDay (dateStr : string) (m : Z) (minuteDays : list (gset string))
  : option (list (gset string)) :=
  if bool_decide (0 <= m < Z.of_nat (length minuteDays))
  then Some (alter (fun days => days ∪ {[dateStr]}) (Z.to_nat m) minuteDays)
  else None.

Definition markMinuteRange (minuteDays : list (gset string))
  (startMinute durationMinutes : Z) (dateStr : string)
  : option (list (gset string)) :=
  let endMinute := startMinute + durationMinutes in
  if endMinute <=? MINUTES_PER_DAY then
    forRange startMinute endMinute (addDay dateStr) minuteDays
  else
    minuteDays' ← forRange startMinute MINUTES_PER_DAY (addDay dateStr) minuteDays;
    let wrappedEnd := Z.rem endMinute MINUTES_PER_DAY in
    forRange 0 wrappedEnd (addDay dateStr) minuteDays'.

(** [Array(MINUTES_PER_DAY).fill(null).map(() => new Set())]. *)
Definition emptyMinuteDays : list (gset string) :=
  replicate (Z.to_nat MINUTES_PER_DAY) ∅.

Definition HALF_WINDOW : Z := 7.

Definition normalizedMinute (m : Z) : Z :=
  Z.rem (Z.rem m MINUTES_PER_DAY + MINUTES_PER_DAY) MINUTES_PER_DAY.

Section WithTimeZone.
Context {tz : TimeZone}.

Definition timeToMinutes (date : Date) : Z :=
  getHours date * 60 + getMinutes date.

Definition getDateString (date : Date) : string :=
  String_ (getFullYear date) +:+ "-" +:+
  padStart2 (String_ (getMonth date + 1)) +:+ "-" +:+
  padStart2 (String_ (getDate date)).

Definition calculateDurationHeatmap (activities : list DurationActivity)
  : option Aggregate :=
  '(minuteDays, uniqueDays) ←
    forOf activities (fun activity '(minuteDays, uniqueDays) =>
      let startMinute := timeToMinutes (start activity) in
      let dateStr := getDateString (start activity) in
      minuteDays' ← markMinuteRange minuteDays startMinute
                      (durationMinutes activity) dateStr;
      Some (minuteDays', uniqueDays ∪ {[dateStr]}))
    (emptyMinuteDays, ∅);
  Some {| minuteDays := minuteDays; uniqueDays := uniqueDays;
          totalCount := length activities |}.

Definition calculateInstantHeatmap (activities : list InstantActivity)
  : option Aggregate :=
  '(minuteDays, uniqueDays) ←
    forOf activities (fun activity '(minuteDays, uniqueDays) =>
      let minute := timeToMinutes (time activity) in
      let dateStr := getDateString (time activity) in
      minuteDays' ← forRange (minute - HALF_WINDOW) (minute + HALF_WINDOW + 1)
                      (fun m => addDay dateStr (normalizedMinute m)) minuteDays;
      Some (minuteDays', uniqueDays ∪ {[dateStr]}))
    (emptyMinuteDays, ∅);
  Some {| minuteDays := minuteDays; uniqueDays := uniqueDays;
          totalCount := length activities |}.

(** One minute of [data.minuteDays.map(days => ...)]. *)
Definition intensityOf (totalDays : nat) (days : gset string) : Q :=
  if bool_decide (0 < totalDays)%nat
  then Math_min 1 (inject_Z (Z.of_nat (size days)) / inject_Z (Z.of_nat totalDays))
  else 0%Q.

(** The object [calculateAllHeatmaps] returns; its [dateRange] field,
    which re-parses the date keys for display, is left out. *)
Record HeatmapResult := {
  heatmaps : gmap string HeatmapData;
  totalDays : nat;
  allUniqueDays : gset string
}.

(** The body shared by the two loops over kinds: aggregate a kind that
    has records, store the result under the kind's name and add its
    days to the global set. *)
Definition aggregateKind {A : Type} (calculate : list A -> option Aggregate)
  (activitiesOf : string -> list A) (type : string)
  (acc : gmap string Aggregate * gset string)
  : option (gmap string Aggregate * gset string) :=
  let '(heatmaps, allUniqueDays) := acc in
  if bool_decide (0 < length (activitiesOf type))%nat then
    result ← calculate (activitiesOf type);
    Some (<[type := result]> heatmaps, allUniqueDays ∪ uniqueDays result)
  else Some acc.

Definition durationTypes : list string := ["sleep"; "nursing"; "pumping"].
Definition instantTypes : list string := ["bottle"; "diaper"].

Definition calculateAllHeatmaps (allActivities : Activities)
  : option HeatmapResult :=
  acc ← forOf durationTypes
          (aggregateKind calculateDurationHeatmap (durationActivities allActivities))
          (∅, ∅);
  '(heatmaps, allUniqueDays) ← forOf instantTypes
          (aggregateKind calculateInstantHeatmap (instantActivities allActivities))
          acc;
  let totalDays := size allUniqueDays in
  Some {| heatmaps :=
            map_imap (fun type data => Some
              {| data := data;
                 intensities := intensityOf totalDays <$> minuteDays data;
                 color := ACTIVITY_COLORS !! type;
                 name := ACTIVITY_NAMES !! type |}) heatmaps;
          totalDays := totalDays;
          allUniqueDays := allUniqueDays |}.

End WithTimeZone.

(** The loop of [findIntensityRuns]: [m] is the index of the head of
    [rest]. *)
Fixpoint scanRuns (threshold : Q) (rest : list Q) (m : Z)
  (runStart : Z) (runIntensity : Q) (runs : list Run) : list Run * Z * Q :=
  match rest with
  | [] => (runs, runStart, runIntensity)
  | currentIntensity :: rest' =>
    if Qgtb (Math_abs (currentIntensity - runIntensity)) threshold then
      let runs' :=
        if Qgtb runIntensity 0
        then runs ++ [{| startMinute := runStart; endMinute := m;
                         intensity := runIntensity |}]
        else runs in
      scanRuns threshold rest' (m + 1) m currentIntensity runs'
    else scanRuns threshold rest' (m + 1) runStart runIntensity runs
  end.

Definition DEFAULT_THRESHOLD : Q := 2 # 100.

Definition findIntensityRuns (intensities : list Q) (threshold : Q) : list Run :=
  match intensities with
  | [] => []
  | first :: rest =>
    let '(runs, runStart, runIntensity) :=
      scanRuns threshold rest 1 0 first [] in
    if Qgtb runIntensity 0
    then runs ++ [{| startMinute := runStart; endMinute := MINUTES_PER_DAY;
                     intensity := runIntensity |}]
    else runs
  end.

End Heatmap.

Module App.
Import Heatmap.

Record DateFilter := {
  dateFilter_start : option Date;
  dateFilter_end : option Date
}.

(** The part of the application state the date filter works on. *)
Record State := {
  activities : Activities;
  dateFilter : DateFilter
}.

(** [Math.min(...dates)] and [Math.max(...dates)] on a non-empty array
    (on an empty one they are the infinities; the caller returns before). *)
Definition Math_min_of (first : Z) (others : list Z) : Z :=
  foldl Z.min first others.
Definition Math_max_of (first : Z) (others : list Z) : Z :=
  foldl Z.max first others.

Definition getAllActivityDates (state : State) : list Z :=
  let a := activities state in
  concat ((fun type => (fun activity => getTime (start activity))
                         <$> durationActivities a type) <$> durationTypes)
  ++ concat ((fun type => (fun activity => getTime (time activity))
                            <$> instantActivities a type) <$> instantTypes).

Section WithTimeZone.
Context {tz : TimeZone}.

(** [today] and [now] are the two readings of the clock, [new Date()],
    the function makes; [thirtyDaysAgo] starts as the second one.  The
    writes to the date inputs of the page are left out. *)
Definition initializeDateFilter (today now : Date) (state : State) : State :=
  match getAllActivityDates state with
  | [] => state
  | first :: others =>
    let minDate := newDate (Math_min_of first others) in
    let maxDate := newDate (Math_max_of first others) in
    let thirtyDaysAgo := setDate now (getDate today - 30) in
    let filterStart :=
      if getTime thirtyDaysAgo >? getTime minDate then thirtyDaysAgo else minDate in
    let filterEnd :=
      if getTime today <? getTime maxDate then today else maxDate in
    {| activities := activities state;
       dateFilter := {| dateFilter_start := Some filterStart;
                        dateFilter_end := Some filterEnd |} |}
  end.

End WithTimeZone.

(** The callback of the two [filter] calls, on the date of the record. *)
Definition keepDate (start end_ : option Date) (activityDate : Date) : bool :=
  match start with
  | Some s => if getTime activityDate <? getTime s then false else
      match end_ with
      | Some e => if getTime activityDate >? getTime e then false else true
      | None => true
      end
  | None =>
      match end_ with
      | Some e => if getTime activityDate >? getTime e then false else true
      | None => true
      end
  end.

Definition getFilteredActivities (state : State) : Activities :=
  let start := dateFilter_start (dateFilter state) in
  let end_ := dateFilter_end (dateFilter state) in
  match start, end_ with
  | None, None => activities state
  | _, _ =>
    let a := activities state in
    {| sleep := filter (fun activity => keepDate start end_ (Heatmap.start activity) = true) (sleep a);
       nursing := filter (fun activity => keepDate start end_ (Heatmap.start activity) = true) (nursing a);
       pumping := filter (fun activity => keepDate start end_ (Heatmap.start activity) = true) (pumping a);
       bottle := filter (fun activity => keepDate start end_ (time activity) = true) (bottle a);
       diaper := filter (fun activity => keepDate start end_ (time activity) = true) (diaper a) |}
  end.

(** The end of [handleFileUpload] in the version with the date filter:
    the window is set anew from the records and the clock, and the heatmap
    is computed from the records the window keeps. *)
Definition heatmapAfterUpload `{tz : TimeZone} (today now : Date) (state : State)
  : option HeatmapResult :=
  calculateAllHeatmaps (getFilteredActivities (initializeDateFilter today now state)).

End App.

(** ** Predicates and sample inputs used in the statements *)

Module Segmenter.
Import Heatmap.

(** What holds of a run over the array it was cut from: it starts at
    an index of the array, carries the value found there, and every
    later minute it covers is within the threshold of that value. *)
Definition anchored (intensities : list Q) (threshold : Q)
  (runStart stop : Z) (runIntensity : Q) : Prop :=
  0 <= runStart < stop /\
  intensities !! Z.to_nat runStart = Some runIntensity /\
  forall k v, runStart < k < stop -> intensities !! Z.to_nat k = Some v ->
    (Qabs (v - runIntensity) <= threshold)%Q.

Definition emitted (intensities : list Q) (threshold : Q) (r : Run) : Prop :=
  (0 < intensity r)%Q /\
  anchored intensities threshold (startMinute r) (endMinute r) (intensity r).

(** Runs follow each other without overlap. *)
Definition ordered (runs : list Run) : Prop :=
  StronglySorted (fun a b => endMinute a <= startMinute b) runs.

(** A run is well placed in the array: it carries the value at its
    start, and the later minutes it covers are within the threshold. *)
Definition carriesAnchor (intensities : list Q) (threshold : Q) (r : Run) : Prop :=
  intensities !! Z.to_nat (startMinute r) = Some (intensity r) /\
  forall k v, startMinute r < k < endMinute r ->
    intensities !! Z.to_nat k = Some v ->
    (Qabs (v - intensity r) <= threshold)%Q.

(** The sample array of the overnight scenario: active from 20:00 to
    01:00. *)
Definition overnight : list Q :=
  replicate 60 1%Q ++ replicate 1140 0%Q ++ replicate 240 1%Q.

(** An array that is zero all day but for a last sample of 1%. *)
Definition faintLastMinute : list Q := replicate 1439 0%Q ++ [1 # 100].

End Segmenter.

Module Coverage.
Import Heatmap.

(** From the specification: the half-open range
    [[startMinute, startMinute + duration)] includes [m] modulo 1440. *)
Definition coversInterval (startMinute duration m : Z) : Prop :=
  exists j, 0 <= j < duration /\ (startMinute + j) mod 1440 = m.

(** From the specification: [m] lies in the symmetric window of 7
    minutes on either side of the event's minute, modulo 1440. *)
Definition coversWindow (minute m : Z) : Prop :=
  exists offset, -7 <= offset <= 7 /\ (minute + offset) mod 1440 = m.

(** The minutes the two loops of [markMinuteRange] visit. *)
Definition marksInterval (startMinute durationMinutes m : Z) : bool :=
  let endMinute := startMinute + durationMinutes in
  if endMinute <=? MINUTES_PER_DAY
  then (startMinute <=? m) && (m <? endMinute)
  else ((startMinute <=? m) && (m <? MINUTES_PER_DAY))
       || ((0 <=? m) && (m <? Z.rem endMinute MINUTES_PER_DAY)).

(** The minutes the loop of [calculateInstantHeatmap] visits. *)
Definition marksWindow (minute m : Z) : bool :=
  bool_decide (Exists (fun j => normalizedMinute j = m)
                 (seqZ (minute - HALF_WINDOW) (2 * HALF_WINDOW + 1))).

Section WithTimeZone.
Context {tz : TimeZone}.

Definition durationKey (a : DurationActivity) : string := getDateString (start a).
Definition instantKey (a : InstantActivity) : string := getDateString (time a).

Definition durationMarks (m : Z) (a : DurationActivity) : bool :=
  marksInterval (timeToMinutes (start a)) (durationMinutes a) m.
Definition instantMarks (m : Z) (a : InstantActivity) : bool :=
  marksWindow (timeToMinutes (time a)) m.

(** The date keys of all the records of a data set, kind by kind. *)
Definition dateKeys (a : Activities) : list string :=
  (durationKey <$> sleep a) ++ (durationKey <$> nursing a) ++
  (durationKey <$> pumping a) ++ (instantKey <$> bottle a) ++
  (instantKey <$> diaper a).

(** The date keys of the records of kind [type] that mark minute [m],
    one entry per record. *)
Definition markedDates (a : Activities) (type : string) (m : Z) : list string :=
  (durationKey <$> filter (fun r => durationMarks m r = true)
                     (durationActivities a type)) ++
  (instantKey <$> filter (fun r => instantMarks m r = true)
                    (instantActivities a type)).

(** What a kind contributes to the result: nothing when it has no
    records, its aggregate otherwise. *)
Definition present {A : Type} (calculate : list A -> option Aggregate)
  (activities : list A) : option Aggregate :=
  match activities with
  | [] => None
  | _ => calculate activities
  end.

Definition aggregateOf (a : Activities) (type : string) : option Aggregate :=
  if decide (type = "sleep") then present calculateDurationHeatmap (sleep a)
  else if decide (type = "nursing") then present calculateDurationHeatmap (nursing a)
  else if decide (type = "pumping") then present calculateDurationHeatmap (pumping a)
  else if decide (type = "bottle") then present calculateInstantHeatmap (bottle a)
  else if decide (type = "diaper") then present calculateInstantHeatmap (diaper a)
  else None.

End WithTimeZone.

(** The loop of a per-kind function and the object it returns, for any
    way [mark] of marking the minutes of a record. *)
Definition kindBody {A : Type} (keyOf : A -> string)
  (mark : A -> list (gset string) -> option (list (gset string)))
  (a : A) (acc : list (gset string) * gset string)
  : option (list (gset string) * gset string) :=
  let '(md, ud) := acc in
  md' ← mark a md; Some (md', ud ∪ {[keyOf a]}).

Definition kindResult {A : Type} (keyOf : A -> string)
  (mark : A -> list (gset string) -> option (list (gset string)))
  (activities : list A) : option Aggregate :=
  '(md, ud) ← forOf activities (kindBody keyOf mark) (emptyMinuteDays, ∅);
  Some {| minuteDays := md; uniqueDays := ud; totalCount := length activities |}.

(** The fields [calculateAllHeatmaps] adds to the aggregate of a kind. *)
Definition finish (totalDays : nat) (type : string) (agg : Aggregate)
  : HeatmapData :=
  {| data := agg;
     intensities := intensityOf totalDays <$> minuteDays agg;
     color := ACTIVITY_COLORS !! type;
     name := ACTIVITY_NAMES !! type |}.

Definition noRecords (a : Activities) : Prop :=
  sleep a = [] /\ nursing a = [] /\ pumping a = [] /\
  bottle a = [] /\ diaper a = [].

End Coverage.

Module Filter.
Import Heatmap App.

(** From the specification: the instant falls within the bound, a bound
    that is not supplied leaving its side unconstrained. *)
Definition withinBounds (lo hi : option Date) (t : Date) : Prop :=
  match lo with Some s => getTime s <= getTime t | None => True end /\
  match hi with Some e => getTime t <= getTime e | None => True end.

#[export] Instance withinBounds_dec lo hi t : Decision (withinBounds lo hi t).
Proof. unfold withinBounds. destruct lo, hi; apply _. Defined.

(** The subset of a data set the specification describes. *)
Definition restrict (lo hi : option Date) (a : Activities) : Activities :=
  {| sleep := filter (fun r => withinBounds lo hi (start r)) (sleep a);
     nursing := filter (fun r => withinBounds lo hi (start r)) (nursing a);
     pumping := filter (fun r => withinBounds lo hi (start r)) (pumping a);
     bottle := filter (fun r => withinBounds lo hi (time r)) (bottle a);
     diaper := filter (fun r => withinBounds lo hi (time r)) (diaper a) |}.

End Filter.

Module Samples.
Import Heatmap App.

(** 13 January 2026, 20:00, and 1 June 2025, 08:20, as UTC time values. *)
Definition evening : Date := 1768334400000.
Definition morning : Date := 1748766000000.

Definition overnightSleep : DurationActivity :=
  {| start := evening; durationMinutes := 300 |}.

(** A record of 40 hours and 40 minutes. *)
Definition longSleep : DurationActivity :=
  {| start := morning; durationMinutes := 2440 |}.

Definition onlySleep (r : DurationActivity) : Activities :=
  {| sleep := [r]; nursing := []; pumping := []; bottle := []; diaper := [] |}.

Definition noFilter : DateFilter :=
  {| dateFilter_start := None; dateFilter_end := None |}.

End Samples.

Module Segments.
Import Heatmap.

(** Minute [k] lies within the run. *)
Definition covers (k : Z) (r : Run) : Prop := startMinute r <= k < endMinute r.

(** The run stops where the curve leaves its intensity by more than the
    threshold. *)
Definition closedBy (intensities : list Q) (threshold : Q) (r : Run) : Prop :=
  exists v, intensities !! Z.to_nat (endMinute r) = Some v /\
    (threshold < Qabs (v - intensity r))%Q.

End Segments.

Module Dataset.
Import Heatmap.

(** Two data sets hold the same records of every kind, whatever their
    order and however often each is repeated. *)
Definition sameRecords (a a' : Activities) : Prop :=
  (forall r, r ∈ sleep a <-> r ∈ sleep a') /\
  (forall r, r ∈ nursing a <-> r ∈ nursing a') /\
  (forall r, r ∈ pumping a <-> r ∈ pumping a') /\
  (forall r, r ∈ bottle a <-> r ∈ bottle a') /\
  (forall r, r ∈ diaper a <-> r ∈ diaper a').

(** Every record of [a'] is a record of [a]. *)
Definition subRecords (a' a : Activities) : Prop :=
  sleep a' ⊆ sleep a /\ nursing a' ⊆ nursing a /\ pumping a' ⊆ pumping a /\
  bottle a' ⊆ bottle a /\ diaper a' ⊆ diaper a.

(** The part of an aggregate that does not count repetitions. *)
Definition days (agg : Aggregate) : list (gset string) * gset string :=
  (minuteDays agg, uniqueDays agg).

(** What is drawn for a kind: its day-sets, its days, its intensities,
    its colour and its name; only [totalCount] is left out. *)
Definition curve (h : HeatmapData)
  : list (gset string) * gset string * list Q * option string * option string :=
  (minuteDays (data h), uniqueDays (data h), intensities h, color h, name h).

(** The result of parsing one file: [parseFile] resolves with the kind
    detected from the file name and the records of that kind. *)
Inductive ParseResult :=
| SleepResult (activities : list DurationActivity)
| NursingResult (activities : list DurationActivity)
| PumpingResult (activities : list DurationActivity)
| BottleResult (activities : list InstantActivity)
| DiaperResult (activities : list InstantActivity).

(** The body of the loop of [handleFileUpload] over the parse results, on
    the [activities] of the state:
    [if (result.activities.length > 0)
       state.activities[result.type].push(...result.activities)]. *)
Definition mergeResult (result : ParseResult) (a : Activities) : Activities :=
  match result with
  | SleepResult l =>
    if bool_decide (0 < length l)%nat
    then {| sleep := sleep a ++ l; nursing := nursing a; pumping := pumping a;
            bottle := bottle a; diaper := diaper a |}
    else a
  | NursingResult l =>
    if bool_decide (0 < length l)%nat
    then {| sleep := sleep a; nursing := nursing a ++ l; pumping := pumping a;
            bottle := bottle a; diaper := diaper a |}
    else a
  | PumpingResult l =>
    if bool_decide (0 < length l)%nat
    then {| sleep := sleep a; nursing := nursing a; pumping := pumping a ++ l;
            bottle := bottle a; diaper := diaper a |}
    else a
  | BottleResult l =>
    if bool_decide (0 < length l)%nat
    then {| sleep := sleep a; nursing := nursing a; pumping := pumping a;
            bottle := bottle a ++ l; diaper := diaper a |}
    else a
  | DiaperResult l =>
    if bool_decide (0 < length l)%nat
    then {| sleep := sleep a; nursing := nursing a; pumping := pumping a;
            bottle := bottle a; diaper := diaper a ++ l |}
    else a
  end.

End Dataset.

Module Render.
Import Heatmap.

Definition Math_max (a b : Q) : Q := Qmax a b.

(** [minutesToTimeString]. *)
Definition minutesToTimeString (minutes : Z) : string :=
  let hours := minutes / 60 in
  let mins := Z.rem minutes 60 in
  padStart2 (String_ hours) +:+ ":" +:+ padStart2 (String_ mins).

(** [getCurrentMinutes], [now] being the reading of the clock. *)
Definition getCurrentMinutes `{tz : TimeZone} (now : Date) : Z := timeToMinutes now.

(** [getDateRange]; [parse] stands for the host's [new Date(string)], and
    the dates are their time values.  The array is sorted in ascending
    order by the comparison [(a, b) => a - b]. *)
Definition getDateRange (parse : string -> Date) (dateStrings : gset string)
  : option (Date * Date) :=
  if decide (size dateStrings = 0%nat) then None
  else
    let dates := merge_sort Z.le (parse <$> elements dateStrings) in
    match head dates, last dates with
    | Some first, Some final => Some (first, final)
    | _, _ => None
    end.

(** The dimensions [render] works with. *)
Record Margin := { margin_top : Z; margin_right : Z; margin_bottom : Z; margin_left : Z }.

Definition margin : Margin :=
  {| margin_top := 20; margin_right := 40; margin_bottom := 20; margin_left := 50 |}.
Definition width : Z := 700.
Definition rowHeight : Z := 24.
Definition chartWidth : Z := width - margin_left margin - margin_right margin.
Definition pixelsPerMinute : Q := (inject_Z chartWidth / 60)%Q.

(** The attributes of a bar, an SVG [rect] of class [activity-bar]. *)
Record Rect := {
  rect_x : Q;
  rect_y : Q;
  rect_width : Q;
  rect_height : Q;
  rect_fill : option string;
  rect_opacity : Q
}.

(** The hour rows a run is cut into: for each row the hour and the first
    and last-plus-one minute within the hour, as the body of the loop over
    runs computes them. *)
Definition hourSegments (run : Run) : list (Z * Z * Z) :=
  let startHour := startMinute run / 60 in
  let startMinuteInHour := Z.rem (startMinute run) 60 in
  let endHour := (endMinute run - 1) / 60 in
  let endMinuteInHour := Z.rem (endMinute run - 1) 60 + 1 in
  if startHour =? endHour then
    [(startHour, startMinuteInHour, endMinuteInHour)]
  else
    (fun hour =>
       if hour =? startHour then (hour, startMinuteInHour, 60)
       else if hour =? endHour then (hour, 0, endMinuteInHour)
       else (hour, 0, 60))
    <$> seqZ startHour (endHour - startHour + 1).

(** The [rect] drawn for one row of a run. *)
Definition bar (fill : option string) (intensity : Q) (segment : Z * Z * Z) : Rect :=
  let '(hour, segmentStart, segmentEnd) := segment in
  let rectWidth := (inject_Z (segmentEnd - segmentStart) * pixelsPerMinute)%Q in
  {| rect_x := (inject_Z segmentStart * pixelsPerMinute)%Q;
     rect_y := inject_Z (hour * rowHeight + 2);
     rect_width := Math_max 1%Q rectWidth;
     rect_height := inject_Z (rowHeight - 4);
     rect_fill := fill;
     rect_opacity := (intensity * (85 # 100))%Q |}.

Definition runBars (data : HeatmapData) (run : Run) : list Rect :=
  bar (color data) (intensity run) <$> hourSegments run.

(** The bars [render] appends for the visible kinds, in order;
    [Object.keys(heatmaps)] lists the kinds in the order in which
    [calculateAllHeatmaps] inserted them. *)
Definition activityBars (heatmaps : gmap string HeatmapData)
  (visibility : gmap string bool) : list Rect :=
  let visibleTypes :=
    filter (fun type => is_Some (heatmaps !! type) /\ visibility !! type = Some true)
      (durationTypes ++ instantTypes) in
  type ← visibleTypes;
  match heatmaps !! type with
  | Some data =>
    run ← findIntensityRuns (intensities data) DEFAULT_THRESHOLD;
    runBars data run
  | None => []
  end.

End Render.

Module Number.

(** The numbers of the host, IEEE 754 doubles: the finite ones by their
    exact value, a rational, and the two zeros not told apart (the sign of
    a zero shows only in the sign of an infinite quotient by it). *)
Inductive Number :=
| NaN
| Infinity (negative : bool)
| Finite (value : Q).

(** [2 ^ e]. *)
Definition pow2 (e : Z) : Q := Qpower 2 e.

(** The binade of a positive rational: [2 ^ e <= q < 2 ^ (e + 1)]. *)
Definition ilog2 (q : Q) : Z :=
  let e := Z.log2 (Qnum q) - Z.log2 (Zpos (Qden q)) in
  if Qle_bool (pow2 e) q then e else e - 1.

(** The exponent of the unit in the last place of the doubles around a
    positive rational: 53 significant bits, and subnormal numbers below
    [2 ^ -1022]. *)
Definition ulpExponent (q : Q) : Z := Z.max (ilog2 q - 52) (-1074).

(** The nearest integer, a tie going to the even one. *)
Definition roundHalfEven (q : Q) : Z :=
  let n := Qfloor q in
  match (q - inject_Z n ?= 1 # 2)%Q with
  | Lt => n
  | Gt => n + 1
  | Eq => if Z.even n then n else n + 1
  end.

(** The nearest multiple of the unit in the last place. *)
Definition nearest (q : Q) : Q :=
  let u := ulpExponent q in
  (inject_Z (roundHalfEven (q / pow2 u)) * pow2 u)%Q.

(** The double nearest to a positive rational; from [2 ^ 1024] on the
    result is infinite. *)
Definition roundPositive (q : Q) : Number :=
  let r := nearest q in
  if Qle_bool (pow2 1024) r then Infinity false else Finite (Qred r).

Definition negate (x : Number) : Number :=
  match x with
  | NaN => NaN
  | Infinity negative => Infinity (negb negative)
  | Finite q => Finite (- q)
  end.

(** The double nearest to a rational: what every arithmetic operation
    returns for its exact result. *)
Definition round64 (q : Q) : Number :=
  match (q ?= 0)%Q with
  | Eq => Finite 0
  | Gt => roundPositive q
  | Lt => negate (roundPositive (- q))
  end.

Definition isZero (q : Q) : bool := Qeq_bool q 0.
Definition isNegative (q : Q) : bool := negb (Qle_bool 0 q).

(** [a + b], [a - b], [a * b] and [a / b]. *)
Definition add (a b : Number) : Number :=
  match a, b with
  | NaN, _ | _, NaN => NaN
  | Infinity s, Infinity t => if Bool.eqb s t then Infinity s else NaN
  | Infinity s, Finite _ | Finite _, Infinity s => Infinity s
  | Finite x, Finite y => round64 (x + y)
  end.

Definition sub (a b : Number) : Number :=
  match a, b with
  | NaN, _ | _, NaN => NaN
  | Infinity s, Infinity t => if Bool.eqb s t then NaN else Infinity s
  | Infinity s, Finite _ => Infinity s
  | Finite _, Infinity t => Infinity (negb t)
  | Finite x, Finite y => round64 (x - y)
  end.

Definition mul (a b : Number) : Number :=
  match a, b with
  | NaN, _ | _, NaN => NaN
  | Infinity s, Infinity t => Infinity (xorb s t)
  | Infinity s, Finite y | Finite y, Infinity s =>
    if isZero y then NaN else Infinity (xorb s (isNegative y))
  | Finite x, Finite y => round64 (x * y)
  end.

Definition div (a b : Number) : Number :=
  match a, b with
  | NaN, _ | _, NaN => NaN
  | Infinity _, Infinity _ => NaN
  | Infinity s, Finite y => Infinity (xorb s (isNegative y))
  | Finite _, Infinity _ => Finite 0
  | Finite x, Finite y =>
    if isZero y then (if isZero x then NaN else Infinity (isNegative x))
    else round64 (x / y)
  end.

(** [a < b] and [a > b]; a comparison with [NaN] is false. *)
Definition lt (a b : Number) : bool :=
  match a, b with
  | NaN, _ | _, NaN => false
  | Infinity s, Infinity t => s && negb t
  | Infinity s, Finite _ => s
  | Finite _, Infinity t => negb t
  | Finite x, Finite y => negb (Qle_bool y x)
  end.

Definition gt (a b : Number) : bool := lt b a.

(** [Math.floor], [Math.round] (halves going up) and [Math.min]. *)
Definition floor (a : Number) : Number :=
  match a with
  | Finite q => Finite (inject_Z (Qfloor q))
  | _ => a
  end.

Definition round (a : Number) : Number :=
  match a with
  | Finite q => Finite (inject_Z (Qfloor (q + (1 # 2))))
  | _ => a
  end.

Definition min (a b : Number) : Number :=
  match a, b with
  | NaN, _ | _, NaN => NaN
  | _, _ => if lt b a then b else a
  end.

(** An integer as a number (exact below [2 ^ 53]). *)
Definition ofZ (n : Z) : Number := Finite (inject_Z n).

(** The same number, finite values in lowest terms. *)
Definition eqb (a b : Number) : bool :=
  match a, b with
  | NaN, NaN => true
  | Infinity s, Infinity t => Bool.eqb s t
  | Finite x, Finite y => (Qnum x =? Qnum y) && (Qden x =? Qden y)%positive
  | _, _ => false
  end.

End Number.

(** The functions of the tooltip, on the numbers of the host. *)
Module Tooltip.
Import Heatmap Render Number.

(** [formatPercentage]; [toString] is the conversion of a number to a
    string of the host, which the template literal applies. *)
Definition formatPercentage (toString : Number -> string) (intensity : Number)
  : string :=
  toString (round (mul intensity (ofZ 100))) +:+ "%".

Definition height : Z := 24 * rowHeight + margin_top margin + margin_bottom margin.

(** What [render] stores on the SVG for [getMinuteFromEvent]. *)
Record ChartInfo := {
  info_margin : Margin;
  info_chartWidth : Number;
  info_rowHeight : Number;
  info_pixelsPerMinute : Number
}.

Definition chartInfo : ChartInfo :=
  {| info_margin := margin; info_chartWidth := ofZ chartWidth;
     info_rowHeight := ofZ rowHeight;
     info_pixelsPerMinute := div (ofZ chartWidth) (ofZ 60) |}.

(** The bounding rectangle of the SVG and the size of its view box. *)
Record Layout := {
  rect_left : Number; rect_top : Number; svgWidth : Number; svgHeight : Number;
  viewBox_width : Number; viewBox_height : Number
}.

(** The position in chart coordinates [getMinuteFromEvent] computes. *)
Definition chartX (info : ChartInfo) (layout : Layout) (clientX : Number) : Number :=
  let scaleX := div (viewBox_width layout) (svgWidth layout) in
  let mouseX := mul (sub clientX (rect_left layout)) scaleX in
  sub mouseX (ofZ (margin_left (info_margin info))).

Definition chartY (info : ChartInfo) (layout : Layout) (clientY : Number) : Number :=
  let scaleY := div (viewBox_height layout) (svgHeight layout) in
  let mouseY := mul (sub clientY (rect_top layout)) scaleY in
  sub mouseY (ofZ (margin_top (info_margin info))).

(** [getMinuteFromEvent]; [None] is null. *)
Definition getMinuteFromEvent (svg_chartInfo : option ChartInfo) (layout : Layout)
  (clientX clientY : Number) : option Number :=
  match svg_chartInfo with
  | None => None
  | Some info =>
    let x := chartX info layout clientX in
    let y := chartY info layout clientY in
    if lt x (ofZ 0) || gt x (info_chartWidth info) then None
    else if lt y (ofZ 0) || gt y (mul (ofZ 24) (info_rowHeight info)) then None
    else
      let hour := floor (div y (info_rowHeight info)) in
      let minuteInHour := floor (div x (info_pixelsPerMinute info)) in
      Some (min (add (mul hour (ofZ 60)) minuteInHour) (ofZ (MINUTES_PER_DAY - 1)))
  end.

(** An SVG as [render] builds it, laid out in a box of finite position
    that is at least one unit wide and high. *)
Definition laidOut (layout : Layout) : Prop :=
  exists left top w h : Q,
    layout = {| rect_left := Finite left; rect_top := Finite top;
                svgWidth := Finite w; svgHeight := Finite h;
                viewBox_width := ofZ width; viewBox_height := ofZ height |} /\
    (1 <= w)%Q /\ (w < pow2 1024)%Q /\ (1 <= h)%Q /\ (h < pow2 1024)%Q.

End Tooltip.

Module Parser.
Import Heatmap Dataset.

(** Strings are sequences of code units below 256; on these the string
    functions of the host behave as follows. *)

(** [toLowerCase]: the letters A to Z and the capital letters of Latin-1
    move 32 places up. *)
Definition lowerChar (c : ascii) : ascii :=
  let n := N_of_ascii c in
  if ((65 <=? n) && (n <=? 90))%N then ascii_of_N (n + 32)
  else if ((192 <=? n) && (n <=? 222) && negb (n =? 215))%N then ascii_of_N (n + 32)
  else c.

Fixpoint toLowerCase (s : string) : string :=
  match s with
  | EmptyString => EmptyString
  | String c s' => String (lowerChar c) (toLowerCase s')
  end.

(** [s.includes(sub)]. *)
Fixpoint includes (s sub : string) : bool :=
  String.prefix sub s ||
  match s with
  | EmptyString => false
  | String _ s' => includes s' sub
  end.

Definition detectActivityType (filename : string) : option string :=
  let lower := toLowerCase filename in
  if includes lower "sleep" then Some "sleep"
  else if includes lower "nursing" then Some "nursing"
  else if includes lower "pump" && negb (includes lower "expressed") then Some "pumping"
  else if includes lower "expressed" then Some "bottle"
  else if includes lower "diaper" then Some "diaper"
  else None.

(** White space, for [trim], for [\s] and for [parseInt]. *)
Definition isSpace (c : ascii) : bool :=
  let n := N_of_ascii c in
  ((9 <=? n) && (n <=? 13) || (n =? 32) || (n =? 160))%N.

(** [\d]. *)
Definition isDigit (c : ascii) : bool :=
  let n := N_of_ascii c in ((48 <=? n) && (n <=? 57))%N.

Fixpoint trimStart (s : string) : string :=
  match s with
  | String c s' => if isSpace c then trimStart s' else s
  | EmptyString => EmptyString
  end.

(** The string without its trailing white space. *)
Fixpoint trimEnd (s : string) : string :=
  match s with
  | EmptyString => EmptyString
  | String c s' =>
    match trimEnd s' with
    | EmptyString => if isSpace c then EmptyString else String c EmptyString
    | rest => String c rest
    end
  end.

Definition trim (s : string) : string := trimEnd (trimStart s).

(** [replace(/^"|"$/g, '')]: a quote at the start goes, and a quote at
    the end of what is left goes. *)
Definition quote : ascii := ascii_of_N 34.

Fixpoint dropFinalQuote (s : string) : string :=
  match s with
  | EmptyString => EmptyString
  | String c EmptyString => if Ascii.eqb c quote then EmptyString else s
  | String c s' => String c (dropFinalQuote s')
  end.

Definition stripQuotes (s : string) : string :=
  match s with
  | String c s' => if Ascii.eqb c quote then dropFinalQuote s' else dropFinalQuote s
  | EmptyString => EmptyString
  end.

(** The longest prefix of at most [max] digits, and what follows it. *)
Fixpoint spanDigits (max : nat) (s : string) : string * string :=
  match max, s with
  | S max', String c s' =>
    if isDigit c
    then let '(digits, rest) := spanDigits max' s' in (String c digits, rest)
    else (EmptyString, s)
  | _, _ => (EmptyString, s)
  end.

(** [parseInt(digits, 10)] on a string of digits. *)
Definition digitValue (c : ascii) : Z := Z.of_N (N_of_ascii c) - 48.

Fixpoint parseDigitsFrom (acc : Z) (s : string) : Z :=
  match s with
  | EmptyString => acc
  | String c s' => parseDigitsFrom (acc * 10 + digitValue c) s'
  end.

Definition parseDigits (s : string) : Z := parseDigitsFrom 0 s.

(** A group [(\d{1,2})] followed by the character [sep]: the digits and
    what follows the separator. *)
Definition digitsThen (sep : ascii) (s : string) : option (string * string) :=
  let '(digits, rest) := spanDigits 2 s in
  match digits, rest with
  | String _ _, String c rest' => if Ascii.eqb c sep then Some (digits, rest') else None
  | _, _ => None
  end.

(** The end of the pattern, [,?\s*(\d{1,2}):(\d{2})$]: hours and minutes. *)
Definition matchTime (s : string) : option (string * string) :=
  let s1 := match s with
            | String c s' => if Ascii.eqb c (ascii_of_N 44) then s' else s
            | EmptyString => s
            end in
  '(hours, s2) ← digitsThen (ascii_of_N 58) (trimStart s1);
  match s2 with
  | String a (String b EmptyString) =>
    if isDigit a && isDigit b then Some (hours, s2) else None
  | _ => None
  end.

(** The group [(\d{2,4})] and the end of the pattern: the year takes as
    many of the [n] digits at hand as lets the rest match, at least two. *)
Fixpoint matchYear (n : nat) (digits rest : string)
  : option (string * string * string) :=
  match n with
  | O | S O => None
  | S n' =>
    match matchTime (String.substring n (String.length digits - n) digits +:+ rest) with
    | Some (hours, minutes) => Some (String.substring 0 n digits, hours, minutes)
    | None => matchYear n' digits rest
    end
  end.

(** The match of
    [/^(\d{1,2})\/(\d{1,2})\/(\d{2,4}),?\s*(\d{1,2}):(\d{2})$/]. *)
Definition matchDateTime (cleaned : string)
  : option (string * string * string * string * string) :=
  '(month, s1) ← digitsThen (ascii_of_N 47) cleaned;
  '(day, s2) ← digitsThen (ascii_of_N 47) s1;
  let '(digits, rest) := spanDigits 4 s2 in
  '(year, hours, minutes) ← matchYear (String.length digits) digits rest;
  Some (month, day, year, hours, minutes).

(** [parseDateTime]; [None] as argument is a value that is not a string
    (a column the row does not have), [newLocalDate] the host's
    [new Date(year, month, day, hours, minutes)]. *)
Definition parseDateTime (newLocalDate : Z -> Z -> Z -> Z -> Z -> Date)
  (dateStr : option string) : option Date :=
  match dateStr with
  | None | Some EmptyString => None
  | Some dateStr =>
    let cleaned := stripQuotes (trim dateStr) in
    '(month, day, year, hours, minutes) ← matchDateTime cleaned;
    let month := parseDigits month - 1 in
    let day := parseDigits day in
    let year := parseDigits year in
    let hours := parseDigits hours in
    let minutes := parseDigits minutes in
    let year := if year <? 100
                then (if year <? 50 then 2000 + year else 1900 + year)
                else year in
    if (month <? 0) || (month >? 11) then None
    else if (day <? 1) || (day >? 31) then None
    else if (hours <? 0) || (hours >? 23) then None
    else if (minutes <? 0) || (minutes >? 59) then None
    else Some (newLocalDate year month day hours minutes)
  end.

(** [parseInt(text, 10)]: leading white space, a sign, then the longest
    run of digits; [None] is [NaN].  (Exact integers: the host rounds
    values of more than 15 digits.) *)
Fixpoint spanAllDigits (s : string) : string * string :=
  match s with
  | String c s' =>
    if isDigit c
    then let '(digits, rest) := spanAllDigits s' in (String c digits, rest)
    else (EmptyString, s)
  | EmptyString => (EmptyString, s)
  end.

Definition parseUnsigned (s : string) : option Z :=
  match fst (spanAllDigits s) with
  | EmptyString => None
  | digits => Some (parseDigits digits)
  end.

Definition parseInt (text : option string) : option Z :=
  match text with
  | None => None
  | Some text =>
    match trimStart text with
    | String c s' =>
      if Ascii.eqb c (ascii_of_N 45) then Z.opp <$> parseUnsigned s'
      else if Ascii.eqb c (ascii_of_N 43) then parseUnsigned s'
      else parseUnsigned (String c s')
    | EmptyString => None
    end
  end.

(** A string of digits. *)
Fixpoint allDigits (s : string) : bool :=
  match s with
  | EmptyString => true
  | String c s' => isDigit c && allDigits s'
  end.

(** [sub] occurs somewhere in [s]. *)
Definition occursIn (sub s : string) : Prop :=
  exists before after, s = before +:+ sub +:+ after.

(** The year a two-digit year stands for. *)
Definition twoDigitYear (year : Z) : Z :=
  if year <? 50 then 2000 + year else 1900 + year.

(** All interval records of a data set last at least a minute. *)
Definition positiveDurations (a : Activities) : Prop :=
  Forall (fun r => 0 < durationMinutes r) (sleep a ++ nursing a ++ pumping a).

Section WithHost.
Variable newLocalDate : Z -> Z -> Z -> Z -> Z -> Date.

(** One iteration of the loop of the parsers of the interval kinds; the
    row is the object Papa Parse builds from a line, keyed by the header. *)
Definition durationRow (durationColumn : string) (row : gmap string string)
  : option DurationActivity :=
  match parseDateTime newLocalDate (row !! "Time"), parseInt (row !! durationColumn) with
  | Some time, Some duration =>
    if duration <=? 0 then None
    else Some {| start := time; durationMinutes := duration |}
  | _, _ => None
  end.

Definition instantRow (row : gmap string string) : option InstantActivity :=
  match parseDateTime newLocalDate (row !! "Time") with
  | Some time => Some {| time := time |}
  | None => None
  end.

Definition parseSleep (rows : list (gmap string string)) : list DurationActivity :=
  omap (durationRow "Duration(minutes)") rows.
Definition parseNursing (rows : list (gmap string string)) : list DurationActivity :=
  omap (durationRow "Total Duration (min)") rows.
Definition parsePumping (rows : list (gmap string string)) : list DurationActivity :=
  omap (durationRow "Total Duration (min)") rows.
Definition parseBottle (rows : list (gmap string string)) : list InstantActivity :=
  omap instantRow rows.
Definition parseDiaper (rows : list (gmap string string)) : list InstantActivity :=
  omap instantRow rows.

(** How [parseFile] settles for a file name and the outcome of Papa Parse
    on the file: [Some rows] when it calls [complete] with the rows it
    read, [None] when it calls [error].  The result [None] is a rejection,
    of an unknown file type or after [error]. *)
Definition parseFile (name : string) (read : option (list (gmap string string)))
  : option ParseResult :=
  match detectActivityType name with
  | None => None
  | Some activityType =>
    match read with
    | None => None
    | Some rows =>
      if decide (activityType = "sleep") then Some (SleepResult (parseSleep rows))
      else if decide (activityType = "nursing") then Some (NursingResult (parseNursing rows))
      else if decide (activityType = "pumping") then Some (PumpingResult (parsePumping rows))
      else if decide (activityType = "bottle") then Some (BottleResult (parseBottle rows))
      else if decide (activityType = "diaper") then Some (DiaperResult (parseDiaper rows))
      else None
    end
  end.

(** [handleFileUpload] on the [activities] of the state: all files are
    parsed ([parseFiles], one rejection rejecting the whole upload), then
    the results are merged in order. *)
Definition uploadFiles (files : list (string * option (list (gmap string string))))
  (a : Activities) : option Activities :=
  results ← mapM (fun file => parseFile file.1 file.2) files;
  Some (foldl (fun a result => mergeResult result a) a results).

End WithHost.

End Parser.

(** The constructor of dates of a host whose local time is UTC. *)
Module UTCHost.
Import UTCDate.

(** The day number of a calendar date, the month from 1 to 12; days
    outside the month count on into the neighbouring months. *)
Definition daysFromCivil (y m d : Z) : Z :=
  let y := if m <=? 2 then y - 1 else y in
  let era := y / 400 in
  let yoe := y - era * 400 in
  let mp := if m <=? 2 then m + 9 else m - 3 in
  let doy := (153 * mp + 2) / 5 + d - 1 in
  let doe := yoe * 365 + yoe / 4 - yoe / 100 + doy in
  era * 146097 + doe - 719468.

(** [new Date(year, month, day, hours, minutes)], for a month from 0 to
    11. *)
Definition newLocalDate (year month day hours minutes : Z) : Date :=
  let year := if (0 <=? year) && (year <=? 99) then 1900 + year else year in
  daysFromCivil year (month + 1) day * msPerDay
  + hours * msPerHour + minutes * msPerMinute.

End UTCHost.

(** * Properties *)

(** ** Comparisons on rationals *)

Lemma Qgtb_true (a b : Q) : Qgtb a b = true <-> (b < a)%Q.
Proof.
  unfold Qgtb. rewrite negb_true_iff, <- not_true_iff_false, Qle_bool_iff.
  split; [apply Qnot_le_lt | apply Qlt_not_le].
Qed.

Lemma Qgtb_false (a b : Q) : Qgtb a b = false <-> (a <= b)%Q.
Proof. unfold Qgtb. rewrite negb_false_iff. apply Qle_bool_iff. Qed.

(** ** The segmenter *)

Module SegmenterFacts.
Import Heatmap Segmenter.

Lemma anchored_extend intensities threshold runStart m runIntensity v :
  anchored intensities threshold runStart m runIntensity ->
  intensities !! Z.to_nat m = Some v ->
  (Qabs (v - runIntensity) <= threshold)%Q ->
  anchored intensities threshold runStart (m + 1) runIntensity.
Proof.
  intros (Hr & Hs & Hk) Hm Hv. split; [lia|]. split; [exact Hs|].
  intros k w Hkr Hw. destruct (decide (k = m)) as [->|Hne].
  - rewrite Hm in Hw. injection Hw as <-. exact Hv.
  - apply (Hk k w); [lia | exact Hw].
Qed.

Lemma anchored_fresh intensities threshold m v :
  0 <= m -> intensities !! Z.to_nat m = Some v ->
  anchored intensities threshold m (m + 1) v.
Proof. intros Hm Hv. split; [lia|]. split; [exact Hv|]. intros k w ?. lia. Qed.

(** The invariant of the scanning loop. *)
Lemma scanRuns_inv intensities threshold :
  forall rest m runStart runIntensity runs,
    drop (Z.to_nat m) intensities = rest ->
    anchored intensities threshold runStart m runIntensity ->
    exists new runStart' runIntensity',
      scanRuns threshold rest m runStart runIntensity runs
        = (runs ++ new, runStart', runIntensity') /\
      runStart <= runStart' /\
      anchored intensities threshold runStart' (m + Z.of_nat (length rest)) runIntensity' /\
      Forall (emitted intensities threshold) new /\
      Forall (fun r => runStart <= startMinute r /\ endMinute r <= runStart') new /\
      ordered new.
Proof.
  induction rest as [|currentIntensity rest IH];
    intros m runStart runIntensity runs Hdrop Hanch.
  - exists [], runStart, runIntensity. simpl. rewrite app_nil_r, Z.add_0_r.
    split_and!; [reflexivity | lia | exact Hanch | constructor..].
  - assert (Hm : 0 <= m) by (destruct Hanch as [? _]; lia).
    assert (Hcur : intensities !! Z.to_nat m = Some currentIntensity).
    { rewrite <- (Nat.add_0_r (Z.to_nat m)), <- lookup_drop, Hdrop. reflexivity. }
    assert (Hdrop' : drop (Z.to_nat (m + 1)) intensities = rest).
    { replace (Z.to_nat (m + 1)) with (Z.to_nat m + 1)%nat by lia.
      rewrite <- drop_drop, Hdrop. reflexivity. }
    replace (m + Z.of_nat (length (currentIntensity :: rest)))
      with (m + 1 + Z.of_nat (length rest)) by (simpl length; lia).
    cbn [scanRuns].
    destruct (Qgtb (Math_abs (currentIntensity - runIntensity)) threshold) eqn:Hchg.
    + destruct (IH (m + 1) m currentIntensity
                  (if Qgtb runIntensity 0
                   then runs ++ [{| startMinute := runStart; endMinute := m;
                                    intensity := runIntensity |}]
                   else runs) Hdrop' (anchored_fresh _ _ _ _ Hm Hcur))
        as (new & rs & ri & Heq & Hle & Hanch' & Hem & Hbd & Hord).
      assert (Hr : 0 <= runStart < m) by apply Hanch.
      destruct (Qgtb runIntensity 0) eqn:Hpos.
      * exists ({| startMinute := runStart; endMinute := m;
                   intensity := runIntensity |} :: new), rs, ri.
        rewrite Heq, <- app_assoc. simpl app.
        split_and!; [reflexivity | lia | exact Hanch' | | |].
        -- constructor; [|exact Hem]. split; [apply Qgtb_true, Hpos|exact Hanch].
        -- constructor; [simpl; lia|].
           eapply Forall_impl; [exact Hbd|]. simpl. intros r ?. lia.
        -- constructor; [exact Hord|].
           eapply Forall_impl; [exact Hbd|]. simpl. intros r ?. lia.
      * exists new, rs, ri. rewrite Heq.
        split_and!; [reflexivity | lia | exact Hanch' | exact Hem | | exact Hord].
        eapply Forall_impl; [exact Hbd|]. simpl. intros r ?. lia.
    + apply Qgtb_false in Hchg.
      destruct (IH (m + 1) runStart runIntensity runs Hdrop'
                  (anchored_extend _ _ _ _ _ _ Hanch Hcur Hchg))
        as (new & rs & ri & Heq & Hle & Hanch' & Hem & Hbd & Hord).
      exists new, rs, ri.
      split_and!; [exact Heq | lia | exact Hanch' | exact Hem | exact Hbd | exact Hord].
Qed.

(** The loop as [findIntensityRuns] starts it. *)
Lemma scanRuns_start first rest threshold :
  exists runs runStart runIntensity,
    scanRuns threshold rest 1 0 first [] = (runs, runStart, runIntensity) /\
    anchored (first :: rest) threshold runStart
      (Z.of_nat (length (first :: rest))) runIntensity /\
    Forall (emitted (first :: rest) threshold) runs /\
    Forall (fun r => endMinute r <= runStart) runs /\
    ordered runs.
Proof.
  destruct (scanRuns_inv (first :: rest) threshold rest 1 0 first [])
    as (new & rs & ri & Heq & Hle & Hanch & Hem & Hbd & Hord).
  - reflexivity.
  - apply (anchored_fresh (first :: rest) threshold 0 first); [lia | reflexivity].
  - exists new, rs, ri. rewrite Heq. simpl app.
    replace (Z.of_nat (length (first :: rest))) with (1 + Z.of_nat (length rest))
      by (simpl length; lia).
    split_and!; [reflexivity | exact Hanch | exact Hem | | exact Hord].
    eapply Forall_impl; [exact Hbd|]. simpl. tauto.
Qed.

(** What [findIntensityRuns] returns, in terms of the state the loop
    ends in. *)
Lemma findIntensityRuns_cons first rest threshold runs runStart runIntensity :
  scanRuns threshold rest 1 0 first [] = (runs, runStart, runIntensity) ->
  findIntensityRuns (first :: rest) threshold =
    if Qgtb runIntensity 0
    then runs ++ [{| startMinute := runStart; endMinute := MINUTES_PER_DAY;
                     intensity := runIntensity |}]
    else runs.
Proof. intros Heq. unfold findIntensityRuns. rewrite Heq. reflexivity. Qed.

Lemma ordered_snoc runs r :
  ordered runs -> Forall (fun a => endMinute a <= startMinute r) runs ->
  ordered (runs ++ [r]).
Proof.
  unfold ordered. induction 1 as [|a l Hs IH Hall]; intros Hr; simpl.
  - repeat constructor.
  - inversion Hr; subst. constructor; [auto|].
    apply Forall_app. split; [exact Hall | repeat constructor; assumption].
Qed.

Lemma anchored_carries intensities threshold runStart stop runIntensity stop' :
  anchored intensities threshold runStart stop runIntensity ->
  stop = Z.of_nat (length intensities) \/ stop' <= stop ->
  carriesAnchor intensities threshold
    {| startMinute := runStart; endMinute := stop'; intensity := runIntensity |}.
Proof.
  intros (Hr & Hs & Hk) Hstop. split; [exact Hs|]. simpl.
  intros k v Hkr Hv. apply (Hk k v); [|exact Hv].
  apply lookup_lt_Some in Hv. lia.
Qed.

End SegmenterFacts.

Import Heatmap.

(** C6. For every intensity array of 1440 samples and every tolerance,
    each segment [findIntensityRuns] emits has an intensity strictly
    greater than 0 and a start minute strictly below its end minute (and
    lies within the day); the segments come in strictly increasing order
    and do not overlap: each one ends no later than the next one starts.
    In particular no segment of intensity 0 is ever emitted. *)
Theorem segments_positive_ordered (intensities : list Q) (threshold : Q) :
  length intensities = 1440%nat ->
  Forall (fun r => (0 < intensity r)%Q /\
                   0 <= startMinute r < endMinute r /\ endMinute r <= 1440)
         (findIntensityRuns intensities threshold) /\
  StronglySorted (fun a b => endMinute a <= startMinute b /\
                             startMinute a < startMinute b)
         (findIntensityRuns intensities threshold).
Proof.
  intros Hlen. destruct intensities as [|first rest]; [discriminate|].
  destruct (SegmenterFacts.scanRuns_start first rest threshold)
    as (runs & rs & ri & Heq & Hanch & Hem & Hbd & Hord).
  rewrite (SegmenterFacts.findIntensityRuns_cons _ _ _ _ _ _ Heq).
  rewrite Hlen in Hanch. destruct Hanch as (Hrs & _).
  assert (Hall : Forall (fun r => (0 < intensity r)%Q /\
                   0 <= startMinute r < endMinute r /\ endMinute r <= 1440) runs).
  { rewrite Forall_forall in Hem, Hbd |- *. intros r Hr.
    destruct (Hem r Hr) as (Hpos & Hrange & _). specialize (Hbd r Hr).
    split; [exact Hpos|]. simpl in Hbd. lia. }
  assert (Hfinal : Qgtb ri 0 = true ->
    Forall (fun r => (0 < intensity r)%Q /\
                   0 <= startMinute r < endMinute r /\ endMinute r <= 1440)
      (runs ++ [{| startMinute := rs; endMinute := MINUTES_PER_DAY; intensity := ri |}])).
  { intros Hpos. apply Forall_app. split; [exact Hall|].
    repeat constructor; simpl; try (apply Qgtb_true, Hpos); unfold MINUTES_PER_DAY; lia. }
  assert (Hsorted : forall l, Segmenter.ordered l ->
    Forall (fun r => (0 < intensity r)%Q /\
                   0 <= startMinute r < endMinute r /\ endMinute r <= 1440) l ->
    StronglySorted (fun a b => endMinute a <= startMinute b /\
                               startMinute a < startMinute b) l).
  { induction 1 as [|a l Hs IH Hfa]; intros Hl; [constructor|].
    inversion Hl as [|? ? Ha Hl']; subst. constructor; [auto|].
    eapply Forall_impl; [exact Hfa|]. simpl. intros b ?. lia. }
  destruct (Qgtb ri 0) eqn:Hpos.
  - split; [auto|]. apply Hsorted; [|auto].
    apply SegmenterFacts.ordered_snoc; [exact Hord|exact Hbd].
  - split; [exact Hall|]. apply Hsorted; assumption.
Qed.

Lemma segments_positive_ordered_witness :
  Forall (fun r => (0 < intensity r)%Q /\
                   0 <= startMinute r < endMinute r /\ endMinute r <= 1440)
         (findIntensityRuns Segmenter.overnight DEFAULT_THRESHOLD) /\
  StronglySorted (fun a b => endMinute a <= startMinute b /\
                             startMinute a < startMinute b)
         (findIntensityRuns Segmenter.overnight DEFAULT_THRESHOLD).
Proof.
  apply (segments_positive_ordered Segmenter.overnight DEFAULT_THRESHOLD).
  reflexivity.
Defined.

(** C10. For every intensity array and tolerance, every segment emitted by
    [findIntensityRuns] carries as its intensity exactly the array value at
    the segment's start minute, the anchor of the run; the value at any
    later minute of the segment differs from the reported intensity by at
    most the tolerance. *)
Theorem segment_intensity_is_anchor (intensities : list Q) (threshold : Q) :
  Forall (fun r =>
    intensities !! Z.to_nat (startMinute r) = Some (intensity r) /\
    forall k v, startMinute r < k < endMinute r ->
      intensities !! Z.to_nat k = Some v ->
      (Qabs (v - intensity r) <= threshold)%Q)
    (findIntensityRuns intensities threshold).
Proof.
  destruct intensities as [|first rest]; [constructor|].
  destruct (SegmenterFacts.scanRuns_start first rest threshold)
    as (runs & rs & ri & Heq & Hanch & Hem & Hbd & Hord).
  rewrite (SegmenterFacts.findIntensityRuns_cons _ _ _ _ _ _ Heq).
  assert (Hall : Forall (Segmenter.carriesAnchor (first :: rest) threshold) runs).
  { eapply Forall_impl; [exact Hem|]. intros [s e i] (_ & Ha).
    eapply SegmenterFacts.anchored_carries; [exact Ha | right; simpl; lia]. }
  destruct (Qgtb ri 0); [|exact Hall].
  apply Forall_app. split; [exact Hall|]. constructor; [|constructor].
  eapply SegmenterFacts.anchored_carries; [exact Hanch | left; reflexivity].
Qed.

(** C2, as the code has it.  For every intensity array of 1440 samples
    whose last sample is positive and greater than the tolerance, the last
    segment [findIntensityRuns] emits ends at minute 1440 exactly, and
    every segment before it ends earlier.  (A last sample that is within
    the tolerance of a run anchored at 0 belongs to that run, which is not
    emitted.) *)
Theorem final_run_closes_at_1440 (intensities : list Q) (threshold v : Q) :
  length intensities = 1440%nat ->
  last intensities = Some v ->
  (0 < v)%Q -> (threshold < v)%Q ->
  exists runs r,
    findIntensityRuns intensities threshold = runs ++ [r] /\
    endMinute r = 1440 /\
    Forall (fun r' => endMinute r' < 1440) runs.
Proof.
  intros Hlen Hlast Hv Hthr. destruct intensities as [|first rest]; [discriminate|].
  destruct (SegmenterFacts.scanRuns_start first rest threshold)
    as (runs & rs & ri & Heq & Hanch & Hem & Hbd & Hord).
  rewrite (SegmenterFacts.findIntensityRuns_cons _ _ _ _ _ _ Heq).
  rewrite Hlen in Hanch. destruct Hanch as (Hrs & Hs & Hk).
  rewrite last_lookup, Hlen in Hlast. change (pred 1440) with (Z.to_nat 1439) in Hlast.
  assert (Hpos : (0 < ri)%Q).
  { destruct (decide (rs = 1439)) as [->|Hne].
    - rewrite Hs in Hlast.
      injection Hlast as ->. exact Hv.
    - assert (Habs : (Qabs (v - ri) <= threshold)%Q).
      { apply (Hk 1439 v); [lia | exact Hlast]. }
      apply Qabs_Qle_condition in Habs. destruct Habs as [_ Habs]. lra. }
  apply Qgtb_true in Hpos. rewrite Hpos.
  eexists runs, _. split; [reflexivity|]. split; [reflexivity|].
  eapply Forall_impl; [exact Hbd|]. simpl. intros r ?. lia.
Qed.

Lemma final_run_closes_at_1440_witness :
  exists runs r,
    findIntensityRuns Segmenter.overnight DEFAULT_THRESHOLD = runs ++ [r] /\
    endMinute r = 1440 /\
    Forall (fun r' => endMinute r' < 1440) runs.
Proof.
  apply (final_run_closes_at_1440 Segmenter.overnight DEFAULT_THRESHOLD 1%Q);
    reflexivity.
Defined.

(** C2 as stated fails: the last sample of [faintLastMinute] is not zero,
    and no segment is emitted at all. *)
Lemma final_run_missing_for_faint_last_sample :
  length Segmenter.faintLastMinute = 1440%nat /\
  last Segmenter.faintLastMinute = Some (1 # 100) /\
  ~ (1 # 100 == 0)%Q /\
  ~ exists runs r,
      findIntensityRuns Segmenter.faintLastMinute DEFAULT_THRESHOLD = runs ++ [r] /\
      endMinute r = 1440.
Proof.
  split_and!; [reflexivity | reflexivity | discriminate |].
  intros (runs & r & Heq & _).
  assert (Hnil : findIntensityRuns Segmenter.faintLastMinute DEFAULT_THRESHOLD = [])
    by (vm_compute; reflexivity).
  rewrite Hnil in Heq. destruct runs; discriminate.
Qed.

(** ** The aggregator *)

Module AggregatorFacts.
Import Heatmap Coverage.

Lemma normalizedMinute_mod (m : Z) : normalizedMinute m = m mod 1440.
Proof.
  unfold normalizedMinute, MINUTES_PER_DAY.
  Z.quot_rem_to_equations. Z.div_mod_to_equations. lia.
Qed.

Lemma addDay_Some d m (md : list (gset string)) :
  0 <= m < Z.of_nat (length md) ->
  addDay d m md = Some (alter (fun days => days ∪ {[d]}) (Z.to_nat m) md).
Proof. intros H. unfold addDay. rewrite bool_decide_eq_true_2; auto. Qed.

(** A counting loop that adds [d] to slot [f m] for each [m] it visits. *)
Lemma forCount_addDay d (f : Z -> Z) n :
  forall from (md : list (gset string)),
    (forall j, from <= j < from + Z.of_nat n -> 0 <= f j < Z.of_nat (length md)) ->
    exists md',
      forCount n from (fun m => addDay d (f m)) md = Some md' /\
      length md' = length md /\
      forall (k : nat) x,
        x ∈ md' !!! k <->
        x ∈ md !!! k \/
        (x = d /\ exists j, from <= j < from + Z.of_nat n /\ f j = Z.of_nat k).
Proof.
  induction n as [|n IH]; intros from md Hrange.
  - exists md. split_and!; [reflexivity..|]. intros k x. split; [auto|].
    intros [H|(_ & j & ? & _)]; [exact H | lia].
  - cbn [forCount]. rewrite addDay_Some by (apply Hrange; lia). simpl.
    destruct (IH (from + 1) (alter (fun days => days ∪ {[d]}) (Z.to_nat (f from)) md))
      as (md' & Heq & Hlen & Hmem).
    { intros j Hj. rewrite length_alter. apply Hrange. lia. }
    exists md'. rewrite length_alter in Hlen. split_and!; [exact Heq | exact Hlen |].
    intros k x. rewrite Hmem.
    assert (Hf : 0 <= f from < Z.of_nat (length md)) by (apply Hrange; lia).
    destruct (decide (k = Z.to_nat (f from))) as [->|Hne].
    + rewrite list_lookup_total_alter_eq by lia. rewrite elem_of_union, elem_of_singleton.
      split.
      * intros [[H|H]|(Hx & j & Hj & Hfj)]; [auto| |].
        -- right. split; [exact H|]. exists from. split; lia.
        -- right. split; [exact Hx|]. exists j. split; [lia|exact Hfj].
      * intros [H|(Hx & j & Hj & Hfj)]; [auto|].
        destruct (decide (j = from)) as [->|Hjne]; [auto|].
        right. split; [exact Hx|]. exists j. split; [lia|exact Hfj].
    + rewrite list_lookup_total_alter_ne by auto.
      split.
      * intros [H|(Hx & j & Hj & Hfj)]; [auto|].
        right. split; [exact Hx|]. exists j. split; [lia|exact Hfj].
      * intros [H|(Hx & j & Hj & Hfj)]; [auto|].
        right. split; [exact Hx|]. exists j. split; [|exact Hfj].
        destruct (decide (j = from)) as [->|Hjne]; lia.
Qed.

Lemma forRange_addDay d (f : Z -> Z) from to (md : list (gset string)) :
  (forall j, from <= j < to -> 0 <= f j < Z.of_nat (length md)) ->
  exists md',
    forRange from to (fun m => addDay d (f m)) md = Some md' /\
    length md' = length md /\
    forall (k : nat) x,
      x ∈ md' !!! k <->
      x ∈ md !!! k \/ (x = d /\ exists j, from <= j < to /\ f j = Z.of_nat k).
Proof.
  intros Hrange. unfold forRange.
  destruct (forCount_addDay d f (Z.to_nat (to - from)) from md)
    as (md' & Heq & Hlen & Hmem).
  { intros j Hj. apply Hrange. lia. }
  exists md'. split_and!; [exact Heq | exact Hlen |].
  intros k x. rewrite Hmem. split.
  - intros [H|(Hx & j & Hj & Hfj)]; [auto|].
    right. split; [exact Hx|]. exists j. split; [lia|exact Hfj].
  - intros [H|(Hx & j & Hj & Hfj)]; [auto|].
    right. split; [exact Hx|]. exists j. split; [lia|exact Hfj].
Qed.

Lemma markMinuteRange_spec (md : list (gset string)) startMinute durationMinutes d :
  0 <= startMinute < 1440 -> length md = 1440%nat ->
  exists md',
    markMinuteRange md startMinute durationMinutes d = Some md' /\
    length md' = 1440%nat /\
    forall (k : nat) x,
      x ∈ md' !!! k <->
      x ∈ md !!! k \/
      (x = d /\ marksInterval startMinute durationMinutes (Z.of_nat k) = true).
Proof.
  intros Hs Hlen. unfold markMinuteRange, marksInterval, MINUTES_PER_DAY.
  destruct (Z.leb_spec (startMinute + durationMinutes) 1440) as [Hle|Hgt].
  - destruct (forRange_addDay d (fun m => m) startMinute
                (startMinute + durationMinutes) md) as (md' & Heq & Hlen' & Hmem).
    { intros j Hj. lia. }
    exists md'. split_and!; [exact Heq | lia |].
    intros k x. rewrite Hmem. split.
    + intros [H|(Hx & j & Hj & <-)]; [auto|]. right. split; [exact Hx|]. lia.
    + intros [H|(Hx & Hk)]; [auto|]. right. split; [exact Hx|].
      exists (Z.of_nat k). split; [lia|reflexivity].
  - destruct (forRange_addDay d (fun m => m) startMinute 1440 md)
      as (md1 & Heq1 & Hlen1 & Hmem1).
    { intros j Hj. lia. }
    assert (Hw : 0 <= Z.rem (startMinute + durationMinutes) 1440 < 1440).
    { Z.quot_rem_to_equations. lia. }
    destruct (forRange_addDay d (fun m => m) 0
                (Z.rem (startMinute + durationMinutes) 1440) md1)
      as (md2 & Heq2 & Hlen2 & Hmem2).
    { intros j Hj. lia. }
    change (fun m => addDay d m) with (addDay d) in Heq1, Heq2.
    rewrite Heq1. simpl. exists md2. split_and!; [exact Heq2 | lia |].
    intros k x. rewrite Hmem2, Hmem1. split.
    + intros [[H|(Hx & j & Hj & <-)]|(Hx & j & Hj & <-)]; [auto|..];
        right; (split; [exact Hx|]); lia.
    + intros [H|(Hx & Hk)]; [auto|].
      apply orb_true_iff in Hk. destruct Hk as [Hk|Hk].
      * left. right. split; [exact Hx|]. exists (Z.of_nat k). split; [lia|reflexivity].
      * right. split; [exact Hx|]. exists (Z.of_nat k). split; [lia|reflexivity].
Qed.

Lemma markWindow_spec (md : list (gset string)) minute d :
  length md = 1440%nat ->
  exists md',
    forRange (minute - HALF_WINDOW) (minute + HALF_WINDOW + 1)
      (fun m => addDay d (normalizedMinute m)) md = Some md' /\
    length md' = 1440%nat /\
    forall (k : nat) x,
      x ∈ md' !!! k <->
      x ∈ md !!! k \/ (x = d /\ marksWindow minute (Z.of_nat k) = true).
Proof.
  intros Hlen.
  destruct (forRange_addDay d normalizedMinute (minute - HALF_WINDOW)
              (minute + HALF_WINDOW + 1) md) as (md' & Heq & Hlen' & Hmem).
  { intros j _. rewrite normalizedMinute_mod, Hlen.
    apply Z.mod_pos_bound. lia. }
  exists md'. split_and!; [exact Heq | lia |].
  intros k x. rewrite Hmem. unfold marksWindow, HALF_WINDOW.
  rewrite bool_decide_eq_true, Exists_exists.
  split; (intros [H|(Hx & j & Hj & Hfj)]; [auto|]);
    right; (split; [exact Hx|]); exists j.
  - split; [|exact Hfj]. apply elem_of_seqZ. lia.
  - apply elem_of_seqZ in Hj. split; [lia|exact Hfj].
Qed.

Lemma emptyMinuteDays_length : length emptyMinuteDays = 1440%nat.
Proof. reflexivity. Qed.

Lemma emptyMinuteDays_lookup (k : nat) : emptyMinuteDays !!! k = (∅ : gset string).
Proof.
  unfold emptyMinuteDays. rewrite list_lookup_total_alt.
  destruct (replicate (Z.to_nat MINUTES_PER_DAY) (∅ : gset string) !! k) eqn:E;
    [|reflexivity].
  apply lookup_replicate_1 in E. destruct E as [-> _]. reflexivity.
Qed.

(** The loop over the records of one kind, for any way [mark] of marking
    the minutes of a record that adds the record's date to the slots
    selected by [marks]. *)
Section KindLoop.
Context {A : Type} (keyOf : A -> string) (marks : Z -> A -> bool)
  (mark : A -> list (gset string) -> option (list (gset string))).
Hypothesis mark_spec : forall a (md : list (gset string)),
  length md = 1440%nat ->
  exists md', mark a md = Some md' /\ length md' = 1440%nat /\
    forall (k : nat) x,
      x ∈ md' !!! k <->
      x ∈ md !!! k \/ (x = keyOf a /\ marks (Z.of_nat k) a = true).

Lemma forOf_kind (activities : list A) :
  forall (md : list (gset string)) (ud : gset string),
    length md = 1440%nat ->
    exists md' ud',
      forOf activities (kindBody keyOf mark) (md, ud) = Some (md', ud') /\
      length md' = 1440%nat /\
      (forall (k : nat) x,
         x ∈ md' !!! k <->
         x ∈ md !!! k \/
         exists a, a ∈ activities /\ keyOf a = x /\ marks (Z.of_nat k) a = true) /\
      (forall x, x ∈ ud' <-> x ∈ ud \/ exists a, a ∈ activities /\ keyOf a = x).
Proof.
  induction activities as [|a l IH]; intros md ud Hlen.
  - exists md, ud. split_and!; [reflexivity | exact Hlen | |].
    + intros k x. split; [auto|]. intros [H|(a & Ha & _)]; [exact H|].
      inversion Ha.
    + intros x. split; [auto|]. intros [H|(a & Ha & _)]; [exact H|].
      inversion Ha.
  - destruct (mark_spec a md Hlen) as (md1 & Heq1 & Hlen1 & Hmem1).
    destruct (IH md1 (ud ∪ {[keyOf a]}) Hlen1) as (md' & ud' & Heq & Hlen' & Hmem & Hud).
    exists md', ud'. cbn [forOf kindBody]. rewrite Heq1. simpl.
    split_and!; [exact Heq | exact Hlen' | |].
    + intros k x. rewrite Hmem, Hmem1. split.
      * intros [[H|(Hx & Hk)]|(b & Hb & Hkey & Hk)]; [auto| |].
        -- right. exists a. split_and!; [left | symmetry; exact Hx | exact Hk].
        -- right. exists b. split_and!; [right; exact Hb | exact Hkey | exact Hk].
      * intros [H|(b & Hb & Hkey & Hk)]; [auto|].
        apply elem_of_cons in Hb. destruct Hb as [->|Hb].
        -- left. right. split; [symmetry; exact Hkey | exact Hk].
        -- right. exists b. split_and!; [exact Hb | exact Hkey | exact Hk].
    + intros x. rewrite Hud, elem_of_union, elem_of_singleton. split.
      * intros [[H|Hx]|(b & Hb & Hkey)]; [auto| |].
        -- right. exists a. split; [left | symmetry; exact Hx].
        -- right. exists b. split; [right; exact Hb | exact Hkey].
      * intros [H|(b & Hb & Hkey)]; [auto|].
        apply elem_of_cons in Hb. destruct Hb as [->|Hb].
        -- left. right. symmetry. exact Hkey.
        -- right. exists b. split; [exact Hb | exact Hkey].
Qed.

Lemma kindResult_spec (activities : list A) :
  exists agg,
    kindResult keyOf mark activities = Some agg /\
    length (minuteDays agg) = 1440%nat /\
    (forall k : nat,
       minuteDays agg !!! k =
       list_to_set (keyOf <$> filter (fun a => marks (Z.of_nat k) a = true) activities)) /\
    uniqueDays agg = list_to_set (keyOf <$> activities) /\
    totalCount agg = length activities.
Proof.
  destruct (forOf_kind activities emptyMinuteDays ∅ emptyMinuteDays_length)
    as (md & ud & Heq & Hlen & Hmem & Hud).
  unfold kindResult. rewrite Heq. simpl. eexists. split; [reflexivity|]. simpl.
  split_and!; [exact Hlen | | | reflexivity].
  - intros k. apply set_eq. intros x.
    rewrite Hmem, emptyMinuteDays_lookup, elem_of_list_to_set, list_elem_of_fmap.
    split.
    + intros [H|(a & Ha & Hkey & Hk)]; [set_solver|].
      exists a. split; [symmetry; exact Hkey|]. apply list_elem_of_filter. auto.
    + intros (a & Hkey & Ha). apply list_elem_of_filter in Ha. destruct Ha as [Hk Ha].
      right. exists a. auto.
  - apply set_eq. intros x.
    rewrite Hud, elem_of_list_to_set, list_elem_of_fmap. split.
    + intros [H|(a & Ha & Hkey)]; [set_solver|]. exists a. auto.
    + intros (a & Hkey & Ha). right. exists a. auto.
Qed.
End KindLoop.

Section WithTimeZone.
Context {tz : TimeZone}.

Lemma timeToMinutes_range (d : Date) : 0 <= timeToMinutes d < 1440.
Proof.
  unfold timeToMinutes.
  pose proof (getHours_range d). pose proof (getMinutes_range d). lia.
Qed.

Lemma calculateDurationHeatmap_spec (activities : list DurationActivity) :
  exists agg,
    calculateDurationHeatmap activities = Some agg /\
    length (minuteDays agg) = 1440%nat /\
    (forall k : nat,
       minuteDays agg !!! k =
       list_to_set (durationKey <$>
         filter (fun a => durationMarks (Z.of_nat k) a = true) activities)) /\
    uniqueDays agg = list_to_set (durationKey <$> activities) /\
    totalCount agg = length activities.
Proof.
  apply (kindResult_spec durationKey durationMarks
           (fun a md => markMinuteRange md (timeToMinutes (start a))
                          (durationMinutes a) (getDateString (start a)))).
  intros a md Hlen.
  apply markMinuteRange_spec; [apply timeToMinutes_range | exact Hlen].
Qed.

Lemma calculateInstantHeatmap_spec (activities : list InstantActivity) :
  exists agg,
    calculateInstantHeatmap activities = Some agg /\
    length (minuteDays agg) = 1440%nat /\
    (forall k : nat,
       minuteDays agg !!! k =
       list_to_set (instantKey <$>
         filter (fun a => instantMarks (Z.of_nat k) a = true) activities)) /\
    uniqueDays agg = list_to_set (instantKey <$> activities) /\
    totalCount agg = length activities.
Proof.
  apply (kindResult_spec instantKey instantMarks
           (fun a md => forRange (timeToMinutes (time a) - HALF_WINDOW)
                          (timeToMinutes (time a) + HALF_WINDOW + 1)
                          (fun m => addDay (getDateString (time a)) (normalizedMinute m))
                          md)).
  intros a md Hlen. apply markWindow_spec. exact Hlen.
Qed.

Lemma aggregateKind_step {A : Type} (calculate : list A -> option Aggregate)
  (keyOf : A -> string) (activities : list A) (type : string)
  (hm : gmap string Aggregate) (ud : gset string) (agg : Aggregate) :
  calculate activities = Some agg ->
  uniqueDays agg = list_to_set (keyOf <$> activities) ->
  forall activitiesOf, activitiesOf type = activities ->
  aggregateKind calculate activitiesOf type (hm, ud) =
    Some (match activities with [] => hm | _ => <[type := agg]> hm end,
          ud ∪ list_to_set (keyOf <$> activities)).
Proof.
  intros Hcalc Hud activitiesOf Hacts. unfold aggregateKind. rewrite Hacts.
  destruct activities as [|a l].
  - simpl. rewrite (right_id_L ∅ (∪)). reflexivity.
  - rewrite bool_decide_eq_true_2 by (simpl; lia).
    rewrite Hcalc. simpl. rewrite Hud. reflexivity.
Qed.

Lemma lookup_step {A : Type} (activities : list A) (type t : string)
  (hm : gmap string Aggregate) (calculate : list A -> option Aggregate) agg :
  calculate activities = Some agg ->
  (match activities with [] => hm | _ => <[type := agg]> hm end) !! t =
    if decide (t = type)
    then (match present calculate activities with Some r => Some r | None => hm !! t end)
    else hm !! t.
Proof.
  intros Hcalc. destruct activities as [|a l]; simpl.
  - case_decide; reflexivity.
  - rewrite Hcalc. case_decide as Ht.
    + subst. apply lookup_insert_eq.
    + apply lookup_insert_ne. congruence.
Qed.

(** What [calculateAllHeatmaps] returns, for every data set. *)
Lemma calculateAllHeatmaps_spec (a : Activities) :
  exists out,
    calculateAllHeatmaps a = Some out /\
    allUniqueDays out = list_to_set (dateKeys a) /\
    totalDays out = size (allUniqueDays out) /\
    forall type, heatmaps out !! type = finish (totalDays out) type <$> aggregateOf a type.
Proof.
  destruct (calculateDurationHeatmap_spec (sleep a)) as (aS & HS & _ & _ & HuS & _).
  destruct (calculateDurationHeatmap_spec (nursing a)) as (aN & HN & _ & _ & HuN & _).
  destruct (calculateDurationHeatmap_spec (pumping a)) as (aP & HP & _ & _ & HuP & _).
  destruct (calculateInstantHeatmap_spec (bottle a)) as (aB & HB & _ & _ & HuB & _).
  destruct (calculateInstantHeatmap_spec (diaper a)) as (aD & HD & _ & _ & HuD & _).
  unfold calculateAllHeatmaps, durationTypes, instantTypes. cbn [forOf].
  rewrite (aggregateKind_step _ durationKey (sleep a) "sleep" _ _ aS HS HuS) by reflexivity.
  cbn [mbind option_bind].
  rewrite (aggregateKind_step _ durationKey (nursing a) "nursing" _ _ aN HN HuN) by reflexivity.
  cbn [mbind option_bind].
  rewrite (aggregateKind_step _ durationKey (pumping a) "pumping" _ _ aP HP HuP) by reflexivity.
  cbn [mbind option_bind].
  rewrite (aggregateKind_step _ instantKey (bottle a) "bottle" _ _ aB HB HuB) by reflexivity.
  cbn [mbind option_bind].
  rewrite (aggregateKind_step _ instantKey (diaper a) "diaper" _ _ aD HD HuD) by reflexivity.
  cbn [mbind option_bind].
  eexists. split; [reflexivity|]. cbn [heatmaps totalDays allUniqueDays].
  split_and!; [|reflexivity|].
  - unfold dateKeys. rewrite !list_to_set_app_L. apply set_eq. intros x.
    rewrite !elem_of_union, elem_of_empty. tauto.
  - intros type. rewrite map_lookup_imap.
    rewrite (lookup_step _ _ _ _ _ _ HD), (lookup_step _ _ _ _ _ _ HB),
      (lookup_step _ _ _ _ _ _ HP), (lookup_step _ _ _ _ _ _ HN),
      (lookup_step _ _ _ _ _ _ HS), lookup_empty.
    unfold aggregateOf.
    repeat case_decide; subst; try discriminate;
      match goal with
      | |- context [present ?c ?l] => destruct (present c l)
      | _ => idtac
      end; reflexivity.
Qed.

End WithTimeZone.

End AggregatorFacts.

(** ** The aggregated result *)

Module ResultFacts.
Import Heatmap Coverage AggregatorFacts.

Section WithTimeZone.
Context {tz : TimeZone}.

Lemma present_duration (l : list DurationActivity) :
  is_Some (present calculateDurationHeatmap l) <-> l <> [].
Proof.
  destruct l as [|r l]; simpl.
  - split; [intros [? ?]; discriminate | congruence].
  - destruct (calculateDurationHeatmap_spec (r :: l)) as (agg & -> & _).
    split; [discriminate | eauto].
Qed.

Lemma present_instant (l : list InstantActivity) :
  is_Some (present calculateInstantHeatmap l) <-> l <> [].
Proof.
  destruct l as [|r l]; simpl.
  - split; [intros [? ?]; discriminate | congruence].
  - destruct (calculateInstantHeatmap_spec (r :: l)) as (agg & -> & _).
    split; [discriminate | eauto].
Qed.

Lemma aggregateOf_types (a : Activities) (type : string) :
  is_Some (aggregateOf a type) -> type ∈ durationTypes ++ instantTypes.
Proof.
  unfold aggregateOf, durationTypes, instantTypes.
  repeat case_decide; subst; intros [? Hsome]; try discriminate;
    rewrite !elem_of_app, !elem_of_cons; tauto.
Qed.

(** The aggregate of a kind that is present. *)
Lemma aggregateOf_Some (a : Activities) (type : string) (agg : Aggregate) :
  aggregateOf a type = Some agg ->
  length (minuteDays agg) = 1440%nat /\
  (forall k : nat, minuteDays agg !!! k = list_to_set (markedDates a type (Z.of_nat k))) /\
  (exists key, key ∈ uniqueDays agg) /\
  uniqueDays agg ⊆ list_to_set (dateKeys a).
Proof.
  unfold aggregateOf, markedDates, durationActivities, instantActivities, dateKeys.
  repeat case_decide; subst; try discriminate.
  all: match goal with
       | |- present _ ?acts = _ -> _ => destruct acts as [|r l] eqn:El; [discriminate|]
       end; cbn [present]; rewrite <- El; intros Hagg.
  all: try (destruct (calculateDurationHeatmap_spec (r :: l))
              as (agg' & Heq & Hlen & Hslots & Hud & _)).
  all: try (destruct (calculateInstantHeatmap_spec (r :: l))
              as (agg' & Heq & Hlen & Hslots & Hud & _)).
  all: rewrite <- El in Heq, Hslots, Hud; rewrite Heq in Hagg;
       injection Hagg as <-.
  all: split; [exact Hlen|]; split;
       [intros k; rewrite Hslots, ?app_nil_r; reflexivity|].
  all: rewrite Hud; split;
       [ eexists; rewrite El; apply elem_of_list_to_set; left
       | intros x; rewrite !elem_of_list_to_set, !elem_of_app; tauto ].
Qed.

Lemma intensityOf_zero (days : gset string) : intensityOf 0 days = 0%Q.
Proof. reflexivity. Qed.

Lemma intensityOf_pos (totalDays : nat) (days : gset string) :
  (0 < totalDays)%nat ->
  intensityOf totalDays days =
    Math_min 1 (inject_Z (Z.of_nat (size days)) / inject_Z (Z.of_nat totalDays)).
Proof. intros H. unfold intensityOf. rewrite bool_decide_eq_true_2; auto. Qed.

Lemma ratio_nonneg (n d : nat) :
  (0 <= inject_Z (Z.of_nat n) / inject_Z (Z.of_nat d))%Q.
Proof.
  apply Qmult_le_0_compat; [|apply Qinv_le_0_compat];
    unfold Qle; simpl; lia.
Qed.

Lemma noRecords_keys (a : Activities) : dateKeys a = [] <-> noRecords a.
Proof.
  unfold dateKeys, noRecords. destruct a as [s n p b d]. simpl.
  split.
  - intros H. repeat (apply app_eq_nil in H; destruct H as [?%fmap_nil_inv H]).
    apply fmap_nil_inv in H. auto.
  - intros (-> & -> & -> & -> & ->). reflexivity.
Qed.

Lemma size_keys_zero (l : list string) :
  size (list_to_set l : gset string) = 0%nat <-> l = [].
Proof.
  split; [|intros ->; reflexivity].
  intros H. apply size_empty_iff in H. destruct l as [|x l]; [reflexivity|].
  exfalso. apply (not_elem_of_empty (C:=gset string) x). rewrite <- H.
  apply elem_of_list_to_set. left.
Qed.


End WithTimeZone.

End ResultFacts.

Import Coverage.

(** C9. For every data set, [calculateAllHeatmaps] returns, and a kind is
    a key of the [heatmaps] object it returns if and only if the kind's
    array of records is not empty; no other key is ever present.  A kind
    without records has no entry at all, rather than an entry of zeros. *)
Theorem absent_kinds_omitted `{tz : TimeZone} (a : Activities) :
  exists out,
    calculateAllHeatmaps a = Some out /\
    (is_Some (heatmaps out !! "sleep") <-> sleep a <> []) /\
    (is_Some (heatmaps out !! "nursing") <-> nursing a <> []) /\
    (is_Some (heatmaps out !! "pumping") <-> pumping a <> []) /\
    (is_Some (heatmaps out !! "bottle") <-> bottle a <> []) /\
    (is_Some (heatmaps out !! "diaper") <-> diaper a <> []) /\
    (forall type, is_Some (heatmaps out !! type) ->
       type ∈ durationTypes ++ instantTypes).
Proof.
  destruct (AggregatorFacts.calculateAllHeatmaps_spec a) as (out & Heq & _ & _ & Hlook).
  exists out. split; [exact Heq|].
  split_and!; try (rewrite Hlook, fmap_is_Some;
    first [apply ResultFacts.present_duration | apply ResultFacts.present_instant]).
  intros type. rewrite Hlook, fmap_is_Some. apply ResultFacts.aggregateOf_types.
Qed.

(** C8. Aggregation never throws.  The number of distinct days is 0
    exactly when the data set has no record at all, and then every
    intensity value of the result is 0; the quotient by the number of days
    is guarded: with 0 days the intensity of any slot is 0. *)
Theorem zero_days_zero_intensity `{tz : TimeZone} (a : Activities) :
  exists out,
    calculateAllHeatmaps a = Some out /\
    (totalDays out = 0%nat <-> noRecords a) /\
    (totalDays out = 0%nat ->
       forall type h, heatmaps out !! type = Some h ->
         Forall (fun v => v = 0%Q) (intensities h)) /\
    (forall days, intensityOf 0 days = 0%Q).
Proof.
  destruct (AggregatorFacts.calculateAllHeatmaps_spec a)
    as (out & Heq & Hall & Htotal & Hlook).
  exists out. split; [exact Heq|]. split_and!.
  - rewrite Htotal, Hall, ResultFacts.size_keys_zero.
    apply ResultFacts.noRecords_keys.
  - intros Hzero type h Hh. rewrite Hlook, Hzero in Hh.
    apply fmap_Some in Hh. destruct Hh as (agg & _ & ->). simpl.
    apply Forall_fmap, Forall_true. intros days. reflexivity.
  - intros days. reflexivity.
Qed.


(** ** Coverage of the day-sets *)

Module CoverageFacts.
Import Heatmap Coverage AggregatorFacts.

Lemma marksInterval_covers (startMinute duration m : Z) :
  0 <= startMinute < 1440 -> startMinute + duration < 2880 -> 0 <= m < 1440 ->
  marksInterval startMinute duration m = true <->
  coversInterval startMinute duration m.
Proof.
  intros Hs Hd Hm. unfold marksInterval, coversInterval, MINUTES_PER_DAY.
  destruct (Z.leb_spec (startMinute + duration) 1440) as [Hle|Hgt].
  - rewrite andb_true_iff, Z.leb_le, Z.ltb_lt. split.
    + intros [? ?]. exists (m - startMinute). split; [lia|].
      rewrite Z.mod_small; lia.
    + intros (j & Hj & Hmod). rewrite Z.mod_small in Hmod; lia.
  - assert (Hrem : Z.rem (startMinute + duration) 1440 = startMinute + duration - 1440).
    { Z.quot_rem_to_equations. lia. }
    rewrite Hrem, orb_true_iff, !andb_true_iff, !Z.leb_le, !Z.ltb_lt. split.
    + intros [[? ?]|[? ?]].
      * exists (m - startMinute). split; [lia|]. rewrite Z.mod_small; lia.
      * exists (m + 1440 - startMinute). split; [lia|].
        replace (startMinute + (m + 1440 - startMinute)) with (m + 1 * 1440) by lia.
        rewrite Z.mod_add by lia. apply Z.mod_small. lia.
    + intros (j & Hj & Hmod). revert Hmod. Z.div_mod_to_equations. lia.
Qed.

Lemma marksWindow_covers (minute m : Z) :
  marksWindow minute m = true <-> coversWindow minute m.
Proof.
  unfold marksWindow, coversWindow, HALF_WINDOW.
  rewrite bool_decide_eq_true, Exists_exists. split.
  - intros (j & Hj & Hn). apply elem_of_seqZ in Hj.
    exists (j - minute). split; [lia|].
    rewrite <- normalizedMinute_mod. replace (minute + (j - minute)) with j by lia.
    exact Hn.
  - intros (offset & Ho & Hmod). exists (minute + offset). split.
    + apply elem_of_seqZ. lia.
    + rewrite normalizedMinute_mod. exact Hmod.
Qed.

Lemma list_as_lookups {A : Type} `{!Inhabited A} (l : list A) :
  l = (fun k => l !!! k) <$> seq 0 (length l).
Proof.
  apply list_eq. intros i. rewrite list_lookup_fmap.
  destruct (decide (i < length l)%nat) as [Hlt|Hge].
  - rewrite lookup_seq_lt by exact Hlt. simpl.
    apply list_lookup_lookup_total_lt. exact Hlt.
  - rewrite lookup_seq_ge by lia. simpl. apply lookup_ge_None. lia.
Qed.

(** The sample array of the overnight scenario, minute by minute. *)
Lemma overnight_marks :
  (fun k : nat => if marksInterval 1200 300 (Z.of_nat k) then 1%Q else 0%Q)
    <$> seq 0 1440 = Segmenter.overnight.
Proof. vm_compute. reflexivity. Qed.

Lemma overnight_runs :
  findIntensityRuns Segmenter.overnight DEFAULT_THRESHOLD =
    [{| startMinute := 0; endMinute := 60; intensity := 1 |};
     {| startMinute := 1200; endMinute := 1440; intensity := 1 |}].
Proof. vm_compute. reflexivity. Qed.

Lemma intensityOf_one_key (key : string) (marked : bool) :
  intensityOf 1 (list_to_set (if marked then [key] else []) : gset string) =
    if marked then 1%Q else 0%Q.
Proof.
  unfold intensityOf. rewrite bool_decide_eq_true_2 by lia.
  destruct marked.
  - rewrite list_to_set_cons, list_to_set_nil, (right_id_L ∅ (∪)), size_singleton.
    reflexivity.
  - rewrite list_to_set_nil, size_empty. reflexivity.
Qed.

End CoverageFacts.

(** C3, as the code has it.  After aggregating the records of one kind,
    for every minute [m] in [[0, 1440)] a date key is a member of slot [m]
    if and only if some record of that date covers [m]: for an interval
    kind whose records end before the second midnight after they start
    (start minute plus duration below 2880), the half-open range from the
    start minute over the duration includes [m] modulo 1440; for an
    instant kind, [m] lies within 7 minutes of the event's minute, modulo
    1440. *)
Theorem dayset_coverage `{tz : TimeZone}
  (intervals : list DurationActivity) (instants : list InstantActivity) :
  Forall (fun r => timeToMinutes (start r) + durationMinutes r < 2880) intervals ->
  (exists agg,
     calculateDurationHeatmap intervals = Some agg /\
     forall m key, 0 <= m < 1440 ->
       key ∈ minuteDays agg !!! Z.to_nat m <->
       exists r, r ∈ intervals /\ getDateString (start r) = key /\
         coversInterval (timeToMinutes (start r)) (durationMinutes r) m) /\
  (exists agg,
     calculateInstantHeatmap instants = Some agg /\
     forall m key, 0 <= m < 1440 ->
       key ∈ minuteDays agg !!! Z.to_nat m <->
       exists r, r ∈ instants /\ getDateString (time r) = key /\
         coversWindow (timeToMinutes (time r)) m).
Proof.
  intros Hshort. split.
  - destruct (AggregatorFacts.calculateDurationHeatmap_spec intervals)
      as (agg & Heq & _ & Hslots & _).
    exists agg. split; [exact Heq|]. intros m key Hm.
    rewrite Hslots, Z2Nat.id by lia.
    rewrite elem_of_list_to_set, list_elem_of_fmap.
    rewrite Forall_forall in Hshort. split.
    + intros (r & -> & Hr). apply list_elem_of_filter in Hr. destruct Hr as [Hmarks Hr].
      exists r. split_and!; [exact Hr | reflexivity |].
      apply CoverageFacts.marksInterval_covers;
        [apply AggregatorFacts.timeToMinutes_range | auto | exact Hm | exact Hmarks].
    + intros (r & Hr & <- & Hcov). exists r. split; [reflexivity|].
      apply list_elem_of_filter. split; [|exact Hr].
      apply CoverageFacts.marksInterval_covers;
        [apply AggregatorFacts.timeToMinutes_range | auto | exact Hm | exact Hcov].
  - destruct (AggregatorFacts.calculateInstantHeatmap_spec instants)
      as (agg & Heq & _ & Hslots & _).
    exists agg. split; [exact Heq|]. intros m key Hm.
    rewrite Hslots, Z2Nat.id by lia.
    rewrite elem_of_list_to_set, list_elem_of_fmap. split.
    + intros (r & -> & Hr). apply list_elem_of_filter in Hr. destruct Hr as [Hmarks Hr].
      exists r. split_and!; [exact Hr | reflexivity |].
      apply CoverageFacts.marksWindow_covers. exact Hmarks.
    + intros (r & Hr & <- & Hcov). exists r. split; [reflexivity|].
      apply list_elem_of_filter. split; [|exact Hr].
      apply CoverageFacts.marksWindow_covers. exact Hcov.
Qed.

Lemma dayset_coverage_witness :
  (exists agg,
     calculateDurationHeatmap (tz:=UTC) [Samples.overnightSleep] = Some agg /\
     forall m key, 0 <= m < 1440 ->
       key ∈ minuteDays agg !!! Z.to_nat m <->
       exists r, r ∈ [Samples.overnightSleep] /\ getDateString (start r) = key /\
         coversInterval (timeToMinutes (start r)) (durationMinutes r) m) /\
  (exists agg,
     calculateInstantHeatmap (tz:=UTC) [{| time := Samples.evening |}] = Some agg /\
     forall m key, 0 <= m < 1440 ->
       key ∈ minuteDays agg !!! Z.to_nat m <->
       exists r, r ∈ [{| time := Samples.evening |}] /\ getDateString (time r) = key /\
         coversWindow (timeToMinutes (time r)) m).
Proof.
  apply (dayset_coverage (tz:=UTC) [Samples.overnightSleep]
           [{| time := Samples.evening |}]).
  constructor; [vm_compute; reflexivity | constructor].
Defined.

(** C3 as stated fails for a record that runs past a second midnight:
    [longSleep] starts at minute 500 and lasts 2440 minutes, so it covers
    minute 100 (1040 minutes after its start), and its date is not in
    slot 100. *)
Lemma long_record_minute_unmarked :
  timeToMinutes (tz:=UTC) (start Samples.longSleep) = 500 /\
  coversInterval 500 (durationMinutes Samples.longSleep) 100 /\
  exists agg,
    calculateDurationHeatmap (tz:=UTC) [Samples.longSleep] = Some agg /\
    ~ (getDateString (tz:=UTC) (start Samples.longSleep)
         ∈ minuteDays agg !!! 100%nat) /\
    ~ (forall m key, 0 <= m < 1440 ->
         key ∈ minuteDays agg !!! Z.to_nat m <->
         exists r, r ∈ [Samples.longSleep] /\
           getDateString (tz:=UTC) (start r) = key /\
           coversInterval (timeToMinutes (tz:=UTC) (start r)) (durationMinutes r) m).
Proof.
  assert (Hcov : coversInterval 500 (durationMinutes Samples.longSleep) 100).
  { exists 1040. split; [simpl; lia | reflexivity]. }
  split; [reflexivity|]. split; [exact Hcov|].
  destruct (AggregatorFacts.calculateDurationHeatmap_spec (tz:=UTC) [Samples.longSleep])
    as (agg & Heq & _ & Hslots & _).
  assert (Hout : getDateString (tz:=UTC) (start Samples.longSleep)
                   ∉ minuteDays agg !!! 100%nat).
  { rewrite Hslots. intros Hin.
    apply elem_of_list_to_set, list_elem_of_fmap in Hin.
    destruct Hin as (r & _ & Hr). apply list_elem_of_filter in Hr.
    destruct Hr as [Hmarks Hr]. apply list_elem_of_singleton in Hr. subst r.
    vm_compute in Hmarks. discriminate. }
  exists agg. split; [exact Heq|]. split; [exact Hout|].
  intros Hclaim. apply Hout.
  apply (Hclaim 100 (getDateString (tz:=UTC) (start Samples.longSleep))); [lia|].
  exists Samples.longSleep. split_and!; [left | reflexivity | exact Hcov].
Qed.

(** C4. With a single sleep record that starts at minute 1200 of some day
    and lasts 300 minutes, no other record and no date filter: the filter
    returns the data set as it is, the number of distinct days is 1, sleep
    is the only kind of the result, its intensity is 1 at every minute of
    [[1200, 1440)] and of [[0, 60)] and 0 at every other minute, and
    [findIntensityRuns] returns the two segments (0, 60, 1) and
    (1200, 1440, 1), in this order. *)
Theorem overnight_scenario `{tz : TimeZone} (d : Date) :
  timeToMinutes d = 1200 ->
  let acts := Samples.onlySleep {| start := d; durationMinutes := 300 |} in
  App.getFilteredActivities
    {| App.activities := acts; App.dateFilter := Samples.noFilter |} = acts /\
  exists out h,
    calculateAllHeatmaps acts = Some out /\
    totalDays out = 1%nat /\
    heatmaps out !! "sleep" = Some h /\
    (forall type, type <> "sleep" -> heatmaps out !! type = None) /\
    length (intensities h) = 1440%nat /\
    (forall m, 0 <= m < 1440 ->
       intensities h !! Z.to_nat m =
         Some (if bool_decide (1200 <= m \/ m < 60) then 1%Q else 0%Q)) /\
    findIntensityRuns (intensities h) DEFAULT_THRESHOLD =
      [{| startMinute := 0; endMinute := 60; intensity := 1 |};
       {| startMinute := 1200; endMinute := 1440; intensity := 1 |}].
Proof.
  intros Hd acts. split; [reflexivity|].
  destruct (AggregatorFacts.calculateAllHeatmaps_spec acts)
    as (out & Heq & Hall & Htotal & Hlook).
  destruct (AggregatorFacts.calculateDurationHeatmap_spec
              [{| start := d; durationMinutes := 300 |}])
    as (agg & Hagg & Hlen & Hslots & _).
  assert (Hone : totalDays out = 1%nat).
  { rewrite Htotal, Hall.
    change (dateKeys acts) with [durationKey {| start := d; durationMinutes := 300 |}].
    rewrite list_to_set_cons, list_to_set_nil, (right_id_L ∅ (∪)).
    apply size_singleton. }
  assert (Hint : intensityOf 1 <$> minuteDays agg = Segmenter.overnight).
  { rewrite (CoverageFacts.list_as_lookups (minuteDays agg)), Hlen.
    rewrite <- list_fmap_compose, <- CoverageFacts.overnight_marks.
    apply list_fmap_ext. intros _ k _. simpl. rewrite Hslots.
    rewrite <- CoverageFacts.intensityOf_one_key
      with (key := durationKey {| start := d; durationMinutes := 300 |}).
    f_equal. f_equal.
    assert (Hmarks : durationMarks (Z.of_nat k) {| start := d; durationMinutes := 300 |}
                     = marksInterval 1200 300 (Z.of_nat k)).
    { unfold durationMarks. cbn [start durationMinutes]. rewrite Hd. reflexivity. }
    destruct (marksInterval 1200 300 (Z.of_nat k)) eqn:E.
    - rewrite filter_cons_True by exact Hmarks. reflexivity.
    - rewrite filter_cons_False by (rewrite Hmarks; discriminate). reflexivity. }
  exists out, (finish 1 "sleep" agg). split; [exact Heq|]. split; [exact Hone|].
  cbn [intensities finish]. rewrite Hint. split_and!.
  - rewrite Hlook, Hone. unfold aggregateOf, acts, Samples.onlySleep. simpl.
    rewrite Hagg. reflexivity.
  - intros type Hne. rewrite Hlook. unfold aggregateOf, acts, Samples.onlySleep.
    repeat case_decide; subst; try contradiction; reflexivity.
  - reflexivity.
  - intros m Hm. rewrite <- CoverageFacts.overnight_marks, list_lookup_fmap.
    rewrite lookup_seq_lt by lia. simpl. rewrite Z2Nat.id by lia. f_equal.
    unfold marksInterval, MINUTES_PER_DAY.
    change (1200 + 300 <=? 1440) with false.
    change (Z.rem (1200 + 300) 1440) with 60. cbv iota.
    destruct (Z.leb_spec 1200 m), (Z.ltb_spec m 1440), (Z.leb_spec 0 m),
      (Z.ltb_spec m 60); case_bool_decide; cbn [andb orb]; try reflexivity; lia.
  - apply CoverageFacts.overnight_runs.
Qed.

Lemma overnight_scenario_witness :
  let acts := Samples.onlySleep Samples.overnightSleep in
  App.getFilteredActivities
    {| App.activities := acts; App.dateFilter := Samples.noFilter |} = acts /\
  exists out h,
    calculateAllHeatmaps (tz:=UTC) acts = Some out /\
    totalDays out = 1%nat /\
    heatmaps out !! "sleep" = Some h /\
    (forall type, type <> "sleep" -> heatmaps out !! type = None) /\
    length (intensities h) = 1440%nat /\
    (forall m, 0 <= m < 1440 ->
       intensities h !! Z.to_nat m =
         Some (if bool_decide (1200 <= m \/ m < 60) then 1%Q else 0%Q)) /\
    findIntensityRuns (intensities h) DEFAULT_THRESHOLD =
      [{| startMinute := 0; endMinute := 60; intensity := 1 |};
       {| startMinute := 1200; endMinute := 1440; intensity := 1 |}].
Proof.
  apply (overnight_scenario (tz:=UTC) Samples.evening). reflexivity.
Defined.

(** ** The date filter *)

Module FilterFacts.
Import Heatmap App Filter.

Lemma keepDate_within (lo hi : option Date) (t : Date) :
  keepDate lo hi t = true <-> withinBounds lo hi t.
Proof.
  unfold keepDate, withinBounds.
  destruct lo as [s|], hi as [e|];
    repeat match goal with
           | |- context [?x <? ?y] => destruct (Z.ltb_spec x y)
           | |- context [?x >? ?y] => rewrite (Z.gtb_ltb x y)
           end; split; try tauto; try discriminate; try lia.
Qed.

Lemma filter_all {A : Type} (P : A -> Prop) `{!forall x, Decision (P x)}
  (l : list A) : (forall x, P x) -> filter P l = l.
Proof.
  intros HP. induction l as [|x l IH]; [reflexivity|].
  rewrite filter_cons_True by apply HP. f_equal. exact IH.
Qed.

Lemma filter_none {A : Type} (P : A -> Prop) `{!forall x, Decision (P x)}
  (l : list A) : Forall (fun x => ~ P x) l -> filter P l = [].
Proof.
  induction 1 as [|x l Hx _ IH]; [reflexivity|].
  rewrite filter_cons_False by exact Hx. exact IH.
Qed.

Lemma Math_min_of_spec (others : list Z) :
  forall first,
    Math_min_of first others ∈ first :: others /\
    Forall (fun d => Math_min_of first others <= d) (first :: others).
Proof.
  unfold Math_min_of. induction others as [|x l IH]; intros first; simpl.
  - split; [left | repeat constructor; lia].
  - destruct (IH (Z.min first x)) as [Hin Hall]. split.
    + apply elem_of_cons in Hin. destruct Hin as [Heq|Hin].
      * rewrite Heq. destruct (Z.min_spec first x) as [[_ ->]|[_ ->]];
          [left | right; left].
      * right; right. exact Hin.
    + inversion Hall as [|? ? Hm Hl]; subst.
      constructor; [lia|]. constructor; [lia|exact Hl].
Qed.

Lemma Math_max_of_spec (others : list Z) :
  forall first,
    Math_max_of first others ∈ first :: others /\
    Forall (fun d => d <= Math_max_of first others) (first :: others).
Proof.
  unfold Math_max_of. induction others as [|x l IH]; intros first; simpl.
  - split; [left | repeat constructor; lia].
  - destruct (IH (Z.max first x)) as [Hin Hall]. split.
    + apply elem_of_cons in Hin. destruct Hin as [Heq|Hin].
      * rewrite Heq. destruct (Z.max_spec first x) as [[_ ->]|[_ ->]];
          [right; left | left].
      * right; right. exact Hin.
    + inversion Hall as [|? ? Hm Hl]; subst.
      constructor; [lia|]. constructor; [lia|exact Hl].
Qed.

(** In a zone without clock changes, thirty days before now. *)
Lemma UTC_thirtyDaysAgo (today now : Date) :
  getDate (TimeZone:=UTC) today = getDate (TimeZone:=UTC) now ->
  setDate (TimeZone:=UTC) now (getDate (TimeZone:=UTC) today - 30)
    = now - 30 * UTCDate.msPerDay.
Proof. simpl. unfold UTCDate.withDate. intros ->. lia. Qed.

End FilterFacts.

Import App Filter.

(** C7. For every state, [getFilteredActivities] returns, kind by kind and
    in the original order, exactly the records whose start instant
    (interval kinds) or occurrence instant (instant kinds) lies within the
    bounds of the date filter, both bounds included, a bound that is not
    set leaving its side unconstrained.  A kind none of whose records lies
    within the bounds yields the empty list.  The function reads the state
    and writes nothing. *)
Theorem range_filter_contract (state : State) :
  let lo := dateFilter_start (dateFilter state) in
  let hi := dateFilter_end (dateFilter state) in
  let a := activities state in
  getFilteredActivities state = restrict lo hi a /\
  (Forall (fun r => ~ withinBounds lo hi (start r)) (sleep a) ->
     sleep (getFilteredActivities state) = []) /\
  (Forall (fun r => ~ withinBounds lo hi (start r)) (nursing a) ->
     nursing (getFilteredActivities state) = []) /\
  (Forall (fun r => ~ withinBounds lo hi (start r)) (pumping a) ->
     pumping (getFilteredActivities state) = []) /\
  (Forall (fun r => ~ withinBounds lo hi (time r)) (bottle a) ->
     bottle (getFilteredActivities state) = []) /\
  (Forall (fun r => ~ withinBounds lo hi (time r)) (diaper a) ->
     diaper (getFilteredActivities state) = []).
Proof.
  intros lo hi a.
  assert (Heq : getFilteredActivities state = restrict lo hi a).
  { unfold getFilteredActivities, restrict. fold lo hi a.
    destruct lo as [s|] eqn:Elo, hi as [e|] eqn:Ehi.
    4: { destruct a as [sl nu pu bo di]. cbn [sleep nursing pumping bottle diaper].
         rewrite !FilterFacts.filter_all; [reflexivity|..];
           intros x; split; exact I. }
    all: f_equal; apply list_filter_iff; intros r;
         apply FilterFacts.keepDate_within. }
  split; [exact Heq|]. rewrite Heq. unfold restrict.
  cbn [sleep nursing pumping bottle diaper].
  split_and!; apply FilterFacts.filter_none.
Qed.

(** C1, as the code has it.  For every state with at least one record,
    [initializeDateFilter] sets the start of the filter to the later of
    (the current time with its day of the month moved back by 30) and the
    earliest instant in the data, and the end to the earlier of the
    current time and the latest instant in the data.  The start is never
    before the earliest instant and the end never after the latest one.
    The window is non-empty (start <= end) exactly when the moved-back
    time is neither after the current time nor after the latest instant,
    and the earliest instant is not after the current time. *)
Theorem default_window `{tz : TimeZone} (today now : Date) (state : State) :
  getAllActivityDates state <> [] ->
  exists minDate maxDate,
    minDate ∈ getAllActivityDates state /\
    maxDate ∈ getAllActivityDates state /\
    Forall (fun d => minDate <= d <= maxDate) (getAllActivityDates state) /\
    let thirtyDaysAgo := setDate now (getDate today - 30) in
    let filterStart := Z.max thirtyDaysAgo minDate in
    let filterEnd := Z.min today maxDate in
    initializeDateFilter today now state =
      {| activities := activities state;
         dateFilter := {| dateFilter_start := Some filterStart;
                          dateFilter_end := Some filterEnd |} |} /\
    minDate <= filterStart /\ filterEnd <= maxDate /\
    (filterStart <= filterEnd <->
       thirtyDaysAgo <= today /\ thirtyDaysAgo <= maxDate /\ minDate <= today).
Proof.
  intros Hne. unfold initializeDateFilter.
  destruct (getAllActivityDates state) as [|first others]; [congruence|].
  destruct (FilterFacts.Math_min_of_spec others first) as [Hmin Hminall].
  destruct (FilterFacts.Math_max_of_spec others first) as [Hmax Hmaxall].
  exists (Math_min_of first others), (Math_max_of first others).
  split; [exact Hmin|]. split; [exact Hmax|]. split.
  { rewrite Forall_forall in Hminall, Hmaxall |- *. intros d Hd.
    specialize (Hminall d Hd). specialize (Hmaxall d Hd). lia. }
  assert (Hle : Math_min_of first others <= Math_max_of first others).
  { rewrite Forall_forall in Hmaxall. apply Hmaxall. exact Hmin. }
  cbv zeta. unfold getTime, newDate. split_and!; try lia.
  f_equal. f_equal; f_equal.
  - rewrite Z.gtb_ltb. destruct (Z.ltb_spec (Math_min_of first others)
                                   (setDate now (getDate today - 30))); lia.
  - destruct (Z.ltb_spec today (Math_max_of first others)); lia.
Qed.

Lemma default_window_witness :
  let state := {| activities := Samples.onlySleep Samples.overnightSleep;
                  dateFilter := Samples.noFilter |} in
  let today := Samples.evening + 3 * UTCDate.msPerDay in
  exists minDate maxDate,
    minDate ∈ getAllActivityDates state /\
    maxDate ∈ getAllActivityDates state /\
    Forall (fun d => minDate <= d <= maxDate) (getAllActivityDates state) /\
    let thirtyDaysAgo := setDate (TimeZone:=UTC) today (getDate (TimeZone:=UTC) today - 30) in
    let filterStart := Z.max thirtyDaysAgo minDate in
    let filterEnd := Z.min today maxDate in
    initializeDateFilter (tz:=UTC) today today state =
      {| activities := activities state;
         dateFilter := {| dateFilter_start := Some filterStart;
                          dateFilter_end := Some filterEnd |} |} /\
    minDate <= filterStart /\ filterEnd <= maxDate /\
    (filterStart <= filterEnd <->
       thirtyDaysAgo <= today /\ thirtyDaysAgo <= maxDate /\ minDate <= today).
Proof.
  apply (default_window (tz:=UTC) (Samples.evening + 3 * UTCDate.msPerDay)
           (Samples.evening + 3 * UTCDate.msPerDay)
           {| activities := Samples.onlySleep Samples.overnightSleep;
              dateFilter := Samples.noFilter |}).
  vm_compute. discriminate.
Defined.

(** C1 as stated fails on old data: the only record is of 1 June 2025 and
    the clock reads 13 January 2026, 20:00.  The start of the filter is
    14 December 2025, 20:00, not the later of (the latest instant in the
    data minus 30 days) and the earliest instant, which is the record's
    instant; it lies after the end of the filter and after the latest
    instant in the data. *)
Lemma default_window_misses_old_data :
  let state := {| activities := Samples.onlySleep Samples.longSleep;
                  dateFilter := Samples.noFilter |} in
  let state' := initializeDateFilter (tz:=UTC) Samples.evening Samples.evening state in
  getAllActivityDates state = [Samples.morning] /\
  dateFilter_start (dateFilter state') = Some 1765742400000 /\
  dateFilter_end (dateFilter state') = Some Samples.morning /\
  ~ (1765742400000 <= Samples.morning) /\
  ~ (exists filterStart filterEnd,
       dateFilter_start (dateFilter state') = Some filterStart /\
       dateFilter_end (dateFilter state') = Some filterEnd /\
       filterStart = Z.max (Samples.morning - 30 * UTCDate.msPerDay) Samples.morning /\
       filterEnd = Z.min Samples.evening Samples.morning /\
       filterStart <= filterEnd).
Proof.
  split_and!; try reflexivity.
  - vm_compute. congruence.
  - intros (filterStart & filterEnd & Hs & _ & Hclaimed & _).
    vm_compute in Hs, Hclaimed. congruence.
Qed.

(** ** Further properties of the segmenter *)

Module SegmentsFacts.
Import Heatmap Segmenter Segments SegmenterFacts.

(** A sample that is positive and above the threshold cannot belong to a
    run whose anchor is not positive. *)
Lemma anchored_bright intensities threshold runStart stop runIntensity k v :
  anchored intensities threshold runStart stop runIntensity ->
  runStart <= k < stop ->
  intensities !! Z.to_nat k = Some v ->
  (0 < v)%Q -> (threshold < v)%Q -> (0 < runIntensity)%Q.
Proof.
  intros (Hr & Hs & Hk) Hrange Hv Hpos Hthr.
  destruct (decide (k = runStart)) as [->|Hne].
  - rewrite Hs in Hv. injection Hv as ->. exact Hpos.
  - assert (Habs : (Qabs (v - runIntensity) <= threshold)%Q).
    { apply (Hk k v); [lia | exact Hv]. }
    apply Qabs_Qle_condition in Habs. destruct Habs as [_ Habs]. lra.
Qed.

(** The loop once more: where emitted runs stop, and which minutes they
    cover. *)
Lemma scanRuns_closed intensities threshold :
  forall rest m runStart runIntensity runs,
    drop (Z.to_nat m) intensities = rest ->
    anchored intensities threshold runStart m runIntensity ->
    exists new runStart' runIntensity',
      scanRuns threshold rest m runStart runIntensity runs
        = (runs ++ new, runStart', runIntensity') /\
      Forall (closedBy intensities threshold) new /\
      forall k v, runStart <= k < runStart' ->
        intensities !! Z.to_nat k = Some v ->
        (0 < v)%Q -> (threshold < v)%Q ->
        Exists (covers k) new.
Proof.
  induction rest as [|currentIntensity rest IH];
    intros m runStart runIntensity runs Hdrop Hanch.
  - exists [], runStart, runIntensity. simpl. rewrite app_nil_r.
    split_and!; [reflexivity | constructor |]. intros k v ?. lia.
  - assert (Hm : 0 <= m) by (destruct Hanch as [? _]; lia).
    assert (Hcur : intensities !! Z.to_nat m = Some currentIntensity).
    { rewrite <- (Nat.add_0_r (Z.to_nat m)), <- lookup_drop, Hdrop. reflexivity. }
    assert (Hdrop' : drop (Z.to_nat (m + 1)) intensities = rest).
    { replace (Z.to_nat (m + 1)) with (Z.to_nat m + 1)%nat by lia.
      rewrite <- drop_drop, Hdrop. reflexivity. }
    cbn [scanRuns].
    destruct (Qgtb (Math_abs (currentIntensity - runIntensity)) threshold) eqn:Hchg.
    + destruct (IH (m + 1) m currentIntensity
                  (if Qgtb runIntensity 0
                   then runs ++ [{| startMinute := runStart; endMinute := m;
                                    intensity := runIntensity |}]
                   else runs) Hdrop' (anchored_fresh _ _ _ _ Hm Hcur))
        as (new & rs & ri & Heq & Hclosed & Hcov).
      assert (Hms : m <= rs).
      { destruct (scanRuns_inv intensities threshold rest (m + 1) m currentIntensity
                    (if Qgtb runIntensity 0
                     then runs ++ [{| startMinute := runStart; endMinute := m;
                                      intensity := runIntensity |}]
                     else runs) Hdrop' (anchored_fresh _ _ _ _ Hm Hcur))
          as (new' & rs' & ri' & Heq' & Hle & _).
        rewrite Heq in Heq'. injection Heq' as _ -> _. exact Hle. }
      apply Qgtb_true in Hchg.
      destruct (Qgtb runIntensity 0) eqn:Hpos.
      * exists ({| startMinute := runStart; endMinute := m;
                   intensity := runIntensity |} :: new), rs, ri.
        rewrite Heq, <- app_assoc. simpl app.
        split_and!; [reflexivity | |].
        -- constructor; [|exact Hclosed]. exists currentIntensity.
           split; [exact Hcur | exact Hchg].
        -- intros k v Hk Hv Hv0 Hvt. destruct (decide (k < m)) as [Hlt|Hge].
           ++ apply Exists_cons_hd. unfold covers. simpl. lia.
           ++ apply Exists_cons_tl. apply (Hcov k v); auto. lia.
      * exists new, rs, ri. rewrite Heq.
        split_and!; [reflexivity | exact Hclosed |].
        intros k v Hk Hv Hv0 Hvt. destruct (decide (k < m)) as [Hlt|Hge].
        -- apply Qgtb_false in Hpos.
           assert (0 < runIntensity)%Q
             by (apply (anchored_bright _ _ _ _ _ k v Hanch); auto; lia).
           lra.
        -- apply (Hcov k v); auto. lia.
    + apply Qgtb_false in Hchg.
      destruct (IH (m + 1) runStart runIntensity runs Hdrop'
                  (anchored_extend _ _ _ _ _ _ Hanch Hcur Hchg))
        as (new & rs & ri & Heq & Hclosed & Hcov).
      exists new, rs, ri. split_and!; [exact Heq | exact Hclosed | exact Hcov].
Qed.

(** Everything known about the state in which the loop ends. *)
Lemma scanRuns_final first rest threshold :
  exists runs runStart runIntensity,
    scanRuns threshold rest 1 0 first [] = (runs, runStart, runIntensity) /\
    anchored (first :: rest) threshold runStart
      (Z.of_nat (length (first :: rest))) runIntensity /\
    Forall (emitted (first :: rest) threshold) runs /\
    Forall (fun r => endMinute r <= runStart) runs /\
    ordered runs /\
    Forall (closedBy (first :: rest) threshold) runs /\
    forall k v, 0 <= k < runStart ->
      (first :: rest) !! Z.to_nat k = Some v ->
      (0 < v)%Q -> (threshold < v)%Q ->
      Exists (covers k) runs.
Proof.
  destruct (scanRuns_start first rest threshold)
    as (runs & rs & ri & Heq & Hanch & Hem & Hbd & Hord).
  destruct (scanRuns_closed (first :: rest) threshold rest 1 0 first [])
    as (new & rs' & ri' & Heq' & Hclosed & Hcov).
  - reflexivity.
  - apply (anchored_fresh (first :: rest) threshold 0 first); [lia | reflexivity].
  - rewrite Heq in Heq'. simpl app in Heq'. injection Heq' as <- <- <-.
    exists runs, rs, ri.
    split_and!; [exact Heq | exact Hanch | exact Hem | exact Hbd | exact Hord
                | exact Hclosed | exact Hcov].
Qed.

Lemma ordered_covers_unique (runs : list Run) (k : Z) :
  ordered runs ->
  forall r r', r ∈ runs -> r' ∈ runs -> covers k r -> covers k r' -> r = r'.
Proof.
  unfold ordered, covers. induction 1 as [|a l Hs IH Hall]; intros r r' Hr Hr' Hk Hk'.
  - inversion Hr.
  - rewrite Forall_forall in Hall.
    apply elem_of_cons in Hr, Hr'. destruct Hr as [->|Hr], Hr' as [->|Hr'].
    + reflexivity.
    + specialize (Hall r' Hr'). lia.
    + specialize (Hall r Hr). lia.
    + apply IH; assumption.
Qed.

End SegmentsFacts.

Import Segments.

(** X1. No bright minute is lost: in an array of at most 1440 samples,
    every minute whose sample is positive and above the tolerance lies in
    one emitted segment, and in one only. *)
Theorem bright_minute_in_one_segment (intensities : list Q) (threshold : Q)
  (k : nat) (v : Q) :
  (length intensities <= 1440)%nat ->
  intensities !! k = Some v ->
  (0 < v)%Q -> (threshold < v)%Q ->
  exists r,
    r ∈ findIntensityRuns intensities threshold /\ covers (Z.of_nat k) r /\
    forall r', r' ∈ findIntensityRuns intensities threshold ->
      covers (Z.of_nat k) r' -> r' = r.
Proof.
  intros Hlen Hv Hv0 Hvt. destruct intensities as [|first rest]; [discriminate|].
  destruct (SegmentsFacts.scanRuns_final first rest threshold)
    as (runs & rs & ri & Heq & Hanch & Hem & Hbd & Hord & _ & Hcov).
  rewrite (SegmenterFacts.findIntensityRuns_cons _ _ _ _ _ _ Heq).
  assert (Hk : (k < length (first :: rest))%nat) by (eapply lookup_lt_Some; eauto).
  assert (Hv' : (first :: rest) !! Z.to_nat (Z.of_nat k) = Some v)
    by (rewrite Nat2Z.id; exact Hv).
  assert (Hex : exists r,
    r ∈ (if Qgtb ri 0
         then runs ++ [{| startMinute := rs; endMinute := MINUTES_PER_DAY;
                          intensity := ri |}]
         else runs) /\ covers (Z.of_nat k) r).
  { destruct (decide (Z.of_nat k < rs)) as [Hlt|Hge].
    - specialize (Hcov (Z.of_nat k) v ltac:(lia) Hv' Hv0 Hvt).
      apply Exists_exists in Hcov. destruct Hcov as (r & Hr & Hkr).
      exists r. split; [|exact Hkr]. destruct (Qgtb ri 0); [|exact Hr].
      apply elem_of_app. left. exact Hr.
    - assert (Hpos : (0 < ri)%Q).
      { apply (SegmentsFacts.anchored_bright _ _ _ _ _ (Z.of_nat k) v Hanch);
          auto; lia. }
      apply Qgtb_true in Hpos. rewrite Hpos. eexists. split.
      + apply elem_of_app. right. left.
      + unfold covers, MINUTES_PER_DAY. simpl. simpl in Hlen. simpl in Hk. lia. }
  destruct Hex as (r & Hr & Hkr). exists r. split; [exact Hr|]. split; [exact Hkr|].
  intros r' Hr' Hkr'.
  apply (SegmentsFacts.ordered_covers_unique
           (if Qgtb ri 0
            then runs ++ [{| startMinute := rs; endMinute := MINUTES_PER_DAY;
                             intensity := ri |}]
            else runs) (Z.of_nat k)); auto.
  destruct (Qgtb ri 0); [|exact Hord].
  apply SegmenterFacts.ordered_snoc; [exact Hord | exact Hbd].
Qed.

Lemma bright_minute_in_one_segment_witness :
  exists r,
    r ∈ findIntensityRuns Segmenter.overnight DEFAULT_THRESHOLD /\ covers 30 r /\
    forall r', r' ∈ findIntensityRuns Segmenter.overnight DEFAULT_THRESHOLD ->
      covers 30 r' -> r' = r.
Proof.
  apply (bright_minute_in_one_segment Segmenter.overnight DEFAULT_THRESHOLD 30 1%Q);
    [vm_compute; apply le_n | reflexivity | reflexivity | reflexivity].
Defined.

(** X2. Segments are maximal: every emitted segment either ends at minute
    1440 or ends at a minute whose sample differs from the segment's
    intensity by more than the tolerance. *)
Theorem segments_are_maximal (intensities : list Q) (threshold : Q) :
  Forall (fun r => endMinute r = 1440 \/ closedBy intensities threshold r)
    (findIntensityRuns intensities threshold).
Proof.
  destruct intensities as [|first rest]; [constructor|].
  destruct (SegmentsFacts.scanRuns_final first rest threshold)
    as (runs & rs & ri & Heq & _ & _ & _ & _ & Hclosed & _).
  rewrite (SegmenterFacts.findIntensityRuns_cons _ _ _ _ _ _ Heq).
  assert (Hall : Forall (fun r => endMinute r = 1440 \/
                           closedBy (first :: rest) threshold r) runs).
  { eapply Forall_impl; [exact Hclosed|]. intros r ?. right. assumption. }
  destruct (Qgtb ri 0); [|exact Hall].
  apply Forall_app. split; [exact Hall|]. repeat constructor.
Qed.

(** X3. A curve without a positive sample yields no segment at all. *)
Theorem no_positive_sample_no_segment (intensities : list Q) (threshold : Q) :
  Forall (fun v => (v <= 0)%Q) intensities ->
  findIntensityRuns intensities threshold = [].
Proof.
  intros Hle. destruct intensities as [|first rest]; [reflexivity|].
  destruct (SegmentsFacts.scanRuns_final first rest threshold)
    as (runs & rs & ri & Heq & Hanch & Hem & _).
  rewrite (SegmenterFacts.findIntensityRuns_cons _ _ _ _ _ _ Heq).
  rewrite Forall_forall in Hle.
  assert (Hri : Qgtb ri 0 = false).
  { apply Qgtb_false. destruct Hanch as (_ & Hs & _).
    apply Hle. eapply list_elem_of_lookup_2. exact Hs. }
  rewrite Hri. destruct runs as [|r runs]; [reflexivity|].
  exfalso. inversion Hem as [|? ? (Hpos & _ & Hs & _) _]; subst.
  assert (intensity r <= 0)%Q by (apply Hle; eapply list_elem_of_lookup_2; exact Hs).
  lra.
Qed.

Lemma no_positive_sample_no_segment_witness :
  findIntensityRuns (replicate 1440 0%Q) DEFAULT_THRESHOLD = [].
Proof.
  apply (no_positive_sample_no_segment (replicate 1440 0%Q) DEFAULT_THRESHOLD).
  apply Forall_replicate. discriminate.
Defined.

(** ** Further properties of the aggregator *)

Module DatasetFacts.
Import Heatmap Coverage Dataset AggregatorFacts ResultFacts.

Lemma minuteDays_ext (md md' : list (gset string)) :
  length md = 1440%nat -> length md' = 1440%nat ->
  (forall k : nat, md !!! k = md' !!! k) -> md = md'.
Proof.
  intros Hlen Hlen' Hext.
  rewrite (CoverageFacts.list_as_lookups md), (CoverageFacts.list_as_lookups md').
  rewrite Hlen, Hlen'. apply list_fmap_ext. intros _ k _. apply Hext.
Qed.

Lemma keys_subseteq {A : Type} (key : A -> string) (P : A -> Prop)
  `{!forall x, Decision (P x)} (l l' : list A) :
  l ⊆ l' ->
  (list_to_set (key <$> filter P l) : gset string)
    ⊆ list_to_set (key <$> filter P l').
Proof.
  intros Hsub x. rewrite !elem_of_list_to_set, !list_elem_of_fmap.
  intros (r & -> & Hr). apply list_elem_of_filter in Hr. destruct Hr as [HP Hr].
  exists r. split; [reflexivity|]. apply list_elem_of_filter. split; [exact HP|].
  apply Hsub. exact Hr.
Qed.

Lemma keys_ext {A : Type} (key : A -> string) (P : A -> Prop)
  `{!forall x, Decision (P x)} (l l' : list A) :
  (forall r, r ∈ l <-> r ∈ l') ->
  (list_to_set (key <$> filter P l) : gset string)
    = list_to_set (key <$> filter P l').
Proof.
  intros Hsame. apply set_eq. intros x. split; apply keys_subseteq;
    intros r Hr; apply Hsame; exact Hr.
Qed.

Lemma all_keys_ext {A : Type} (key : A -> string) (l l' : list A) :
  (forall r, r ∈ l <-> r ∈ l') ->
  (list_to_set (key <$> l) : gset string) = list_to_set (key <$> l').
Proof.
  intros Hsame. apply set_eq. intros x.
  rewrite !elem_of_list_to_set, !list_elem_of_fmap.
  split; intros (r & -> & Hr); exists r; (split; [reflexivity|]);
    apply Hsame; exact Hr.
Qed.

Lemma same_nil {A : Type} (l l' : list A) :
  (forall r, r ∈ l <-> r ∈ l') -> (l = [] <-> l' = []).
Proof.
  intros Hsame. split; intros ->.
  - destruct l' as [|x l']; [reflexivity|].
    exfalso. apply (not_elem_of_nil x). apply Hsame. left.
  - destruct l as [|x l]; [reflexivity|].
    exfalso. apply (not_elem_of_nil x). apply Hsame. left.
Qed.

Section WithTimeZone.
Context {tz : TimeZone}.

Lemma duration_ext (l l' : list DurationActivity) :
  (forall r, r ∈ l <-> r ∈ l') ->
  days <$> present calculateDurationHeatmap l
    = days <$> present calculateDurationHeatmap l'.
Proof.
  intros Hsame. pose proof (same_nil l l' Hsame) as Hnil.
  destruct (calculateDurationHeatmap_spec l) as (agg & Heq & Hlen & Hslots & Hud & _).
  destruct (calculateDurationHeatmap_spec l') as (agg' & Heq' & Hlen' & Hslots' & Hud' & _).
  destruct l as [|r l], l' as [|r' l']; simpl;
    try reflexivity; try (destruct Hnil as [H1 H2]; first [specialize (H1 eq_refl) | specialize (H2 eq_refl)]; discriminate).
  rewrite Heq, Heq'. simpl. unfold days. do 2 f_equal.
  - apply minuteDays_ext; auto. intros k. rewrite Hslots, Hslots'.
    apply keys_ext. exact Hsame.
  - rewrite Hud, Hud'. apply all_keys_ext. exact Hsame.
Qed.

Lemma instant_ext (l l' : list InstantActivity) :
  (forall r, r ∈ l <-> r ∈ l') ->
  days <$> present calculateInstantHeatmap l
    = days <$> present calculateInstantHeatmap l'.
Proof.
  intros Hsame. pose proof (same_nil l l' Hsame) as Hnil.
  destruct (calculateInstantHeatmap_spec l) as (agg & Heq & Hlen & Hslots & Hud & _).
  destruct (calculateInstantHeatmap_spec l') as (agg' & Heq' & Hlen' & Hslots' & Hud' & _).
  destruct l as [|r l], l' as [|r' l']; simpl;
    try reflexivity; try (destruct Hnil as [H1 H2]; first [specialize (H1 eq_refl) | specialize (H2 eq_refl)]; discriminate).
  rewrite Heq, Heq'. simpl. unfold days. do 2 f_equal.
  - apply minuteDays_ext; auto. intros k. rewrite Hslots, Hslots'.
    apply keys_ext. exact Hsame.
  - rewrite Hud, Hud'. apply all_keys_ext. exact Hsame.
Qed.

Lemma aggregateOf_ext (a a' : Activities) (type : string) :
  sameRecords a a' ->
  days <$> aggregateOf a type = days <$> aggregateOf a' type.
Proof.
  intros (Hs & Hn & Hp & Hb & Hd). unfold aggregateOf.
  repeat case_decide; auto using duration_ext, instant_ext.
Qed.

Lemma dateKeys_ext (a a' : Activities) :
  sameRecords a a' ->
  (list_to_set (dateKeys a) : gset string) = list_to_set (dateKeys a').
Proof.
  intros (Hs & Hn & Hp & Hb & Hd). unfold dateKeys.
  rewrite !list_to_set_app_L.
  rewrite (all_keys_ext durationKey _ _ Hs), (all_keys_ext durationKey _ _ Hn),
    (all_keys_ext durationKey _ _ Hp), (all_keys_ext instantKey _ _ Hb),
    (all_keys_ext instantKey _ _ Hd). reflexivity.
Qed.

(** Data sets with the same records give the same curves. *)
Lemma curves_ext (a a' : Activities) :
  sameRecords a a' ->
  exists out out',
    calculateAllHeatmaps a = Some out /\
    calculateAllHeatmaps a' = Some out' /\
    totalDays out = totalDays out' /\
    allUniqueDays out = allUniqueDays out' /\
    forall type, curve <$> heatmaps out !! type = curve <$> heatmaps out' !! type.
Proof.
  intros Hsame.
  destruct (calculateAllHeatmaps_spec a) as (out & Heq & Hall & Htotal & Hlook).
  destruct (calculateAllHeatmaps_spec a') as (out' & Heq' & Hall' & Htotal' & Hlook').
  exists out, out'. split; [exact Heq|]. split; [exact Heq'|].
  assert (Hdays : allUniqueDays out = allUniqueDays out').
  { rewrite Hall, Hall'. apply dateKeys_ext. exact Hsame. }
  assert (Htot : totalDays out = totalDays out').
  { rewrite Htotal, Htotal', Hdays. reflexivity. }
  split; [exact Htot|]. split; [exact Hdays|].
  intros type. rewrite Hlook, Hlook', Htot.
  pose proof (aggregateOf_ext a a' type Hsame) as Hagg.
  destruct (aggregateOf a type) as [agg|], (aggregateOf a' type) as [agg'|];
    simpl in Hagg |- *; try discriminate; [|reflexivity].
  injection Hagg as Hmd Hud. unfold curve, finish. simpl. rewrite Hmd, Hud.
  reflexivity.
Qed.

End WithTimeZone.

Lemma mergeResult_twice (r : ParseResult) (a : Activities) :
  sameRecords (mergeResult r (mergeResult r a)) (mergeResult r a).
Proof.
  destruct r as [l|l|l|l|l]; unfold mergeResult, sameRecords;
    destruct (bool_decide (0 < length l)%nat); simpl;
    (split_and!; intros x; rewrite ?elem_of_app; tauto).
Qed.

Lemma mergeResult_swap (r1 r2 : ParseResult) (a : Activities) :
  sameRecords (mergeResult r1 (mergeResult r2 a)) (mergeResult r2 (mergeResult r1 a)).
Proof.
  destruct r1 as [l1|l1|l1|l1|l1], r2 as [l2|l2|l2|l2|l2];
    unfold mergeResult, sameRecords;
    destruct (bool_decide (0 < length l1)%nat), (bool_decide (0 < length l2)%nat);
    simpl; (split_and!; intros x; rewrite ?elem_of_app; tauto).
Qed.

End DatasetFacts.

Import Dataset.

(** X4. The curves depend on the set of records of each kind only: two
    data sets holding the same records, in any order and with any
    repetitions, have the same number of distinct days and, kind by kind,
    the same day-sets, days, intensities, colour and name.  (The field
    [totalCount], the number of records, is the only one that may
    differ.) *)
Theorem curves_depend_on_record_sets `{tz : TimeZone} (a a' : Activities) :
  sameRecords a a' ->
  exists out out',
    calculateAllHeatmaps a = Some out /\
    calculateAllHeatmaps a' = Some out' /\
    totalDays out = totalDays out' /\
    allUniqueDays out = allUniqueDays out' /\
    forall type, curve <$> heatmaps out !! type = curve <$> heatmaps out' !! type.
Proof. apply DatasetFacts.curves_ext. Qed.

Lemma curves_depend_on_record_sets_witness :
  let a := Samples.onlySleep Samples.overnightSleep in
  let a' := {| sleep := [Samples.overnightSleep; Samples.overnightSleep];
               nursing := []; pumping := []; bottle := []; diaper := [] |} in
  exists out out',
    calculateAllHeatmaps (tz:=UTC) a = Some out /\
    calculateAllHeatmaps (tz:=UTC) a' = Some out' /\
    totalDays out = totalDays out' /\
    allUniqueDays out = allUniqueDays out' /\
    forall type, curve <$> heatmaps out !! type = curve <$> heatmaps out' !! type.
Proof.
  apply (curves_depend_on_record_sets (tz:=UTC)
           (Samples.onlySleep Samples.overnightSleep)
           {| sleep := [Samples.overnightSleep; Samples.overnightSleep];
              nursing := []; pumping := []; bottle := []; diaper := [] |}).
  unfold sameRecords. cbn [sleep nursing pumping bottle diaper Samples.onlySleep].
  split_and!; intros r; rewrite ?elem_of_cons; tauto.
Defined.


(** ** Marking, counting and composing *)

Module MarkingFacts.
Import Heatmap Coverage Dataset AggregatorFacts ResultFacts DatasetFacts.

Lemma addDay_None d m (md : list (gset string)) :
  ~ (0 <= m < Z.of_nat (length md)) -> addDay d m md = None.
Proof. intros H. unfold addDay. rewrite bool_decide_eq_false_2; auto. Qed.

Lemma forRange_empty {S : Type} (from to : Z) (body : Z -> S -> option S) (s : S) :
  to <= from -> forRange from to body s = Some s.
Proof.
  intros H. unfold forRange. replace (Z.to_nat (to - from)) with 0%nat by lia.
  reflexivity.
Qed.

Lemma forRange_first_throws d from to (md : list (gset string)) :
  from < to -> ~ (0 <= from < Z.of_nat (length md)) ->
  forRange from to (addDay d) md = None.
Proof.
  intros Hlt Hout. unfold forRange.
  destruct (Z.to_nat (to - from)) as [|n] eqn:E; [lia|].
  cbn [forCount]. rewrite addDay_None by exact Hout. reflexivity.
Qed.

(** Counting the indices below [n] that satisfy a predicate describing an
    interval. *)
Lemma filter_all_Forall {A : Type} (P : A -> Prop) `{!forall x, Decision (P x)}
  (l : list A) : Forall P l -> filter P l = l.
Proof.
  induction 1 as [|x l Hx _ IH]; [reflexivity|].
  rewrite filter_cons_True by exact Hx. f_equal. exact IH.
Qed.

Lemma count_interval (P : nat -> Prop) `{!forall x, Decision (P x)} (a b n : nat) :
  (a <= b <= n)%nat ->
  (forall k, (k < n)%nat -> P k <-> (a <= k < b)%nat) ->
  length (filter P (seq 0 n)) = (b - a)%nat.
Proof.
  intros Hab HP.
  replace n with (a + ((b - a) + (n - b)))%nat at 1 by lia.
  rewrite !seq_app, !filter_app, !length_app. simpl.
  rewrite (FilterFacts.filter_none P (seq 0 a)).
  - rewrite (filter_all_Forall P (seq a (b - a))).
    + rewrite (FilterFacts.filter_none P (seq (a + (b - a)) (n - b))).
      * rewrite length_seq. simpl. lia.
      * apply Forall_forall. intros k Hk. apply elem_of_seq in Hk.
        rewrite HP by lia. lia.
    + apply Forall_forall. intros k Hk. apply elem_of_seq in Hk.
      apply HP; lia.
  - apply Forall_forall. intros k Hk. apply elem_of_seq in Hk.
    rewrite HP by lia. lia.
Qed.

Lemma count_outside (P : nat -> Prop) `{!forall x, Decision (P x)} (a b n : nat) :
  (a <= b <= n)%nat ->
  (forall k, (k < n)%nat -> P k <-> ~ (a <= k < b)%nat) ->
  length (filter P (seq 0 n)) = (n - (b - a))%nat.
Proof.
  intros Hab HP.
  replace n with (a + ((b - a) + (n - b)))%nat at 1 by lia.
  rewrite !seq_app, !filter_app, !length_app. simpl.
  rewrite (filter_all_Forall P (seq 0 a)).
  - rewrite (FilterFacts.filter_none P (seq a (b - a))).
    + rewrite (filter_all_Forall P (seq (a + (b - a)) (n - b))).
      * rewrite !length_seq. simpl. lia.
      * apply Forall_forall. intros k Hk. apply elem_of_seq in Hk.
        apply HP; lia.
    + apply Forall_forall. intros k Hk. apply elem_of_seq in Hk.
      rewrite HP by lia. lia.
  - apply Forall_forall. intros k Hk. apply elem_of_seq in Hk.
    apply HP; lia.
Qed.

Lemma count_marked_interval (startMinute duration : Z) :
  0 <= startMinute < 1440 -> 0 <= duration -> startMinute + duration < 2880 ->
  length (filter (fun k : nat => marksInterval startMinute duration (Z.of_nat k) = true)
            (seq 0 1440))
    = Z.to_nat (Z.min duration 1440).
Proof.
  intros Hs Hd He.
  destruct (Z.leb_spec (startMinute + duration) 1440) as [Hle|Hgt].
  - assert (Hmarks : forall k : nat, (k < 1440)%nat ->
              marksInterval startMinute duration (Z.of_nat k) = true <->
              (Z.to_nat startMinute <= k < Z.to_nat (startMinute + duration))%nat).
    { intros k Hk. unfold marksInterval, MINUTES_PER_DAY.
      destruct (Z.leb_spec (startMinute + duration) 1440); [|lia].
      rewrite andb_true_iff, Z.leb_le, Z.ltb_lt. lia. }
    rewrite (count_interval
               (fun k : nat => marksInterval startMinute duration (Z.of_nat k) = true)
               (Z.to_nat startMinute)
               (Z.to_nat (startMinute + duration)) 1440 ltac:(lia) Hmarks).
    lia.
  - assert (Hmarks : forall k : nat, (k < 1440)%nat ->
              marksInterval startMinute duration (Z.of_nat k) = true <->
              startMinute <= Z.of_nat k \/
              Z.of_nat k < startMinute + duration - 1440).
    { intros k Hk. unfold marksInterval, MINUTES_PER_DAY.
      destruct (Z.leb_spec (startMinute + duration) 1440); [lia|].
      replace (Z.rem (startMinute + duration) 1440)
        with (startMinute + duration - 1440)
        by (Z.quot_rem_to_equations; lia).
      rewrite orb_true_iff, !andb_true_iff, !Z.leb_le, !Z.ltb_lt. lia. }
    destruct (Z.leb_spec 1440 duration) as [Hall|Hpart].
    + rewrite filter_all_Forall.
      * rewrite length_seq. lia.
      * apply Forall_forall. intros k Hk. apply elem_of_seq in Hk.
        apply Hmarks; lia.
    + assert (Hmarked : forall k : nat, (k < 1440)%nat ->
                marksInterval startMinute duration (Z.of_nat k) = true <->
                ~ (Z.to_nat (startMinute + duration - 1440) <= k
                   < Z.to_nat startMinute)%nat).
      { intros k Hk. rewrite (Hmarks k Hk). lia. }
      rewrite (count_outside
                 (fun k : nat => marksInterval startMinute duration (Z.of_nat k) = true)
                 (Z.to_nat (startMinute + duration - 1440))
                 (Z.to_nat startMinute) 1440 ltac:(lia) Hmarked).
      lia.
Qed.

Lemma marksWindow_iff (minute k : Z) :
  0 <= minute < 1440 -> 0 <= k < 1440 ->
  marksWindow minute k = true <->
  minute - 7 <= k < minute + 8 \/
  minute - 7 <= k - 1440 < minute + 8 \/
  minute - 7 <= k + 1440 < minute + 8.
Proof.
  intros Hm Hk. rewrite CoverageFacts.marksWindow_covers. unfold coversWindow. split.
  - intros (offset & Ho & Hmod). revert Hmod. Z.div_mod_to_equations. lia.
  - intros [H|[H|H]].
    + exists (k - minute). split; [lia|].
      symmetry. apply (Z.mod_unique_pos _ _ 0); lia.
    + exists (k - 1440 - minute). split; [lia|].
      symmetry. apply (Z.mod_unique _ _ (-1)); lia.
    + exists (k + 1440 - minute). split; [lia|].
      symmetry. apply (Z.mod_unique_pos _ _ 1); lia.
Qed.

Lemma count_marked_window (minute : Z) :
  0 <= minute < 1440 ->
  length (filter (fun k : nat => marksWindow minute (Z.of_nat k) = true) (seq 0 1440))
    = 15%nat.
Proof.
  intros Hm.
  destruct (decide (minute < 7)) as [Hlow|Hnlow];
    [|destruct (decide (1432 < minute)) as [Hhigh|Hnhigh]].
  - rewrite (count_outside
               (fun k : nat => marksWindow minute (Z.of_nat k) = true)
               (Z.to_nat (minute + 8)) (Z.to_nat (minute + 1433)) 1440); [lia|lia|].
    intros k Hk. rewrite marksWindow_iff by lia. lia.
  - rewrite (count_outside
               (fun k : nat => marksWindow minute (Z.of_nat k) = true)
               (Z.to_nat (minute - 1432)) (Z.to_nat (minute - 7)) 1440); [lia|lia|].
    intros k Hk. rewrite marksWindow_iff by lia. lia.
  - rewrite (count_interval
               (fun k : nat => marksWindow minute (Z.of_nat k) = true)
               (Z.to_nat (minute - 7)) (Z.to_nat (minute + 8)) 1440); [lia|lia|].
    intros k Hk. rewrite marksWindow_iff by lia. lia.
Qed.

(** The slots of the aggregate of a single record that hold its date. *)
Lemma single_record_slots {A : Type} (key : A -> string) (marks : Z -> A -> bool)
  (r : A) (md : list (gset string)) :
  length md = 1440%nat ->
  (forall k : nat, md !!! k =
     list_to_set (key <$> filter (fun a => marks (Z.of_nat k) a = true) [r])) ->
  length (filter (fun days : gset string => key r ∈ days) md)
    = length (filter (fun k : nat => marks (Z.of_nat k) r = true) (seq 0 1440)).
Proof.
  intros Hlen Hslots. rewrite (CoverageFacts.list_as_lookups md), Hlen.
  generalize (seq 0 1440). intros l. induction l as [|k l IH]; [reflexivity|].
  rewrite fmap_cons. rewrite Hslots.
  destruct (marks (Z.of_nat k) r) eqn:E.
  - rewrite (filter_cons_True (fun a => marks (Z.of_nat k) a = true)) by exact E.
    rewrite filter_nil, filter_cons_True.
    2: { apply elem_of_list_to_set. left. }
    rewrite (filter_cons_True (fun k0 : nat => marks (Z.of_nat k0) r = true)) by exact E.
    simpl. f_equal. exact IH.
  - rewrite (filter_cons_False (fun a => marks (Z.of_nat k) a = true))
      by (rewrite E; discriminate).
    rewrite filter_nil, filter_cons_False.
    2: { rewrite fmap_nil, list_to_set_nil. apply not_elem_of_empty. }
    rewrite (filter_cons_False (fun k0 : nat => marks (Z.of_nat k0) r = true))
      by (rewrite E; discriminate).
    exact IH.
Qed.

End MarkingFacts.

(** X6. Aggregating two batches of records of a kind together gives,
    slot by slot, the union of the day-sets of the two batches, the union
    of their days and the sum of their counts, for interval kinds and for
    instant kinds alike. *)
Theorem aggregation_of_appended_records `{tz : TimeZone}
  (l1 l2 : list DurationActivity) (i1 i2 : list InstantActivity) :
  (exists a1 a2 a12,
     calculateDurationHeatmap l1 = Some a1 /\
     calculateDurationHeatmap l2 = Some a2 /\
     calculateDurationHeatmap (l1 ++ l2) = Some a12 /\
     minuteDays a12 = zip_with (∪) (minuteDays a1) (minuteDays a2) /\
     uniqueDays a12 = uniqueDays a1 ∪ uniqueDays a2 /\
     totalCount a12 = (totalCount a1 + totalCount a2)%nat) /\
  (exists a1 a2 a12,
     calculateInstantHeatmap i1 = Some a1 /\
     calculateInstantHeatmap i2 = Some a2 /\
     calculateInstantHeatmap (i1 ++ i2) = Some a12 /\
     minuteDays a12 = zip_with (∪) (minuteDays a1) (minuteDays a2) /\
     uniqueDays a12 = uniqueDays a1 ∪ uniqueDays a2 /\
     totalCount a12 = (totalCount a1 + totalCount a2)%nat).
Proof.
  assert (Hzip : forall (md1 md2 md12 : list (gset string)),
            length md1 = 1440%nat -> length md2 = 1440%nat ->
            length md12 = 1440%nat ->
            (forall k : nat, md12 !!! k = md1 !!! k ∪ md2 !!! k) ->
            md12 = zip_with (∪) md1 md2).
  { intros md1 md2 md12 H1 H2 H12 Hk.
    apply (list_eq_same_length _ _ 1440); [|exact H12|].
    - rewrite length_zip_with_l_eq; congruence.
    - intros i x y Hi Hx Hy. apply lookup_zip_with_Some in Hy.
      destruct Hy as (u & w & -> & Hu & Hw).
      apply list_lookup_total_correct in Hx, Hu, Hw. subst. apply Hk. }
  split.
  - destruct (AggregatorFacts.calculateDurationHeatmap_spec l1)
      as (a1 & E1 & L1 & S1 & U1 & C1).
    destruct (AggregatorFacts.calculateDurationHeatmap_spec l2)
      as (a2 & E2 & L2 & S2 & U2 & C2).
    destruct (AggregatorFacts.calculateDurationHeatmap_spec (l1 ++ l2))
      as (a12 & E12 & L12 & S12 & U12 & C12).
    exists a1, a2, a12. split_and!; auto.
    + apply Hzip; auto. intros k.
      rewrite S12, S1, S2, filter_app, fmap_app, list_to_set_app_L. reflexivity.
    + rewrite U12, U1, U2, fmap_app, list_to_set_app_L. reflexivity.
    + rewrite C12, C1, C2. apply length_app.
  - destruct (AggregatorFacts.calculateInstantHeatmap_spec i1)
      as (a1 & E1 & L1 & S1 & U1 & C1).
    destruct (AggregatorFacts.calculateInstantHeatmap_spec i2)
      as (a2 & E2 & L2 & S2 & U2 & C2).
    destruct (AggregatorFacts.calculateInstantHeatmap_spec (i1 ++ i2))
      as (a12 & E12 & L12 & S12 & U12 & C12).
    exists a1, a2, a12. split_and!; auto.
    + apply Hzip; auto. intros k.
      rewrite S12, S1, S2, filter_app, fmap_app, list_to_set_app_L. reflexivity.
    + rewrite U12, U1, U2, fmap_app, list_to_set_app_L. reflexivity.
    + rewrite C12, C1, C2. apply length_app.
Qed.

(** X7. On an array of 1440 day-sets, [markMinuteRange] throws exactly
    when the start minute is negative and the duration is positive; in
    every other case it returns.  (A start minute of 1440 or more never
    throws: the first loop is empty.) *)
Theorem markMinuteRange_throws_iff (minuteDays : list (gset string))
  (startMinute durationMinutes : Z) (dateStr : string) :
  length minuteDays = 1440%nat ->
  markMinuteRange minuteDays startMinute durationMinutes dateStr = None <->
  startMinute < 0 /\ 0 < durationMinutes.
Proof.
  intros Hlen. unfold markMinuteRange, MINUTES_PER_DAY.
  destruct (decide (startMinute < 0)) as [Hneg|Hnn].
  - destruct (decide (0 < durationMinutes)) as [Hpos|Hnp].
    + split; [auto|]. intros _.
      destruct (Z.leb_spec (startMinute + durationMinutes) 1440).
      * apply MarkingFacts.forRange_first_throws; lia.
      * rewrite MarkingFacts.forRange_first_throws by lia. reflexivity.
    + split; [|lia]. intros Hnone. exfalso.
      destruct (Z.leb_spec (startMinute + durationMinutes) 1440); [|lia].
      rewrite MarkingFacts.forRange_empty in Hnone by lia. discriminate.
  - split; [|lia]. intros Hnone. exfalso.
    destruct (Z.leb_spec (startMinute + durationMinutes) 1440) as [Hle|Hgt].
    + destruct (AggregatorFacts.forRange_addDay dateStr (fun m => m) startMinute
                  (startMinute + durationMinutes) minuteDays) as (md' & Heq & _).
      { intros j Hj. lia. }
      change (fun m => addDay dateStr m) with (addDay dateStr) in Heq.
      rewrite Heq in Hnone. discriminate.
    + destruct (AggregatorFacts.forRange_addDay dateStr (fun m => m) startMinute
                  1440 minuteDays) as (md1 & Heq1 & Hlen1 & _).
      { intros j Hj. lia. }
      destruct (AggregatorFacts.forRange_addDay dateStr (fun m => m) 0
                  (Z.rem (startMinute + durationMinutes) 1440) md1)
        as (md2 & Heq2 & _).
      { intros j Hj. Z.quot_rem_to_equations. lia. }
      change (fun m => addDay dateStr m) with (addDay dateStr) in Heq1, Heq2.
      rewrite Heq1 in Hnone. simpl in Hnone. rewrite Heq2 in Hnone. discriminate.
Qed.

Lemma markMinuteRange_throws_iff_witness :
  markMinuteRange emptyMinuteDays (-5) 10 "2026-01-13" = None <-> -5 < 0 /\ 0 < 10.
Proof.
  apply (markMinuteRange_throws_iff emptyMinuteDays (-5) 10 "2026-01-13").
  reflexivity.
Defined.

(** X8. The footprint of one interval record: aggregated alone, a record
    with a non-negative duration that ends before the second midnight
    after its start puts its date into as many slots as it lasts minutes,
    and into all 1440 when it lasts a day or more. *)
Theorem interval_record_footprint `{tz : TimeZone} (r : DurationActivity) :
  0 <= durationMinutes r ->
  timeToMinutes (start r) + durationMinutes r < 2880 ->
  exists agg,
    calculateDurationHeatmap [r] = Some agg /\
    length (filter (fun days : gset string => getDateString (start r) ∈ days)
              (minuteDays agg))
      = Z.to_nat (Z.min (durationMinutes r) 1440).
Proof.
  intros Hd He.
  destruct (AggregatorFacts.calculateDurationHeatmap_spec [r])
    as (agg & Heq & Hlen & Hslots & _).
  exists agg. split; [exact Heq|].
  etransitivity;
    [exact (MarkingFacts.single_record_slots durationKey durationMarks r _ Hlen Hslots)|].
  apply (MarkingFacts.count_marked_interval (timeToMinutes (start r)) (durationMinutes r));
    [apply AggregatorFacts.timeToMinutes_range | exact Hd | exact He].
Qed.

Lemma interval_record_footprint_witness :
  exists agg,
    calculateDurationHeatmap (tz:=UTC) [Samples.overnightSleep] = Some agg /\
    length (filter (fun days : gset string =>
                      getDateString (tz:=UTC) (start Samples.overnightSleep) ∈ days)
              (minuteDays agg))
      = Z.to_nat (Z.min (durationMinutes Samples.overnightSleep) 1440).
Proof.
  apply (interval_record_footprint (tz:=UTC) Samples.overnightSleep);
    vm_compute; congruence.
Defined.

(** X9. The footprint of one instant record: aggregated alone, it puts
    its date into exactly 15 slots, wherever in the day it falls. *)
Theorem instant_record_footprint `{tz : TimeZone} (r : InstantActivity) :
  exists agg,
    calculateInstantHeatmap [r] = Some agg /\
    length (filter (fun days : gset string => getDateString (time r) ∈ days)
              (minuteDays agg)) = 15%nat.
Proof.
  destruct (AggregatorFacts.calculateInstantHeatmap_spec [r])
    as (agg & Heq & Hlen & Hslots & _).
  exists agg. split; [exact Heq|].
  etransitivity;
    [exact (MarkingFacts.single_record_slots instantKey instantMarks r _ Hlen Hslots)|].
  apply (MarkingFacts.count_marked_window (timeToMinutes (time r))),
    AggregatorFacts.timeToMinutes_range.
Qed.

Module ContractFacts.
Import Heatmap Coverage Dataset AggregatorFacts ResultFacts DatasetFacts.

Lemma marksInterval_start (startMinute duration : Z) :
  0 <= startMinute < 1440 -> 0 < duration ->
  marksInterval startMinute duration startMinute = true.
Proof.
  intros Hs Hd. unfold marksInterval, MINUTES_PER_DAY.
  destruct (Z.leb_spec (startMinute + duration) 1440).
  - apply andb_true_iff. rewrite Z.leb_le, Z.ltb_lt. lia.
  - apply orb_true_iff. left. apply andb_true_iff. rewrite Z.leb_le, Z.ltb_lt. lia.
Qed.

Lemma marksWindow_centre (minute : Z) :
  0 <= minute < 1440 -> marksWindow minute minute = true.
Proof.
  intros Hm. apply MarkingFacts.marksWindow_iff; [exact Hm | exact Hm | lia].
Qed.

Section WithTimeZone.
Context {tz : TimeZone}.

Lemma present_duration_sub (l' l : list DurationActivity) (agg' : Aggregate) :
  l' ⊆ l ->
  present calculateDurationHeatmap l' = Some agg' ->
  exists agg, present calculateDurationHeatmap l = Some agg /\
    forall k : nat, minuteDays agg' !!! k ⊆ minuteDays agg !!! k.
Proof.
  intros Hsub Hagg'.
  destruct (calculateDurationHeatmap_spec l') as (x' & E' & _ & S' & _).
  destruct (calculateDurationHeatmap_spec l) as (x & E & _ & S & _).
  destruct l' as [|r' rest']; [discriminate|].
  destruct l as [|r rest];
    [exfalso; apply (not_elem_of_nil r'); apply Hsub; left|].
  cbn [present] in *. rewrite E' in Hagg'. injection Hagg' as <-.
  exists x. split; [exact E|]. intros k. rewrite S', S.
  apply keys_subseteq. exact Hsub.
Qed.

Lemma present_instant_sub (l' l : list InstantActivity) (agg' : Aggregate) :
  l' ⊆ l ->
  present calculateInstantHeatmap l' = Some agg' ->
  exists agg, present calculateInstantHeatmap l = Some agg /\
    forall k : nat, minuteDays agg' !!! k ⊆ minuteDays agg !!! k.
Proof.
  intros Hsub Hagg'.
  destruct (calculateInstantHeatmap_spec l') as (x' & E' & _ & S' & _).
  destruct (calculateInstantHeatmap_spec l) as (x & E & _ & S & _).
  destruct l' as [|r' rest']; [discriminate|].
  destruct l as [|r rest];
    [exfalso; apply (not_elem_of_nil r'); apply Hsub; left|].
  cbn [present] in *. rewrite E' in Hagg'. injection Hagg' as <-.
  exists x. split; [exact E|]. intros k. rewrite S', S.
  apply keys_subseteq. exact Hsub.
Qed.

(** Data sets one of which holds records of the other only. *)
Lemma aggregateOf_sub (a' a : Activities) (type : string) (agg' : Aggregate) :
  subRecords a' a ->
  aggregateOf a' type = Some agg' ->
  exists agg, aggregateOf a type = Some agg /\
    forall k : nat, minuteDays agg' !!! k ⊆ minuteDays agg !!! k.
Proof.
  intros (Hs & Hn & Hp & Hb & Hd). unfold aggregateOf.
  repeat case_decide; try discriminate;
    eauto using present_duration_sub, present_instant_sub.
Qed.

Lemma dateKeys_sub (a' a : Activities) :
  subRecords a' a ->
  (list_to_set (dateKeys a') : gset string) ⊆ list_to_set (dateKeys a).
Proof.
  intros (Hs & Hn & Hp & Hb & Hd) x. unfold dateKeys.
  rewrite !elem_of_list_to_set, !elem_of_app, !list_elem_of_fmap.
  intros [H|[H|[H|[H|H]]]]; destruct H as (r & -> & Hr);
    [left | right; left | do 2 right; left | do 3 right; left | do 4 right];
    exists r; (split; [reflexivity|]); auto.
Qed.

Lemma filtered_sub (state : App.State) :
  subRecords (App.getFilteredActivities state) (App.activities state).
Proof.
  unfold App.getFilteredActivities, subRecords.
  destruct (App.dateFilter_start (App.dateFilter state)),
    (App.dateFilter_end (App.dateFilter state));
    cbn [sleep nursing pumping bottle diaper];
    split_and!; first [apply list_subseteq_filter | intros x Hx; exact Hx].
Qed.

End WithTimeZone.

End ContractFacts.

(** X10. The per-kind aggregators never throw and return 1440 slots; the
    count is the number of records and the days are exactly the date keys
    of the records.  A date is in a slot only if it is one of the days;
    conversely every day is in some slot, for interval kinds provided
    every duration is positive. *)
Theorem kind_aggregate_contract `{tz : TimeZone}
  (intervals : list DurationActivity) (instants : list InstantActivity) :
  (exists agg,
     calculateDurationHeatmap intervals = Some agg /\
     length (minuteDays agg) = 1440%nat /\
     totalCount agg = length intervals /\
     (forall key, key ∈ uniqueDays agg <->
        exists r, r ∈ intervals /\ getDateString (start r) = key) /\
     (forall (k : nat) key, key ∈ minuteDays agg !!! k -> key ∈ uniqueDays agg) /\
     (Forall (fun r => 0 < durationMinutes r) intervals ->
      forall key, key ∈ uniqueDays agg ->
        exists k : nat, (k < 1440)%nat /\ key ∈ minuteDays agg !!! k)) /\
  (exists agg,
     calculateInstantHeatmap instants = Some agg /\
     length (minuteDays agg) = 1440%nat /\
     totalCount agg = length instants /\
     (forall key, key ∈ uniqueDays agg <->
        exists r, r ∈ instants /\ getDateString (time r) = key) /\
     (forall (k : nat) key, key ∈ minuteDays agg !!! k -> key ∈ uniqueDays agg) /\
     (forall key, key ∈ uniqueDays agg ->
        exists k : nat, (k < 1440)%nat /\ key ∈ minuteDays agg !!! k)).
Proof.
  split.
  - destruct (AggregatorFacts.calculateDurationHeatmap_spec intervals)
      as (agg & Heq & Hlen & Hslots & Hud & Hcount).
    exists agg. split_and!; auto.
    + intros key. rewrite Hud, elem_of_list_to_set, list_elem_of_fmap.
      split; intros (r & H1 & H2); exists r; auto.
    + intros k key. rewrite Hslots, Hud, !elem_of_list_to_set, !list_elem_of_fmap.
      intros (r & -> & Hr). apply list_elem_of_filter in Hr. exists r. tauto.
    + intros Hpos key. rewrite Hud, elem_of_list_to_set, list_elem_of_fmap.
      intros (r & -> & Hr). rewrite Forall_forall in Hpos.
      pose proof (AggregatorFacts.timeToMinutes_range (start r)) as Hrange.
      exists (Z.to_nat (timeToMinutes (start r))). split; [lia|].
      rewrite Hslots, elem_of_list_to_set, list_elem_of_fmap. exists r.
      split; [reflexivity|]. apply list_elem_of_filter. split; [|exact Hr].
      unfold durationMarks. rewrite Z2Nat.id by lia.
      apply ContractFacts.marksInterval_start; auto.
  - destruct (AggregatorFacts.calculateInstantHeatmap_spec instants)
      as (agg & Heq & Hlen & Hslots & Hud & Hcount).
    exists agg. split_and!; auto.
    + intros key. rewrite Hud, elem_of_list_to_set, list_elem_of_fmap.
      split; intros (r & H1 & H2); exists r; auto.
    + intros k key. rewrite Hslots, Hud, !elem_of_list_to_set, !list_elem_of_fmap.
      intros (r & -> & Hr). apply list_elem_of_filter in Hr. exists r. tauto.
    + intros key. rewrite Hud, elem_of_list_to_set, list_elem_of_fmap.
      intros (r & -> & Hr).
      pose proof (AggregatorFacts.timeToMinutes_range (time r)) as Hrange.
      exists (Z.to_nat (timeToMinutes (time r))). split; [lia|].
      rewrite Hslots, elem_of_list_to_set, list_elem_of_fmap. exists r.
      split; [reflexivity|]. apply list_elem_of_filter. split; [|exact Hr].
      unfold instantMarks. rewrite Z2Nat.id by lia.
      apply ContractFacts.marksWindow_centre; auto.
Qed.

(** X11. Filtering only removes: for every state, the heatmap of the
    filtered records has no more distinct days than the heatmap of all
    records, every kind it shows is shown there too, and each of its
    day-sets is included in the corresponding day-set there. *)
Theorem filtering_only_removes `{tz : TimeZone} (state : State) :
  exists all filtered,
    calculateAllHeatmaps (activities state) = Some all /\
    calculateAllHeatmaps (getFilteredActivities state) = Some filtered /\
    (totalDays filtered <= totalDays all)%nat /\
    allUniqueDays filtered ⊆ allUniqueDays all /\
    forall type h', heatmaps filtered !! type = Some h' ->
      exists h, heatmaps all !! type = Some h /\
        forall k : nat, minuteDays (data h') !!! k ⊆ minuteDays (data h) !!! k.
Proof.
  pose proof (ContractFacts.filtered_sub state) as Hsub.
  destruct (AggregatorFacts.calculateAllHeatmaps_spec (activities state))
    as (all & Heq & Hall & Htotal & Hlook).
  destruct (AggregatorFacts.calculateAllHeatmaps_spec (getFilteredActivities state))
    as (filtered & Heq' & Hall' & Htotal' & Hlook').
  exists all, filtered. split; [exact Heq|]. split; [exact Heq'|].
  assert (Hdays : allUniqueDays filtered ⊆ allUniqueDays all).
  { rewrite Hall, Hall'. apply ContractFacts.dateKeys_sub. exact Hsub. }
  split; [rewrite Htotal, Htotal'; apply subseteq_size; exact Hdays|].
  split; [exact Hdays|].
  intros type h' Hh'. rewrite Hlook' in Hh'. apply fmap_Some in Hh'.
  destruct Hh' as (agg' & Hagg' & ->).
  destruct (ContractFacts.aggregateOf_sub _ _ type agg' Hsub Hagg') as (agg & Hagg & Hk).
  exists (finish (totalDays all) type agg). split; [|exact Hk].
  rewrite Hlook, Hagg. reflexivity.
Qed.

(** X12. Every kind of the result carries the colour and the display name
    of the tables [ACTIVITY_COLORS] and [ACTIVITY_NAMES], and both are
    defined: no bar is ever drawn without a colour. *)
Theorem every_kind_has_colour_and_name `{tz : TimeZone} (a : Activities) :
  exists out,
    calculateAllHeatmaps a = Some out /\
    forall type h, heatmaps out !! type = Some h ->
      color h = ACTIVITY_COLORS !! type /\ name h = ACTIVITY_NAMES !! type /\
      is_Some (color h) /\ is_Some (name h).
Proof.
  destruct (AggregatorFacts.calculateAllHeatmaps_spec a) as (out & Heq & _ & _ & Hlook).
  exists out. split; [exact Heq|]. intros type h Hh.
  assert (Htype : type ∈ durationTypes ++ instantTypes).
  { apply (ResultFacts.aggregateOf_types a). rewrite Hlook in Hh.
    apply fmap_Some in Hh. destruct Hh as (agg & -> & _). eauto. }
  rewrite Hlook in Hh. apply fmap_Some in Hh. destruct Hh as (agg & _ & ->).
  cbn [color name finish]. split; [reflexivity|]. split; [reflexivity|].
  unfold durationTypes, instantTypes in Htype.
  rewrite !elem_of_app, !elem_of_cons in Htype.
  destruct Htype as [[->|[->|[->|H]]]|[->|[->|H]]];
    try (inversion H); split; eexists; reflexivity.
Qed.

(** X13. For every kind of the result and every minute, the intensity is
    positive exactly when some record of the kind marks the minute, and it
    is zero otherwise. *)
Theorem intensity_positive_iff_marked `{tz : TimeZone} (a : Activities) :
  exists out,
    calculateAllHeatmaps a = Some out /\
    forall type h (m : nat) v,
      heatmaps out !! type = Some h -> intensities h !! m = Some v ->
      ((0 < v)%Q <-> exists key, key ∈ markedDates a type (Z.of_nat m)) /\
      (~ (0 < v)%Q -> (v == 0)%Q).
Proof.
  destruct (AggregatorFacts.calculateAllHeatmaps_spec a)
    as (out & Heq & Hall & Htotal & Hlook).
  exists out. split; [exact Heq|]. intros type h m v Hh Hv.
  rewrite Hlook in Hh. apply fmap_Some in Hh. destruct Hh as (agg & Hagg & ->).
  destruct (ResultFacts.aggregateOf_Some a type agg Hagg)
    as (Hlen & Hslots & (key0 & Hkey0) & Hsub).
  cbn [intensities finish] in Hv. rewrite list_lookup_fmap in Hv.
  destruct (minuteDays agg !! m) as [days|] eqn:Edays; [|discriminate].
  injection Hv as <-.
  assert (Hdays : days = list_to_set (markedDates a type (Z.of_nat m))).
  { rewrite <- Hslots. symmetry. apply list_lookup_total_correct. exact Edays. }
  assert (Hpos : (0 < totalDays out)%nat).
  { rewrite Htotal, Hall.
    destruct (size (list_to_set (dateKeys a) : gset string)) eqn:E; [|lia].
    apply size_empty_iff in E. apply Hsub in Hkey0. rewrite E in Hkey0.
    exfalso. exact (not_elem_of_empty _ Hkey0). }
  rewrite ResultFacts.intensityOf_pos by exact Hpos.
  assert (Hratio : (0 < inject_Z (Z.of_nat (size days))
                         / inject_Z (Z.of_nat (totalDays out)))%Q
                   <-> (0 < size days)%nat).
  { destruct (totalDays out) as [|d]; [lia|].
    unfold Qlt, Qdiv, Qmult, Qinv, inject_Z. simpl. lia. }
  assert (Hsize : (0 < size days)%nat <->
                  exists key, key ∈ markedDates a type (Z.of_nat m)).
  { rewrite Hdays. split.
    - intros Hs. apply size_pos_elem_of in Hs. destruct Hs as (key & Hkey).
      exists key. apply elem_of_list_to_set in Hkey. exact Hkey.
    - intros (key & Hkey).
      destruct (size (list_to_set (markedDates a type (Z.of_nat m)) : gset string))
        eqn:E; [|lia].
      apply size_empty_iff in E. exfalso.
      apply (not_elem_of_empty (C:=gset string) key). rewrite <- E.
      apply elem_of_list_to_set. exact Hkey. }
  unfold Math_min. split.
  - rewrite <- Hsize, <- Hratio. rewrite Q.min_glb_lt_iff. split; [tauto|].
    intros H. split; [reflexivity | exact H].
  - intros Hnot. apply Qle_antisym; [apply Qnot_lt_le; exact Hnot|].
    apply Q.min_glb; [discriminate | apply ResultFacts.ratio_nonneg].
Qed.

(** ** The initial window and the heatmap it shows *)

Module WindowFacts.
Import Heatmap Coverage Dataset App AggregatorFacts ResultFacts.

Lemma getAllActivityDates_eq (state : State) :
  getAllActivityDates state =
    (start <$> sleep (activities state)) ++ (start <$> nursing (activities state)) ++
    (start <$> pumping (activities state)) ++ (time <$> bottle (activities state)) ++
    (time <$> diaper (activities state)).
Proof.
  unfold getAllActivityDates, durationTypes, instantTypes, getTime.
  cbn [fmap list_fmap concat].
  change (durationActivities (activities state) "sleep") with (sleep (activities state)).
  change (durationActivities (activities state) "nursing") with (nursing (activities state)).
  change (durationActivities (activities state) "pumping") with (pumping (activities state)).
  change (instantActivities (activities state) "bottle") with (bottle (activities state)).
  change (instantActivities (activities state) "diaper") with (diaper (activities state)).
  rewrite !app_nil_r, <- !app_assoc. reflexivity.
Qed.

(** The state [initializeDateFilter] leaves behind, when there is data. *)
Lemma initializeDateFilter_bounds `{tz : TimeZone} (today now : Date) (state : State) :
  getAllActivityDates state <> [] ->
  exists minDate maxDate,
    Forall (fun d => minDate <= d <= maxDate) (getAllActivityDates state) /\
    maxDate ∈ getAllActivityDates state /\
    activities (initializeDateFilter today now state) = activities state /\
    dateFilter (initializeDateFilter today now state) =
      {| dateFilter_start := Some (Z.max (setDate now (getDate today - 30)) minDate);
         dateFilter_end := Some (Z.min today maxDate) |}.
Proof.
  intros Hne. unfold initializeDateFilter.
  destruct (getAllActivityDates state) as [|first others]; [congruence|].
  destruct (FilterFacts.Math_min_of_spec others first) as [Hmin Hminall].
  destruct (FilterFacts.Math_max_of_spec others first) as [Hmax Hmaxall].
  exists (Math_min_of first others), (Math_max_of first others).
  split.
  { rewrite Forall_forall in Hminall, Hmaxall |- *. intros d Hd.
    specialize (Hminall d Hd). specialize (Hmaxall d Hd). lia. }
  split; [exact Hmax|]. split; [reflexivity|].
  cbn [dateFilter]. unfold getTime, newDate. f_equal; f_equal.
  - rewrite Z.gtb_ltb. destruct (Z.ltb_spec (Math_min_of first others)
                                   (setDate now (getDate today - 30))); lia.
  - destruct (Z.ltb_spec today (Math_max_of first others)); lia.
Qed.

Lemma keepDate_bounds (s e t : Date) :
  keepDate (Some s) (Some e) t = true <-> s <= t <= e.
Proof.
  rewrite FilterFacts.keepDate_within. unfold Filter.withinBounds, getTime. lia.
Qed.

Lemma getFilteredActivities_bounds (state : State) (s e : Date) :
  dateFilter state = {| dateFilter_start := Some s; dateFilter_end := Some e |} ->
  getFilteredActivities state =
    {| sleep := filter (fun r => keepDate (Some s) (Some e) (start r) = true)
                  (sleep (activities state));
       nursing := filter (fun r => keepDate (Some s) (Some e) (start r) = true)
                    (nursing (activities state));
       pumping := filter (fun r => keepDate (Some s) (Some e) (start r) = true)
                    (pumping (activities state));
       bottle := filter (fun r => keepDate (Some s) (Some e) (time r) = true)
                   (bottle (activities state));
       diaper := filter (fun r => keepDate (Some s) (Some e) (time r) = true)
                   (diaper (activities state)) |}.
Proof. intros Hf. unfold getFilteredActivities. rewrite Hf. reflexivity. Qed.

Lemma aggregateOf_noRecords `{tz : TimeZone} (a : Activities) (type : string) :
  noRecords a -> aggregateOf a type = None.
Proof.
  destruct a as [sl nu pu bo di]. unfold noRecords.
  cbn [sleep nursing pumping bottle diaper]. intros (-> & -> & -> & -> & ->).
  unfold aggregateOf. cbn [sleep nursing pumping bottle diaper present].
  repeat case_decide; reflexivity.
Qed.

End WindowFacts.

(** X14. Recent data is shown at once: when the latest instant in the data
    is not after the current time and not before the time thirty days
    back, the records kept by the window [initializeDateFilter] sets are
    not empty, and the heatmap computed from them has at least one day. *)
Theorem recent_data_is_shown `{tz : TimeZone} (today now : Date) (state : State)
  (maxDate : Z) :
  maxDate ∈ getAllActivityDates state ->
  Forall (fun d => d <= maxDate) (getAllActivityDates state) ->
  setDate now (getDate today - 30) <= maxDate -> maxDate <= today ->
  exists out,
    calculateAllHeatmaps
      (getFilteredActivities (initializeDateFilter today now state)) = Some out /\
    (0 < totalDays out)%nat.
Proof.
  intros Hin Hmax Hrecent Hpast.
  destruct (WindowFacts.initializeDateFilter_bounds today now state)
    as (minDate & maxDate' & Hall & Hin' & Hacts & Hfilter).
  { intros Hnil. rewrite Hnil in Hin. inversion Hin. }
  assert (maxDate' = maxDate) as ->.
  { rewrite Forall_forall in Hall, Hmax.
    specialize (Hmax _ Hin'). destruct (Hall _ Hin) as [_ ?]. lia. }
  assert (Hmin : minDate <= maxDate).
  { rewrite Forall_forall in Hall. destruct (Hall _ Hin). lia. }
  rewrite (WindowFacts.getFilteredActivities_bounds _ _ _ Hfilter), Hacts.
  set (s := Z.max (setDate now (getDate today - 30)) minDate).
  set (e := Z.min today maxDate).
  assert (Hkeep : keepDate (Some s) (Some e) maxDate = true).
  { apply WindowFacts.keepDate_bounds. unfold s, e. lia. }
  match goal with
  | |- exists out, calculateAllHeatmaps ?a = _ /\ _ =>
    destruct (AggregatorFacts.calculateAllHeatmaps_spec a)
      as (out & Heq & Hdays & Htotal & _);
    exists out; split; [exact Heq|];
    destruct (Nat.eq_dec (totalDays out) 0%nat) as [Ezero|]; [exfalso|lia];
    rewrite Htotal, Hdays in Ezero;
    apply ResultFacts.size_keys_zero, ResultFacts.noRecords_keys in Ezero;
    destruct Ezero as (E1 & E2 & E3 & E4 & E5)
  end.
  cbn [sleep nursing pumping bottle diaper] in E1, E2, E3, E4, E5.
  rewrite WindowFacts.getAllActivityDates_eq, !elem_of_app, !list_elem_of_fmap in Hin.
  destruct Hin as [H|[H|[H|[H|H]]]]; destruct H as (r & Hr & Hrin).
  - apply (not_elem_of_nil r). rewrite <- E1. apply list_elem_of_filter.
    split; [rewrite <- Hr; exact Hkeep | exact Hrin].
  - apply (not_elem_of_nil r). rewrite <- E2. apply list_elem_of_filter.
    split; [rewrite <- Hr; exact Hkeep | exact Hrin].
  - apply (not_elem_of_nil r). rewrite <- E3. apply list_elem_of_filter.
    split; [rewrite <- Hr; exact Hkeep | exact Hrin].
  - apply (not_elem_of_nil r). rewrite <- E4. apply list_elem_of_filter.
    split; [rewrite <- Hr; exact Hkeep | exact Hrin].
  - apply (not_elem_of_nil r). rewrite <- E5. apply list_elem_of_filter.
    split; [rewrite <- Hr; exact Hkeep | exact Hrin].
Qed.

Lemma recent_data_is_shown_witness :
  let today := Samples.evening + 3 * UTCDate.msPerDay in
  let state := {| activities := Samples.onlySleep Samples.overnightSleep;
                  dateFilter := Samples.noFilter |} in
  exists out,
    calculateAllHeatmaps (tz:=UTC)
      (getFilteredActivities (initializeDateFilter (tz:=UTC) today today state))
      = Some out /\
    (0 < totalDays out)%nat.
Proof.
  apply (recent_data_is_shown (tz:=UTC) (Samples.evening + 3 * UTCDate.msPerDay)
           (Samples.evening + 3 * UTCDate.msPerDay)
           {| activities := Samples.onlySleep Samples.overnightSleep;
              dateFilter := Samples.noFilter |} Samples.evening).
  - left.
  - repeat constructor. vm_compute. congruence.
  - vm_compute. congruence.
  - vm_compute. congruence.
Defined.

(** X15. Old data is hidden at first: when every instant in the data is
    before the time thirty days back, the window [initializeDateFilter]
    sets keeps no record at all, and the heatmap computed from it has no
    day and no kind. *)
Theorem old_data_is_hidden `{tz : TimeZone} (today now : Date) (state : State) :
  getAllActivityDates state <> [] ->
  Forall (fun d => d < setDate now (getDate today - 30)) (getAllActivityDates state) ->
  noRecords (getFilteredActivities (initializeDateFilter today now state)) /\
  exists out,
    calculateAllHeatmaps
      (getFilteredActivities (initializeDateFilter today now state)) = Some out /\
    totalDays out = 0%nat /\ heatmaps out = ∅.
Proof.
  intros Hne Hold.
  destruct (WindowFacts.initializeDateFilter_bounds today now state Hne)
    as (minDate & maxDate & Hall & Hin & Hacts & Hfilter).
  rewrite (WindowFacts.getFilteredActivities_bounds _ _ _ Hfilter), Hacts.
  set (s := Z.max (setDate now (getDate today - 30)) minDate).
  set (e := Z.min today maxDate).
  rewrite WindowFacts.getAllActivityDates_eq, !Forall_app, !Forall_fmap in Hold.
  destruct Hold as (H1 & H2 & H3 & H4 & H5).
  assert (Hdrop : forall t, t < setDate now (getDate today - 30) ->
                    ~ keepDate (Some s) (Some e) t = true).
  { intros t Ht. rewrite WindowFacts.keepDate_bounds. unfold s. lia. }
  assert (Hnone : noRecords
    {| sleep := filter (fun r => keepDate (Some s) (Some e) (start r) = true)
                  (sleep (activities state));
       nursing := filter (fun r => keepDate (Some s) (Some e) (start r) = true)
                    (nursing (activities state));
       pumping := filter (fun r => keepDate (Some s) (Some e) (start r) = true)
                    (pumping (activities state));
       bottle := filter (fun r => keepDate (Some s) (Some e) (time r) = true)
                   (bottle (activities state));
       diaper := filter (fun r => keepDate (Some s) (Some e) (time r) = true)
                   (diaper (activities state)) |}).
  { unfold noRecords. cbn [sleep nursing pumping bottle diaper].
    split_and!; apply FilterFacts.filter_none;
      (eapply Forall_impl; [eassumption|]); intros r Hr; apply Hdrop; exact Hr. }
  split; [exact Hnone|].
  match goal with
  | |- exists out, calculateAllHeatmaps ?a = _ /\ _ =>
    destruct (AggregatorFacts.calculateAllHeatmaps_spec a)
      as (out & Heq & Hdays & Htotal & Hlook)
  end.
  exists out. split; [exact Heq|].
  assert (Hzero : totalDays out = 0%nat).
  { rewrite Htotal, Hdays. apply ResultFacts.size_keys_zero,
      ResultFacts.noRecords_keys. exact Hnone. }
  split; [exact Hzero|]. apply map_eq. intros type. rewrite Hlook, lookup_empty.
  rewrite (WindowFacts.aggregateOf_noRecords _ type Hnone). reflexivity.
Qed.

Lemma old_data_is_hidden_witness :
  let state := {| activities := Samples.onlySleep Samples.longSleep;
                  dateFilter := Samples.noFilter |} in
  noRecords (getFilteredActivities
               (initializeDateFilter (tz:=UTC) Samples.evening Samples.evening state)) /\
  exists out,
    calculateAllHeatmaps (tz:=UTC)
      (getFilteredActivities
         (initializeDateFilter (tz:=UTC) Samples.evening Samples.evening state))
      = Some out /\
    totalDays out = 0%nat /\ heatmaps out = ∅.
Proof.
  apply (old_data_is_hidden (tz:=UTC) Samples.evening Samples.evening
           {| activities := Samples.onlySleep Samples.longSleep;
              dateFilter := Samples.noFilter |}).
  - vm_compute. discriminate.
  - repeat constructor.
Defined.

(** ** Uploading again *)

Module UploadFacts.
Import Heatmap App Coverage Dataset DatasetFacts WindowFacts.

Lemma same_dates (a a' : Activities) (f f' : DateFilter) :
  sameRecords a a' ->
  forall d, d ∈ getAllActivityDates {| activities := a; dateFilter := f |} <->
            d ∈ getAllActivityDates {| activities := a'; dateFilter := f' |}.
Proof.
  intros (Hs & Hn & Hp & Hb & Hd) d. rewrite !getAllActivityDates_eq.
  cbn [activities]. rewrite !elem_of_app, !list_elem_of_fmap.
  setoid_rewrite Hs. setoid_rewrite Hn. setoid_rewrite Hp.
  setoid_rewrite Hb. setoid_rewrite Hd. reflexivity.
Qed.

Lemma no_dates_no_records (state : State) :
  getAllActivityDates state = [] -> noRecords (getFilteredActivities state).
Proof.
  rewrite getAllActivityDates_eq. intros Hnil.
  repeat (apply app_eq_nil in Hnil as [?%fmap_nil_inv Hnil]).
  apply fmap_nil_inv in Hnil.
  unfold getFilteredActivities, noRecords.
  destruct (dateFilter_start (dateFilter state)), (dateFilter_end (dateFilter state));
    cbn [sleep nursing pumping bottle diaper];
    repeat match goal with H : _ = [] |- _ => rewrite H; clear H end;
    auto.
Qed.

Lemma noRecords_same (a a' : Activities) :
  noRecords a -> noRecords a' -> sameRecords a a'.
Proof.
  unfold noRecords, sameRecords.
  intros (-> & -> & -> & -> & ->) (-> & -> & -> & -> & ->). tauto.
Qed.

Lemma same_filter {A : Type} (P : A -> Prop) `{!forall x, Decision (P x)}
  (l l' : list A) :
  (forall r, r ∈ l <-> r ∈ l') ->
  forall r, r ∈ filter P l <-> r ∈ filter P l'.
Proof. intros Hsame r. rewrite !list_elem_of_filter, Hsame. reflexivity. Qed.

(** The window set from the records and the clock, and the records it
    keeps, depend on the set of records only. *)
Lemma same_window `{tz : TimeZone} (today now : Date) (a a' : Activities)
  (f f' : DateFilter) :
  sameRecords a a' ->
  sameRecords
    (getFilteredActivities
       (initializeDateFilter today now {| activities := a; dateFilter := f |}))
    (getFilteredActivities
       (initializeDateFilter today now {| activities := a'; dateFilter := f' |})).
Proof.
  intros Hsame. pose proof (same_dates a a' f f' Hsame) as Hdates.
  pose proof (same_nil _ _ Hdates) as Hnil.
  unfold initializeDateFilter.
  destruct (getAllActivityDates {| activities := a; dateFilter := f |})
    as [|first others] eqn:Ha.
  { rewrite (proj1 Hnil eq_refl).
    apply noRecords_same; apply no_dates_no_records; [exact Ha | tauto]. }
  destruct (getAllActivityDates {| activities := a'; dateFilter := f' |})
    as [|first' others'] eqn:Ha'.
  { destruct Hnil as [_ Hnil]. discriminate (Hnil eq_refl). }
  destruct (FilterFacts.Math_min_of_spec others first) as [Hmin Hminall].
  destruct (FilterFacts.Math_max_of_spec others first) as [Hmax Hmaxall].
  destruct (FilterFacts.Math_min_of_spec others' first') as [Hmin' Hminall'].
  destruct (FilterFacts.Math_max_of_spec others' first') as [Hmax' Hmaxall'].
  rewrite Forall_forall in Hminall, Hmaxall, Hminall', Hmaxall'.
  assert (Math_min_of first' others' = Math_min_of first others) as ->.
  { apply Z.le_antisymm; [apply Hminall', Hdates, Hmin | apply Hminall, Hdates, Hmin']. }
  assert (Math_max_of first' others' = Math_max_of first others) as ->.
  { apply Z.le_antisymm; [apply Hmaxall, Hdates, Hmax' | apply Hmaxall', Hdates, Hmax]. }
  destruct Hsame as (Hs & Hn & Hp & Hb & Hd).
  unfold getFilteredActivities, sameRecords.
  cbn [dateFilter dateFilter_start dateFilter_end activities
       sleep nursing pumping bottle diaper].
  split_and!; apply same_filter; assumption.
Qed.

End UploadFacts.

(** X5. What is shown after an upload depends on the set of the loaded
    records only, not on how often or in which order they were uploaded.
    In the handler that recomputes the heatmap from all records, merging
    the same parse result a second time, or merging two parse results in
    the other order, changes neither the number of distinct days nor any
    curve.  The same holds in the handler that first sets the date window
    anew, for one and the same reading of the clock, whatever the window
    was before. *)
Theorem upload_twice_or_reordered `{tz : TimeZone}
  (r1 r2 : ParseResult) (a : Activities) :
  (exists out out',
     calculateAllHeatmaps (mergeResult r1 a) = Some out /\
     calculateAllHeatmaps (mergeResult r1 (mergeResult r1 a)) = Some out' /\
     totalDays out' = totalDays out /\
     forall type, curve <$> heatmaps out' !! type = curve <$> heatmaps out !! type) /\
  (exists out out',
     calculateAllHeatmaps (mergeResult r2 (mergeResult r1 a)) = Some out /\
     calculateAllHeatmaps (mergeResult r1 (mergeResult r2 a)) = Some out' /\
     totalDays out' = totalDays out /\
     forall type, curve <$> heatmaps out' !! type = curve <$> heatmaps out !! type) /\
  (forall (today now : Date) (f f' : App.DateFilter),
   exists out out',
     App.heatmapAfterUpload today now
       {| App.activities := mergeResult r1 a; App.dateFilter := f |} = Some out /\
     App.heatmapAfterUpload today now
       {| App.activities := mergeResult r1 (mergeResult r1 a); App.dateFilter := f' |}
       = Some out' /\
     totalDays out' = totalDays out /\
     forall type, curve <$> heatmaps out' !! type = curve <$> heatmaps out !! type) /\
  (forall (today now : Date) (f f' : App.DateFilter),
   exists out out',
     App.heatmapAfterUpload today now
       {| App.activities := mergeResult r2 (mergeResult r1 a); App.dateFilter := f |}
       = Some out /\
     App.heatmapAfterUpload today now
       {| App.activities := mergeResult r1 (mergeResult r2 a); App.dateFilter := f' |}
       = Some out' /\
     totalDays out' = totalDays out /\
     forall type, curve <$> heatmaps out' !! type = curve <$> heatmaps out !! type).
Proof.
  split_and!.
  - destruct (DatasetFacts.curves_ext _ _ (DatasetFacts.mergeResult_twice r1 a))
      as (out' & out & Heq' & Heq & Htot & _ & Hcurves).
    exists out, out'. auto.
  - destruct (DatasetFacts.curves_ext _ _ (DatasetFacts.mergeResult_swap r1 r2 a))
      as (out' & out & Heq' & Heq & Htot & _ & Hcurves).
    exists out, out'. auto.
  - intros today now f f'. unfold App.heatmapAfterUpload.
    destruct (DatasetFacts.curves_ext _ _
                (UploadFacts.same_window today now _ _ f' f
                   (DatasetFacts.mergeResult_twice r1 a)))
      as (out' & out & Heq' & Heq & Htot & _ & Hcurves).
    exists out, out'. auto.
  - intros today now f f'. unfold App.heatmapAfterUpload.
    destruct (DatasetFacts.curves_ext _ _
                (UploadFacts.same_window today now _ _ f' f
                   (DatasetFacts.mergeResult_swap r1 r2 a)))
      as (out' & out & Heq' & Heq & Htot & _ & Hcurves).
    exists out, out'. auto.
Qed.

(** ** Labels, bars and the pointer *)

Module RenderFacts.
Import Heatmap Render Segmenter SegmenterFacts.

Lemma string_length_app (s1 s2 : string) :
  String.length (s1 +:+ s2) = (String.length s1 + String.length s2)%nat.
Proof. induction s1 as [|c s1 IH]; simpl; [reflexivity | rewrite IH; reflexivity]. Qed.

Lemma string_app_inj_length (s1 s2 t1 t2 : string) :
  String.length s1 = String.length s2 ->
  s1 +:+ t1 = s2 +:+ t2 -> s1 = s2 /\ t1 = t2.
Proof.
  revert s2. induction s1 as [|c s1 IH]; intros [|c2 s2] Hlen Heq;
    simpl in *; try discriminate.
  - auto.
  - injection Heq as -> Heq. destruct (IH s2) as [-> ->]; auto.
Qed.

(** Two-digit formatting of the numbers from 0 to 99: always two
    characters, and different numbers give different strings. *)
Lemma padStart2_table :
  forallb (fun a =>
    Nat.eqb (String.length (padStart2 (String_ a))) 2 &&
    forallb (fun b =>
      implb (String.eqb (padStart2 (String_ a)) (padStart2 (String_ b))) (a =? b))
      (seqZ 0 100))
    (seqZ 0 100) = true.
Proof. vm_compute. reflexivity. Qed.

Lemma padStart2_length (a : Z) :
  0 <= a < 100 -> String.length (padStart2 (String_ a)) = 2%nat.
Proof.
  intros Ha. pose proof padStart2_table as Htable. rewrite forallb_forall in Htable.
  specialize (Htable a). rewrite andb_true_iff in Htable.
  apply Nat.eqb_eq, Htable. apply list_elem_of_In, elem_of_seqZ. lia.
Qed.

Lemma padStart2_inj (a b : Z) :
  0 <= a < 100 -> 0 <= b < 100 ->
  padStart2 (String_ a) = padStart2 (String_ b) -> a = b.
Proof.
  intros Ha Hb Heq. pose proof padStart2_table as Htable.
  rewrite forallb_forall in Htable. specialize (Htable a).
  rewrite andb_true_iff in Htable. destruct Htable as [_ Htable].
  { apply list_elem_of_In, elem_of_seqZ. lia. }
  rewrite forallb_forall in Htable. specialize (Htable b).
  rewrite Heq, String.eqb_refl in Htable. apply Z.eqb_eq, Htable.
  apply list_elem_of_In, elem_of_seqZ. lia.
Qed.

Lemma pixelsPerMinute_value : (pixelsPerMinute == 61 # 6)%Q.
Proof. reflexivity. Qed.

(** The rows of a run that lies within the day. *)
Lemma hourSegments_rows (run : Run) :
  0 <= startMinute run < endMinute run -> endMinute run <= 1440 ->
  Forall (fun '(hour, s, e) => 0 <= hour < 24 /\ 0 <= s < e /\ e <= 60)
    (hourSegments run).
Proof.
  intros Hrun Hend. unfold hourSegments.
  destruct (Z.eqb_spec (startMinute run / 60) ((endMinute run - 1) / 60)) as [Heq|Hne].
  - repeat constructor; revert Heq;
      Z.quot_rem_to_equations; Z.div_mod_to_equations; lia.
  - apply Forall_fmap, Forall_forall. intros hour Hhour.
    apply elem_of_seqZ in Hhour. simpl.
    destruct (Z.eqb_spec hour (startMinute run / 60)) as [->|Hs];
      [|destruct (Z.eqb_spec hour ((endMinute run - 1) / 60)) as [->|He]];
      revert Hhour Hne; Z.quot_rem_to_equations; Z.div_mod_to_equations; lia.
Qed.

Lemma hourSegments_hours (run : Run) :
  (fun seg : Z * Z * Z => seg.1.1) <$> hourSegments run =
    seqZ (startMinute run / 60)
         ((endMinute run - 1) / 60 - startMinute run / 60 + 1).
Proof.
  unfold hourSegments.
  destruct (Z.eqb_spec (startMinute run / 60) ((endMinute run - 1) / 60)) as [Heq|Hne].
  - rewrite <- Heq, Z.sub_diag. reflexivity.
  - rewrite <- list_fmap_compose. rewrite <- (list_fmap_id (seqZ _ _)) at 2.
    apply list_fmap_ext. intros _ hour _. simpl.
    destruct (hour =? startMinute run / 60); [reflexivity|].
    destruct (hour =? (endMinute run - 1) / 60); reflexivity.
Qed.

Lemma hourSegments_minutes (run : Run) (m : Z) :
  0 <= startMinute run < endMinute run -> endMinute run <= 1440 ->
  startMinute run <= m < endMinute run <->
  exists s e, (m / 60, s, e) ∈ hourSegments run /\ s <= m mod 60 < e.
Proof.
  intros Hrun Hend. unfold hourSegments.
  destruct (Z.eqb_spec (startMinute run / 60) ((endMinute run - 1) / 60)) as [Heq|Hne].
  - split.
    + intros Hm. eexists _, _. split.
      * apply list_elem_of_singleton. f_equal. f_equal.
        revert Heq. Z.div_mod_to_equations. lia.
      * revert Heq. Z.quot_rem_to_equations. Z.div_mod_to_equations. lia.
    + intros (s & e & Hin & Hme). apply list_elem_of_singleton in Hin.
      injection Hin as Hh -> ->. revert Hh Heq Hme.
      Z.quot_rem_to_equations. Z.div_mod_to_equations. lia.
  - split.
    + intros Hm.
      assert (Hhour : startMinute run / 60 <= m / 60 <= (endMinute run - 1) / 60).
      { Z.div_mod_to_equations. lia. }
      destruct (Z.eqb_spec (m / 60) (startMinute run / 60)) as [Hs|Hs];
        [|destruct (Z.eqb_spec (m / 60) ((endMinute run - 1) / 60)) as [He|He]].
      * exists (Z.rem (startMinute run) 60), 60. split.
        -- apply list_elem_of_fmap. exists (m / 60). split.
           ++ rewrite (proj2 (Z.eqb_eq _ _) Hs). reflexivity.
           ++ apply elem_of_seqZ. lia.
        -- revert Hs. Z.quot_rem_to_equations. Z.div_mod_to_equations. lia.
      * exists 0, (Z.rem (endMinute run - 1) 60 + 1). split.
        -- apply list_elem_of_fmap. exists (m / 60). split.
           ++ rewrite (proj2 (Z.eqb_neq _ _) Hs), (proj2 (Z.eqb_eq _ _) He).
              reflexivity.
           ++ apply elem_of_seqZ. lia.
        -- revert He. Z.quot_rem_to_equations. Z.div_mod_to_equations. lia.
      * exists 0, 60. split.
        -- apply list_elem_of_fmap. exists (m / 60). split.
           ++ rewrite (proj2 (Z.eqb_neq _ _) Hs), (proj2 (Z.eqb_neq _ _) He).
              reflexivity.
           ++ apply elem_of_seqZ. lia.
        -- Z.div_mod_to_equations. lia.
    + intros (s & e & Hin & Hme). apply list_elem_of_fmap in Hin.
      destruct Hin as (hour & Hseg & Hhour). apply elem_of_seqZ in Hhour.
      destruct (Z.eqb_spec hour (startMinute run / 60)) as [Hs|Hs];
        [|destruct (Z.eqb_spec hour ((endMinute run - 1) / 60)) as [He|He]];
        injection Hseg as Hh Hs' He'; subst s e; revert Hh Hhour Hne Hme;
        try revert Hs; try revert He;
        Z.quot_rem_to_equations; Z.div_mod_to_equations; lia.
Qed.

End RenderFacts.

Import Render.

(** X16. The label of the current time shows the clock: for a date with
    hours [h] and minutes [m], in any time zone, [minutesToTimeString]
    applied to [getCurrentMinutes] gives [h] and [m], each padded to two
    characters, with a colon between them. *)
Theorem time_label_shows_clock `{tz : TimeZone} (now : Date) :
  minutesToTimeString (getCurrentMinutes now) =
    padStart2 (String_ (getHours now)) +:+ ":" +:+ padStart2 (String_ (getMinutes now)).
Proof.
  unfold minutesToTimeString, getCurrentMinutes, timeToMinutes.
  pose proof (getHours_range now) as Hh. pose proof (getMinutes_range now) as Hm.
  replace ((getHours now * 60 + getMinutes now) / 60) with (getHours now)
    by (Z.div_mod_to_equations; lia).
  replace (Z.rem (getHours now * 60 + getMinutes now) 60) with (getMinutes now)
    by (Z.quot_rem_to_equations; lia).
  reflexivity.
Qed.

(** X17. Within the day, time labels have five characters and tell the
    minutes apart: two minutes of [[0, 1440)] with the same label are the
    same minute. *)
Theorem time_labels_distinct (m m' : Z) :
  0 <= m < 1440 -> 0 <= m' < 1440 ->
  String.length (minutesToTimeString m) = 5%nat /\
  (minutesToTimeString m = minutesToTimeString m' -> m = m').
Proof.
  intros Hm Hm'. unfold minutesToTimeString.
  assert (Hh : 0 <= m / 60 < 100) by (Z.div_mod_to_equations; lia).
  assert (Hr : 0 <= Z.rem m 60 < 100) by (Z.quot_rem_to_equations; lia).
  assert (Hh' : 0 <= m' / 60 < 100) by (Z.div_mod_to_equations; lia).
  assert (Hr' : 0 <= Z.rem m' 60 < 100) by (Z.quot_rem_to_equations; lia).
  split.
  - rewrite !RenderFacts.string_length_app, !RenderFacts.padStart2_length by assumption.
    reflexivity.
  - intros Heq. apply RenderFacts.string_app_inj_length in Heq.
    2: { rewrite !RenderFacts.padStart2_length by assumption. reflexivity. }
    destruct Heq as [Hhours Hrest]. simpl in Hrest. injection Hrest as Hmins.
    apply RenderFacts.padStart2_inj in Hhours, Hmins; try assumption.
    revert Hhours Hmins. Z.quot_rem_to_equations. Z.div_mod_to_equations. lia.
Qed.

Lemma time_labels_distinct_witness :
  String.length (minutesToTimeString 1200) = 5%nat /\
  (minutesToTimeString 1200 = minutesToTimeString 60 -> 1200 = 60).
Proof. apply (time_labels_distinct 1200 60); lia. Defined.

(** X18. A run within the day is cut into the hour rows from the hour of
    its first minute to the hour of its last, one row per hour, each row
    within the 24 rows and the 60 minutes of a row; a minute belongs to
    the run exactly when its row holds a piece of the run that covers its
    minute within the hour.  Every minute of a run is thus drawn, and
    drawn once. *)
Theorem run_minutes_drawn_once (run : Run) :
  0 <= startMinute run < endMinute run -> endMinute run <= 1440 ->
  Forall (fun '(hour, s, e) => 0 <= hour < 24 /\ 0 <= s < e /\ e <= 60)
    (hourSegments run) /\
  (fun seg : Z * Z * Z => seg.1.1) <$> hourSegments run =
    seqZ (startMinute run / 60)
         ((endMinute run - 1) / 60 - startMinute run / 60 + 1) /\
  forall m, startMinute run <= m < endMinute run <->
    exists s e, (m / 60, s, e) ∈ hourSegments run /\ s <= m mod 60 < e.
Proof.
  intros Hrun Hend. split_and!.
  - apply RenderFacts.hourSegments_rows; assumption.
  - apply RenderFacts.hourSegments_hours.
  - intros m. apply RenderFacts.hourSegments_minutes; assumption.
Qed.

Lemma run_minutes_drawn_once_witness :
  let run := {| startMinute := 1170; endMinute := 1440; intensity := 1 |} in
  Forall (fun '(hour, s, e) => 0 <= hour < 24 /\ 0 <= s < e /\ e <= 60)
    (hourSegments run) /\
  (fun seg : Z * Z * Z => seg.1.1) <$> hourSegments run =
    seqZ (startMinute run / 60)
         ((endMinute run - 1) / 60 - startMinute run / 60 + 1) /\
  forall m, startMinute run <= m < endMinute run <->
    exists s e, (m / 60, s, e) ∈ hourSegments run /\ s <= m mod 60 < e.
Proof.
  apply (run_minutes_drawn_once
           {| startMinute := 1170; endMinute := 1440; intensity := 1 |});
    simpl; lia.
Defined.

Module BarFacts.
Import Heatmap Coverage Render Segmenter SegmenterFacts.

(** The runs of a curve of 1440 samples between 0 and 1. *)
Lemma runs_within_day (intensities : list Q) (threshold : Q) :
  length intensities = 1440%nat ->
  Forall (fun v => (v <= 1)%Q) intensities ->
  Forall (fun r => 0 <= startMinute r < endMinute r /\ endMinute r <= 1440 /\
                   (0 < intensity r)%Q /\ (intensity r <= 1)%Q)
    (findIntensityRuns intensities threshold).
Proof.
  intros Hlen Hle. destruct intensities as [|first rest]; [discriminate|].
  destruct (scanRuns_start first rest threshold)
    as (runs & rs & ri & Heq & Hanch & Hem & Hbd & Hord).
  rewrite (findIntensityRuns_cons _ _ _ _ _ _ Heq).
  rewrite Hlen in Hanch. destruct Hanch as (Hrs & Hs & _).
  rewrite Forall_forall in Hle.
  assert (Hall : Forall (fun r => 0 <= startMinute r < endMinute r /\
                   endMinute r <= 1440 /\
                   (0 < intensity r)%Q /\ (intensity r <= 1)%Q) runs).
  { rewrite Forall_forall in Hem, Hbd |- *. intros r Hr.
    destruct (Hem r Hr) as (Hpos & Hrange & Hsample & _). specialize (Hbd r Hr).
    simpl in Hbd. split_and!; try lia; [exact Hpos|].
    apply Hle. eapply list_elem_of_lookup_2. exact Hsample. }
  destruct (Qgtb ri 0) eqn:Hpos; [|exact Hall].
  apply Forall_app. split; [exact Hall|]. constructor; [|constructor].
  unfold MINUTES_PER_DAY. simpl. split_and!; try lia.
  - apply Qgtb_true, Hpos.
  - apply Hle. eapply list_elem_of_lookup_2. exact Hs.
Qed.

Lemma intensities_at_most_one (totalDays : nat) (md : list (gset string)) :
  Forall (fun v => (v <= 1)%Q) (intensityOf totalDays <$> md).
Proof.
  apply Forall_fmap, Forall_true. intros days. unfold intensityOf, Math_min. simpl.
  case_bool_decide; [apply Q.le_min_l | discriminate].
Qed.

(** The bar of a row piece that lies within the row. *)
Lemma bar_in_chart (fill : option string) (intensity : Q) (hour s e : Z) :
  0 <= s < e -> e <= 60 ->
  let b := bar fill intensity (hour, s, e) in
  (rect_x b == inject_Z s * pixelsPerMinute)%Q /\
  (rect_width b == inject_Z (e - s) * pixelsPerMinute)%Q /\
  (0 <= rect_x b)%Q /\ (0 < rect_width b)%Q /\
  (rect_x b + rect_width b <= inject_Z chartWidth)%Q.
Proof.
  intros Hs He. cbn [bar rect_x rect_width]. cbv zeta.
  assert (Hs0 : (0 <= inject_Z s)%Q)
    by (change 0%Q with (inject_Z 0); rewrite <- Zle_Qle; lia).
  assert (Hse : (inject_Z s + 1 <= inject_Z e)%Q).
  { change 1%Q with (inject_Z 1). rewrite <- inject_Z_plus, <- Zle_Qle. lia. }
  assert (He60 : (inject_Z e <= 60)%Q).
  { change 60%Q with (inject_Z 60). rewrite <- Zle_Qle. lia. }
  assert (Hdiff : (inject_Z (e - s) == inject_Z e - inject_Z s)%Q).
  { unfold Z.sub. rewrite inject_Z_plus, inject_Z_opp. reflexivity. }
  assert (Hw : (Math_max 1 (inject_Z (e - s) * pixelsPerMinute)
                == inject_Z (e - s) * pixelsPerMinute)%Q).
  { unfold Math_max. apply Q.max_r.
    rewrite Hdiff, RenderFacts.pixelsPerMinute_value. lra. }
  split; [reflexivity|]. split; [exact Hw|].
  rewrite Hw, Hdiff, RenderFacts.pixelsPerMinute_value.
  change (inject_Z chartWidth) with 610%Q.
  split_and!; lra.
Qed.

End BarFacts.

(** X19. Every bar [render] draws for a result of [calculateAllHeatmaps]
    lies inside the chart: it starts at or after the left edge, has a
    positive width, ends at or before the right edge, sits in one of the
    24 rows, two units below the top of the row and 20 high, has a colour,
    and an opacity above 0 and at most 0.85. *)
Theorem bars_stay_in_chart `{tz : TimeZone} (a : Activities)
  (visibility : gmap string bool) :
  exists out,
    calculateAllHeatmaps a = Some out /\
    Forall (fun b =>
      (0 <= rect_x b)%Q /\ (0 < rect_width b)%Q /\
      (rect_x b + rect_width b <= inject_Z chartWidth)%Q /\
      (exists hour, 0 <= hour < 24 /\ rect_y b = inject_Z (hour * rowHeight + 2)) /\
      rect_height b = 20%Q /\ is_Some (rect_fill b) /\
      (0 < rect_opacity b)%Q /\ (rect_opacity b <= 85 # 100)%Q)
      (activityBars (heatmaps out) visibility).
Proof.
  destruct (AggregatorFacts.calculateAllHeatmaps_spec a) as (out & Heq & _ & _ & Hlook).
  exists out. split; [exact Heq|]. unfold activityBars.
  apply Forall_bind, Forall_forall. intros type Htype. simpl.
  destruct (heatmaps out !! type) as [h|] eqn:Hh; [|constructor].
  assert (Hfill : is_Some (color h)).
  { rewrite Hlook in Hh. apply fmap_Some in Hh. destruct Hh as (agg & Hagg & ->).
    assert (Hin : type ∈ durationTypes ++ instantTypes)
      by (apply (ResultFacts.aggregateOf_types a); eauto).
    cbn [color Coverage.finish]. unfold durationTypes, instantTypes in Hin.
    rewrite !elem_of_app, !elem_of_cons in Hin.
    destruct Hin as [[->|[->|[->|H]]]|[->|[->|H]]];
      try (inversion H); eexists; reflexivity. }
  assert (Hruns : Forall (fun r => 0 <= startMinute r < endMinute r /\
                    endMinute r <= 1440 /\
                    (0 < intensity r)%Q /\ (intensity r <= 1)%Q)
            (findIntensityRuns (intensities h) DEFAULT_THRESHOLD)).
  { rewrite Hlook in Hh. apply fmap_Some in Hh. destruct Hh as (agg & Hagg & ->).
    destruct (ResultFacts.aggregateOf_Some a type agg Hagg) as (Hlen & _).
    cbn [intensities Coverage.finish].
    apply BarFacts.runs_within_day;
      [rewrite length_fmap; exact Hlen | apply BarFacts.intensities_at_most_one]. }
  apply Forall_bind. eapply Forall_impl; [exact Hruns|].
  intros run (Hrange & Hend & Hpos & Hle). simpl. unfold runBars.
  apply Forall_fmap.
  eapply Forall_impl; [apply RenderFacts.hourSegments_rows; assumption|].
  intros [[hour s] e] (Hhour & Hs & He). simpl.
  destruct (BarFacts.bar_in_chart (color h) (intensity run) hour s e Hs He)
    as (_ & _ & Hx & Hw & Hright).
  split_and!; try assumption.
  - exists hour. split; [exact Hhour | reflexivity].
  - reflexivity.
  - cbn [bar rect_opacity]. lra.
  - cbn [bar rect_opacity]. lra.
Qed.

Module RangeFacts.

Lemma StronglySorted_head_le (l : list Z) (first : Z) :
  StronglySorted Z.le l -> head l = Some first -> Forall (fun d => first <= d) l.
Proof.
  intros Hs Hh. destruct l as [|x l]; [discriminate|]. injection Hh as ->.
  inversion Hs; subst. constructor; [lia | assumption].
Qed.

Lemma StronglySorted_last_ge (l : list Z) (final : Z) :
  StronglySorted Z.le l -> last l = Some final -> Forall (fun d => d <= final) l.
Proof.
  induction 1 as [|x l Hs IH Hall]; intros Hl; [constructor|].
  destruct l as [|y l'].
  - injection Hl as ->. repeat constructor. lia.
  - rewrite last_cons_cons in Hl. specialize (IH Hl). constructor; [|exact IH].
    inversion Hall; subst. inversion IH; subst. lia.
Qed.

End RangeFacts.

(** X22. [getDateRange] returns null for an empty set of days; for a
    non-empty one it returns the earliest and the latest of the parsed
    dates: both come from days of the set, and every day of the set lies
    between them. *)
Theorem getDateRange_is_min_max (parse : string -> Date) (dateStrings : gset string) :
  (dateStrings = ∅ -> getDateRange parse dateStrings = None) /\
  (dateStrings <> ∅ ->
   exists first final,
     getDateRange parse dateStrings = Some (first, final) /\
     (exists d, d ∈ dateStrings /\ parse d = first) /\
     (exists d, d ∈ dateStrings /\ parse d = final) /\
     forall d, d ∈ dateStrings -> first <= parse d <= final).
Proof.
  unfold getDateRange. split.
  - intros ->. rewrite size_empty. reflexivity.
  - intros Hne.
    destruct (decide (size dateStrings = 0%nat)) as [Hz|_].
    { apply size_empty_iff in Hz. exfalso. apply Hne. apply leibniz_equiv. exact Hz. }
    set (dates := merge_sort Z.le (parse <$> elements dateStrings)).
    assert (Hperm : dates ≡ₚ parse <$> elements dateStrings)
      by apply merge_sort_Permutation.
    assert (Hsorted : StronglySorted Z.le dates)
      by (apply StronglySorted_merge_sort; apply _).
    assert (Hin : forall t, t ∈ dates <-> exists d, d ∈ dateStrings /\ parse d = t).
    { intros t. rewrite Hperm, list_elem_of_fmap. split.
      - intros (d & -> & Hd). exists d. split; [|reflexivity].
        apply elem_of_elements. exact Hd.
      - intros (d & Hd & <-). exists d. split; [reflexivity|].
        apply elem_of_elements. exact Hd. }
    destruct dates as [|first rest] eqn:Edates.
    { exfalso. apply Hne. apply leibniz_equiv, elements_empty_iff.
      apply Permutation_nil_l in Hperm. symmetry in Hperm.
      apply fmap_nil_inv in Hperm. exact Hperm. }
    destruct (last (first :: rest)) as [final|] eqn:Elast.
    2: { apply last_None in Elast. discriminate. }
    cbn [head]. exists first, final. split; [reflexivity|].
    pose proof (RangeFacts.StronglySorted_head_le _ first Hsorted eq_refl) as Hmin.
    pose proof (RangeFacts.StronglySorted_last_ge _ final Hsorted Elast) as Hmax.
    rewrite Forall_forall in Hmin, Hmax. split_and!.
    + apply Hin. left.
    + apply Hin. apply last_Some in Elast. destruct Elast as (l' & Hl').
      rewrite Hl'. apply elem_of_app. right. left.
    + intros d Hd. assert (Hd' : parse d ∈ first :: rest) by (apply Hin; eauto).
      split; [apply Hmin | apply Hmax]; exact Hd'.
Qed.

Module ParserFacts.
Import Heatmap Dataset Parser.

Lemma append_cons (c : ascii) (s t : string) : String c s +:+ t = String c (s +:+ t).
Proof. reflexivity. Qed.

Lemma append_empty (t : string) : EmptyString +:+ t = t.
Proof. reflexivity. Qed.

Ltac unfold_append := repeat (rewrite append_cons || rewrite append_empty).

Lemma lowerChar_idem (c : ascii) : lowerChar (lowerChar c) = lowerChar c.
Proof. destruct c as [[] [] [] [] [] [] [] []]; reflexivity. Qed.

Lemma toLowerCase_idem (s : string) : toLowerCase (toLowerCase s) = toLowerCase s.
Proof.
  induction s as [|c s IH]; simpl; [reflexivity|].
  rewrite lowerChar_idem, IH. reflexivity.
Qed.

Lemma prefix_spec (sub s : string) :
  String.prefix sub s = true <-> exists after, s = sub +:+ after.
Proof.
  revert s. induction sub as [|c sub IH]; intros [|c' s]; simpl.
  - split; [exists EmptyString; reflexivity | reflexivity].
  - split; [eexists; reflexivity | reflexivity].
  - split; [discriminate | intros [after Hafter]; discriminate].
  - destruct (ascii_dec c c') as [->|Hne].
    + rewrite IH. split; intros [after Hafter]; exists after.
      * rewrite Hafter. reflexivity.
      * injection Hafter as Hafter. exact Hafter.
    + split; [discriminate | intros [after Hafter]; injection Hafter as Hc _; congruence].
Qed.

Lemma includes_spec (s sub : string) :
  includes s sub = true <-> occursIn sub s.
Proof.
  unfold occursIn. induction s as [|c s IH]; cbn [includes];
    rewrite orb_true_iff, prefix_spec.
  - split.
    + intros [[after Hafter]|Hfalse]; [|discriminate].
      exists EmptyString, after. exact Hafter.
    + intros ([|c before] & after & Heq); [|discriminate].
      left. exists after. exact Heq.
  - rewrite IH. split.
    + intros [[after Hafter]|(before & after & Heq)].
      * exists EmptyString, after. exact Hafter.
      * exists (String c before), after. rewrite Heq. reflexivity.
    + intros ([|c' before] & after & Heq).
      * left. exists after. exact Heq.
      * right. exists before, after. injection Heq as _ Heq. exact Heq.
Qed.

Lemma includes_false (s sub : string) :
  includes s sub = false <-> ~ occursIn sub s.
Proof. rewrite <- includes_spec. destruct (includes s sub); split; congruence. Qed.

Lemma detectActivityType_cases (filename : string) :
  detectActivityType filename ∈
    [None; Some "sleep"; Some "nursing"; Some "pumping"; Some "bottle"; Some "diaper"].
Proof.
  unfold detectActivityType.
  repeat match goal with
         | |- context [includes ?s ?sub] => destruct (includes s sub)
         end; cbn [andb negb]; set_solver.
Qed.

(** ** Digits *)

Lemma isDigit_not_space (c : ascii) : isDigit c = true -> isSpace c = false.
Proof. destruct c as [[] [] [] [] [] [] [] []]; vm_compute; congruence. Qed.

Lemma isDigit_not_quote (c : ascii) : isDigit c = true -> Ascii.eqb c quote = false.
Proof. destruct c as [[] [] [] [] [] [] [] []]; vm_compute; congruence. Qed.

Lemma digitValue_range (c : ascii) : isDigit c = true -> 0 <= digitValue c <= 9.
Proof.
  unfold isDigit, digitValue. rewrite andb_true_iff, !N.leb_le. lia.
Qed.

Lemma parseDigitsFrom_bounds (s : string) (acc : Z) :
  allDigits s = true -> 0 <= acc ->
  acc * 10 ^ Z.of_nat (String.length s) <= parseDigitsFrom acc s
    < (acc + 1) * 10 ^ Z.of_nat (String.length s).
Proof.
  revert acc. induction s as [|c s IH]; intros acc Hs Hacc.
  - simpl. lia.
  - cbn [allDigits] in Hs. apply andb_true_iff in Hs as [Hc Hs].
    pose proof (digitValue_range c Hc) as Hv.
    cbn [parseDigitsFrom String.length].
    specialize (IH (acc * 10 + digitValue c) Hs ltac:(lia)).
    rewrite Nat2Z.inj_succ, Z.pow_succ_r by lia.
    pose proof (Z.pow_pos_nonneg 10 (Z.of_nat (String.length s)) ltac:(lia) ltac:(lia)).
    nia.
Qed.

Lemma parseDigits_bounds (s : string) (n : nat) :
  allDigits s = true -> (String.length s <= n)%nat ->
  0 <= parseDigits s < 10 ^ Z.of_nat n.
Proof.
  intros Hs Hn. pose proof (parseDigitsFrom_bounds s 0 Hs ltac:(lia)) as Hb.
  unfold parseDigits.
  assert (10 ^ Z.of_nat (String.length s) <= 10 ^ Z.of_nat n)
    by (apply Z.pow_le_mono_r; lia).
  lia.
Qed.

Lemma spanDigits_spec (max : nat) (s digits rest : string) :
  spanDigits max s = (digits, rest) ->
  s = digits +:+ rest /\ allDigits digits = true /\ (String.length digits <= max)%nat.
Proof.
  revert s digits rest. induction max as [|max IH]; intros s digits rest Hspan.
  - destruct s; injection Hspan as <- <-; simpl; auto with lia.
  - destruct s as [|c s]; cbn [spanDigits] in Hspan.
    { injection Hspan as <- <-; simpl; auto with lia. }
    destruct (isDigit c) eqn:Hc.
    + destruct (spanDigits max s) as [digits' rest'] eqn:Hrec.
      injection Hspan as <- <-. destruct (IH _ _ _ Hrec) as (-> & Hd & Hlen).
      unfold_append. cbn [allDigits String.length].
      split_and!; [reflexivity | apply andb_true_iff; auto | lia].
    + injection Hspan as <- <-; simpl; auto with lia.
Qed.

Lemma spanDigits_app (max : nat) (digits rest : string) :
  allDigits digits = true -> (String.length digits <= max)%nat ->
  (forall c rest', rest = String c rest' -> isDigit c = false) ->
  spanDigits max (digits +:+ rest) = (digits, rest).
Proof.
  intros Hd Hlen Hrest. revert max Hlen.
  induction digits as [|c digits IH]; intros max Hlen.
  - unfold_append. destruct rest as [|c rest']; destruct max; try reflexivity.
    cbn [spanDigits]. rewrite (Hrest c rest' eq_refl). reflexivity.
  - cbn [allDigits] in Hd. apply andb_true_iff in Hd as [Hc Hd].
    destruct max as [|max]; [simpl in Hlen; lia|].
    unfold_append. cbn [spanDigits]. rewrite Hc, IH; [reflexivity | exact Hd |].
    simpl in Hlen. lia.
Qed.

Lemma substring_prefix_digits (n : nat) (s : string) :
  allDigits s = true ->
  allDigits (String.substring 0 n s) = true /\
  (String.length (String.substring 0 n s) <= String.length s)%nat.
Proof.
  revert n. induction s as [|c s IH]; intros n Hs.
  - destruct n; simpl; auto.
  - cbn [allDigits] in Hs. apply andb_true_iff in Hs as [Hc Hs].
    destruct n as [|n]; [simpl; auto with lia|].
    cbn [String.substring allDigits String.length]. destruct (IH n Hs) as [-> Hlen].
    rewrite Hc. auto with lia.
Qed.

Lemma substring_all (s : string) : String.substring 0 (String.length s) s = s.
Proof. induction s as [|c s IH]; simpl; [reflexivity | rewrite IH; reflexivity]. Qed.

Lemma substring_none (s : string) :
  String.substring (String.length s) 0 s = EmptyString.
Proof. induction s as [|c s IH]; simpl; [reflexivity | exact IH]. Qed.

Lemma digitsThen_spec (sep : ascii) (s digits rest : string) :
  digitsThen sep s = Some (digits, rest) ->
  allDigits digits = true /\ (String.length digits <= 2)%nat.
Proof.
  unfold digitsThen. destruct (spanDigits 2 s) as [digits' rest'] eqn:Hspan.
  apply spanDigits_spec in Hspan as (_ & Hd & Hlen).
  destruct digits' as [|c digits']; [discriminate|].
  destruct rest' as [|c' rest']; [discriminate|].
  destruct (Ascii.eqb c' sep); [|discriminate].
  intros [= <- <-]. auto.
Qed.

Lemma digitsThen_app (sep : ascii) (digits rest : string) :
  allDigits digits = true -> (1 <= String.length digits <= 2)%nat ->
  isDigit sep = false ->
  digitsThen sep (digits +:+ String sep rest) = Some (digits, rest).
Proof.
  intros Hd Hlen Hsep. unfold digitsThen.
  rewrite spanDigits_app; [| exact Hd | lia | intros c rest' [= <- <-]; exact Hsep].
  destruct digits as [|c digits]; [simpl in Hlen; lia|].
  rewrite Ascii.eqb_refl. reflexivity.
Qed.

Lemma matchTime_spec (s hours minutes : string) :
  matchTime s = Some (hours, minutes) ->
  allDigits hours = true /\ (String.length hours <= 2)%nat /\
  allDigits minutes = true /\ String.length minutes = 2%nat.
Proof.
  unfold matchTime. intros Hmatch.
  apply bind_Some in Hmatch as ([hours' rest] & Hthen & Hmatch).
  apply digitsThen_spec in Hthen as [Hd Hlen].
  destruct rest as [|a [|b [|? ?]]]; try discriminate.
  destruct (isDigit a) eqn:Ha; [|discriminate].
  destruct (isDigit b) eqn:Hb; [|discriminate].
  injection Hmatch as <- <-. cbn [allDigits]. rewrite Ha, Hb. auto.
Qed.

Lemma matchTime_app (hours minutes : string) :
  allDigits hours = true -> (1 <= String.length hours <= 2)%nat ->
  allDigits minutes = true -> String.length minutes = 2%nat ->
  matchTime (", " +:+ hours +:+ ":" +:+ minutes) = Some (hours, minutes).
Proof.
  intros Hh Hlen Hm Hlenm. unfold matchTime. unfold_append.
  change (Ascii.eqb "," (ascii_of_N 44)) with true. cbv iota.
  assert (trimStart (String " " (hours +:+ String ":" minutes))
          = hours +:+ String ":" minutes) as ->.
  { destruct hours as [|c hours]; [simpl in Hlen; lia|].
    cbn [allDigits] in Hh. apply andb_true_iff in Hh as [Hc _].
    unfold_append. cbn [trimStart]. change (isSpace " ") with true. cbv iota.
    rewrite (isDigit_not_space c Hc). reflexivity. }
  change ":"%char with (ascii_of_N 58).
  rewrite digitsThen_app by (auto; reflexivity). cbn [mbind option_bind].
  destruct minutes as [|a [|b [|? ?]]]; try discriminate.
  cbn [allDigits] in Hm. rewrite andb_true_r in Hm. rewrite Hm. reflexivity.
Qed.

Lemma matchYear_step (n : nat) (digits rest : string) :
  (2 <= n)%nat ->
  matchYear n digits rest =
  match matchTime (String.substring n (String.length digits - n) digits +:+ rest) with
  | Some (hours, minutes) => Some (String.substring 0 n digits, hours, minutes)
  | None => matchYear (pred n) digits rest
  end.
Proof. destruct n as [|[|n]]; [lia | lia | reflexivity]. Qed.

Lemma matchYear_spec (n : nat) (digits rest year hours minutes : string) :
  allDigits digits = true ->
  matchYear n digits rest = Some (year, hours, minutes) ->
  allDigits year = true /\ (String.length year <= String.length digits)%nat /\
  allDigits hours = true /\ (String.length hours <= 2)%nat /\
  allDigits minutes = true /\ String.length minutes = 2%nat.
Proof.
  intros Hd. induction n as [|n IH]; [discriminate|].
  destruct n as [|n]; [discriminate|].
  rewrite matchYear_step by lia.
  destruct (matchTime _) as [[hours' minutes']|] eqn:Htime.
  - intros [= <- <- <-]. apply matchTime_spec in Htime.
    pose proof (substring_prefix_digits (S (S n)) digits Hd). tauto.
  - exact IH.
Qed.

Lemma matchYear_app (year rest hours minutes : string) :
  (2 <= String.length year)%nat ->
  matchTime rest = Some (hours, minutes) ->
  matchYear (String.length year) year rest = Some (year, hours, minutes).
Proof.
  intros Hlen Htime. rewrite matchYear_step by exact Hlen.
  rewrite Nat.sub_diag, substring_none, substring_all. unfold_append.
  rewrite Htime. reflexivity.
Qed.

(** ** Trimming *)

Lemma trimEnd_app (a b : string) :
  trimEnd b = b /\ b <> EmptyString ->
  trimEnd (a +:+ b) = a +:+ b /\ a +:+ b <> EmptyString.
Proof.
  intros [Hb Hne]. induction a as [|c a [IH IHne]]; [auto|].
  unfold_append. cbn [trimEnd]. rewrite IH.
  destruct (a +:+ b); [contradiction|]. split; [reflexivity | discriminate].
Qed.

Lemma dropFinalQuote_app (a b : string) :
  dropFinalQuote b = b /\ b <> EmptyString ->
  dropFinalQuote (a +:+ b) = a +:+ b /\ a +:+ b <> EmptyString.
Proof.
  intros [Hb Hne]. induction a as [|c a [IH IHne]]; [auto|].
  unfold_append. cbn [dropFinalQuote].
  destruct (a +:+ b); [contradiction|]. rewrite IH. split; [reflexivity | discriminate].
Qed.

Lemma two_digits_kept (minutes : string) :
  allDigits minutes = true -> String.length minutes = 2%nat ->
  (trimEnd minutes = minutes /\ minutes <> EmptyString) /\
  (dropFinalQuote minutes = minutes /\ minutes <> EmptyString).
Proof.
  intros Hd Hlen. destruct minutes as [|a [|b [|? ?]]]; try discriminate.
  cbn [allDigits] in Hd. rewrite andb_true_r in Hd.
  apply andb_true_iff in Hd as [Ha Hb].
  cbn [trimEnd dropFinalQuote].
  rewrite (isDigit_not_space b Hb), (isDigit_not_quote b Hb).
  repeat split; discriminate.
Qed.

(** A text of the form month/day/year, hours:minutes is parsed into its
    fields. *)
Lemma parseDateTime_text (newLocalDate : Z -> Z -> Z -> Z -> Z -> Date)
  (month day year hours minutes : string) :
  allDigits month = true -> (1 <= String.length month <= 2)%nat ->
  allDigits day = true -> (1 <= String.length day <= 2)%nat ->
  allDigits year = true -> (2 <= String.length year <= 4)%nat ->
  allDigits hours = true -> (1 <= String.length hours <= 2)%nat ->
  allDigits minutes = true -> String.length minutes = 2%nat ->
  1 <= parseDigits month <= 12 -> 1 <= parseDigits day <= 31 ->
  parseDigits hours <= 23 -> parseDigits minutes <= 59 ->
  parseDateTime newLocalDate
    (Some (month +:+ "/" +:+ day +:+ "/" +:+ year +:+ ", " +:+ hours +:+ ":" +:+ minutes))
  = Some (newLocalDate
            (if parseDigits year <? 100 then twoDigitYear (parseDigits year)
             else parseDigits year)
            (parseDigits month - 1) (parseDigits day)
            (parseDigits hours) (parseDigits minutes)).
Proof.
  intros Hmo Hlmo Hd Hld Hy Hly Hh Hlh Hmi Hlmi Vmo Vd Vh Vmi.
  pose proof (parseDigits_bounds hours 2 Hh ltac:(lia)) as Bh.
  pose proof (parseDigits_bounds minutes 2 Hmi ltac:(lia)) as Bmi.
  set (text := month +:+ "/" +:+ day +:+ "/" +:+ year +:+ ", " +:+ hours +:+ ":" +:+ minutes).
  assert (stripQuotes (trim text) = text) as Hclean.
  { destruct (two_digits_kept minutes Hmi Hlmi) as [Htrim Hquote].
    assert (trimEnd text = text) as Hend.
    { subst text. repeat apply trimEnd_app. exact Htrim. }
    assert (dropFinalQuote text = text) as Hdrop.
    { subst text. repeat apply dropFinalQuote_app. exact Hquote. }
    destruct month as [|c month]; [simpl in Hlmo; lia|].
    cbn [allDigits] in Hmo. apply andb_true_iff in Hmo as [Hc _].
    unfold trim. subst text. rewrite !append_cons in *. cbn [trimStart].
    rewrite (isDigit_not_space c Hc), Hend. cbn [stripQuotes].
    rewrite (isDigit_not_quote c Hc). exact Hdrop. }
  assert (matchDateTime text = Some (month, day, year, hours, minutes)) as Hmatch.
  { subst text. unfold matchDateTime. unfold_append.
    change "/"%char with (ascii_of_N 47).
    rewrite digitsThen_app by (auto; reflexivity). cbn [mbind option_bind].
    rewrite digitsThen_app by (auto; reflexivity). cbn [mbind option_bind].
    rewrite spanDigits_app;
      [| exact Hy | lia | intros c rest' [= <- <-]; reflexivity].
    rewrite (matchYear_app year _ hours minutes);
      [reflexivity | lia | apply (matchTime_app hours minutes); assumption]. }
  unfold parseDateTime. fold text.
  destruct text as [|c text'] eqn:Htext.
  { destruct month; [simpl in Hlmo; lia | discriminate]. }
  rewrite Hclean, Hmatch. cbn [mbind option_bind].
  rewrite !Z.gtb_ltb.
  repeat match goal with
         | |- context [(?a <? ?b) || _] => destruct (Z.ltb_spec a b); [lia|]; cbn [orb]
         | |- context [if ?a <? ?b then None else _] => destruct (Z.ltb_spec a b); [lia|]
         end.
  reflexivity.
Qed.

Lemma matchDateTime_year (s month day year hours minutes : string) :
  matchDateTime s = Some (month, day, year, hours, minutes) ->
  allDigits year = true /\ (String.length year <= 4)%nat.
Proof.
  unfold matchDateTime. intros Hmatch.
  apply bind_Some in Hmatch as ([month' s1] & _ & Hmatch).
  apply bind_Some in Hmatch as ([day' s2] & _ & Hmatch).
  destruct (spanDigits 4 s2) as [digits rest] eqn:Hspan.
  apply spanDigits_spec in Hspan as (_ & Hd & Hlen).
  apply bind_Some in Hmatch as ([[year' hours'] minutes'] & Hyear & Hmatch).
  injection Hmatch as _ _ <- _ _.
  apply (matchYear_spec _ _ _ _ _ _ Hd) in Hyear. split; [tauto | lia].
Qed.

(** The texts of the numbers below 100, plain and padded to two places,
    and of the numbers from 100 to 9999. *)
Lemma text_table :
  forallb (fun n =>
    allDigits (String_ n) && Nat.leb 1 (String.length (String_ n)) &&
    Nat.leb (String.length (String_ n)) 2 && (parseDigits (String_ n) =? n) &&
    allDigits (padStart2 (String_ n)) &&
    Nat.eqb (String.length (padStart2 (String_ n))) 2 &&
    (parseDigits (padStart2 (String_ n)) =? n))
    (seqZ 0 100) = true.
Proof. vm_compute. reflexivity. Qed.

Lemma year_table :
  forallb (fun n =>
    allDigits (String_ n) && Nat.leb 2 (String.length (String_ n)) &&
    Nat.leb (String.length (String_ n)) 4 && (parseDigits (String_ n) =? n))
    (seqZ 100 9900) = true.
Proof. vm_compute. reflexivity. Qed.

Lemma text_short (n : Z) :
  0 <= n < 100 ->
  allDigits (String_ n) = true /\ (1 <= String.length (String_ n) <= 2)%nat /\
  parseDigits (String_ n) = n.
Proof.
  intros Hn. pose proof text_table as Htable. rewrite forallb_forall in Htable.
  specialize (Htable n). rewrite !andb_true_iff in Htable.
  destruct Htable as ((((((H1 & H2) & H3) & H4) & _) & _) & _).
  { apply list_elem_of_In, elem_of_seqZ. lia. }
  apply Nat.leb_le in H2, H3. apply Z.eqb_eq in H4. auto.
Qed.

Lemma text_padded (n : Z) :
  0 <= n < 100 ->
  allDigits (padStart2 (String_ n)) = true /\
  String.length (padStart2 (String_ n)) = 2%nat /\
  parseDigits (padStart2 (String_ n)) = n.
Proof.
  intros Hn. pose proof text_table as Htable. rewrite forallb_forall in Htable.
  specialize (Htable n). rewrite !andb_true_iff in Htable.
  destruct Htable as ((((((_ & _) & _) & _) & H5) & H6) & H7).
  { apply list_elem_of_In, elem_of_seqZ. lia. }
  apply Nat.eqb_eq in H6. apply Z.eqb_eq in H7. auto.
Qed.

Lemma text_year (n : Z) :
  100 <= n < 10000 ->
  allDigits (String_ n) = true /\ (2 <= String.length (String_ n) <= 4)%nat /\
  parseDigits (String_ n) = n.
Proof.
  intros Hn. pose proof year_table as Htable. rewrite forallb_forall in Htable.
  specialize (Htable n). rewrite !andb_true_iff in Htable.
  destruct Htable as (((H1 & H2) & H3) & H4).
  { apply list_elem_of_In, elem_of_seqZ. lia. }
  apply Nat.leb_le in H2, H3. apply Z.eqb_eq in H4. auto.
Qed.

(** ** Rows and files *)

Lemma durationRow_positive newLocalDate (column : string) (row : gmap string string)
  (r : DurationActivity) :
  durationRow newLocalDate column row = Some r -> 0 < durationMinutes r.
Proof.
  unfold durationRow.
  destruct (parseDateTime _ _); [|discriminate].
  destruct (parseInt _) as [duration|]; [|discriminate].
  destruct (Z.leb_spec duration 0); [discriminate|].
  intros [= <-]. simpl. lia.
Qed.

Lemma omap_durationRow newLocalDate (column : string) (rows : list (gmap string string)) :
  Forall (fun r => 0 < durationMinutes r) (omap (durationRow newLocalDate column) rows).
Proof.
  apply Forall_forall. intros r Hr.
  apply list_elem_of_omap in Hr as (row & _ & Hrow).
  exact (durationRow_positive _ _ _ _ Hrow).
Qed.

Lemma length_omap_le {A B} (f : A -> option B) (l : list A) :
  (length (omap f l) <= length l)%nat.
Proof.
  induction l as [|x l IH]; [reflexivity|].
  change (omap f (x :: l))
    with (match f x with Some y => y :: omap f l | None => omap f l end).
  destruct (f x); cbn [length]; lia.
Qed.

Lemma omap_none {A B} (f : A -> option B) (l : list A) :
  Forall (fun x => f x = None) l -> omap f l = [].
Proof.
  induction 1 as [|x l Hx _ IH]; [reflexivity|].
  change (omap f (x :: l))
    with (match f x with Some y => y :: omap f l | None => omap f l end).
  rewrite Hx. exact IH.
Qed.

Lemma parseFile_None newLocalDate (name : string)
  (read : option (list (gmap string string))) :
  parseFile newLocalDate name read = None <->
  detectActivityType name = None \/ read = None.
Proof.
  unfold parseFile. pose proof (detectActivityType_cases name) as Hcases.
  destruct (detectActivityType name) as [activityType|]; [|tauto].
  destruct read as [rows|]; [|tauto].
  split; [|intros [?|?]; discriminate].
  repeat case_decide; try discriminate.
  rewrite !elem_of_cons, elem_of_nil in Hcases. intuition congruence.
Qed.

Lemma parseFile_positive newLocalDate (name : string)
  (read : option (list (gmap string string))) (result : ParseResult) :
  parseFile newLocalDate name read = Some result ->
  match result with
  | SleepResult l | NursingResult l | PumpingResult l =>
    Forall (fun r => 0 < durationMinutes r) l
  | _ => True
  end.
Proof.
  unfold parseFile. destruct (detectActivityType name); [|discriminate].
  destruct read as [rows|]; [|discriminate].
  repeat case_decide; intros [= <-]; try exact I; apply omap_durationRow.
Qed.

Lemma mergeResult_keeps (result : ParseResult) (a : Activities) :
  subRecords a (mergeResult result a).
Proof.
  unfold subRecords, mergeResult.
  destruct result; case_bool_decide; simpl; split_and!; set_solver.
Qed.

Lemma mergeResult_positive (result : ParseResult) (a : Activities) :
  match result with
  | SleepResult l | NursingResult l | PumpingResult l =>
    Forall (fun r => 0 < durationMinutes r) l
  | _ => True
  end ->
  positiveDurations a -> positiveDurations (mergeResult result a).
Proof.
  unfold positiveDurations, mergeResult. intros Hresult.
  destruct result; case_bool_decide; simpl; rewrite ?Forall_app; tauto.
Qed.

Lemma subRecords_trans (a b c : Activities) :
  subRecords a b -> subRecords b c -> subRecords a c.
Proof.
  unfold subRecords. intros (? & ? & ? & ? & ?) (? & ? & ? & ? & ?).
  split_and!; etrans; eauto.
Qed.

End ParserFacts.

Import Heatmap Dataset Parser ParserFacts.

(** X24.  [detectActivityType] finds no kind exactly when the lower-cased
    file name contains none of the words sleep, nursing, pump, expressed
    and diaper; a kind it finds is one of the five kinds of the
    aggregator; and the case of the letters of the name does not matter. *)
Theorem file_kind_detection (filename : string) :
  (detectActivityType filename = None <->
   forall word, word ∈ ["sleep"; "nursing"; "pump"; "expressed"; "diaper"] ->
     ~ occursIn word (toLowerCase filename)) /\
  (forall activityType, detectActivityType filename = Some activityType ->
     activityType ∈ durationTypes ++ instantTypes) /\
  detectActivityType (toLowerCase filename) = detectActivityType filename.
Proof.
  split_and!.
  - unfold detectActivityType. split.
    + cbv zeta. set (lower := toLowerCase filename). intros Hnone.
      destruct (includes lower "sleep") eqn:Hsleep; [discriminate|].
      destruct (includes lower "nursing") eqn:Hnursing; [discriminate|].
      destruct (includes lower "expressed") eqn:Hexpressed;
        [destruct (includes lower "pump"); discriminate|].
      destruct (includes lower "pump") eqn:Hpump; [discriminate|].
      destruct (includes lower "diaper") eqn:Hdiaper; [discriminate|].
      intros word Hword. apply includes_false.
      rewrite !elem_of_cons, elem_of_nil in Hword.
      intuition (subst; assumption).
    + intros Hwords.
      rewrite !(proj2 (includes_false _ _))
        by (apply Hwords; rewrite !elem_of_cons; tauto).
      reflexivity.
  - intros activityType Hsome.
    pose proof (detectActivityType_cases filename) as Hcases.
    rewrite Hsome in Hcases. rewrite !elem_of_cons, elem_of_nil in Hcases.
    unfold durationTypes, instantTypes. cbn [app]. rewrite !elem_of_cons.
    intuition congruence.
  - unfold detectActivityType. rewrite toLowerCase_idem. reflexivity.
Qed.

(** X25.  A date that [parseDateTime] returns is built from fields in
    range: month 0 to 11, day 1 to 31, hours 0 to 23, minutes 0 to 59, and
    a year from 100 to 9999, so never a year that the constructor of the
    host would read as a two-digit year. *)
Theorem parsed_fields_in_range (newLocalDate : Z -> Z -> Z -> Z -> Z -> Date)
  (dateStr : option string) (date : Date) :
  parseDateTime newLocalDate dateStr = Some date ->
  exists year month day hours minutes,
    date = newLocalDate year month day hours minutes /\
    100 <= year <= 9999 /\ 0 <= month <= 11 /\ 1 <= day <= 31 /\
    0 <= hours <= 23 /\ 0 <= minutes <= 59.
Proof.
  unfold parseDateTime. destruct dateStr as [[|c s]|]; try discriminate.
  intros Hparse.
  apply bind_Some in Hparse as ([[[[month day] year] hours] minutes] & Hmatch & Hparse).
  apply matchDateTime_year in Hmatch as [Hd Hlen].
  pose proof (parseDigits_bounds year 4 Hd Hlen) as Hyear.
  cbv zeta in Hparse. rewrite !Z.gtb_ltb in Hparse.
  repeat match type of Hparse with
         | context [(?a <? ?b) || (?c <? ?d)] =>
           destruct (Z.ltb_spec a b); [discriminate|];
           destruct (Z.ltb_spec c d); [discriminate|]; cbn [orb] in Hparse
         end.
  injection Hparse as <-. do 5 eexists. split; [reflexivity|].
  split_and!; try lia;
    destruct (Z.ltb_spec (parseDigits year) 100); try lia;
    destruct (Z.ltb_spec (parseDigits year) 50); lia.
Qed.

Lemma parsed_fields_in_range_witness :
  exists year month day hours minutes,
    1768334040000 = UTCHost.newLocalDate year month day hours minutes /\
    100 <= year <= 9999 /\ 0 <= month <= 11 /\ 1 <= day <= 31 /\
    0 <= hours <= 23 /\ 0 <= minutes <= 59.
Proof.
  apply (parsed_fields_in_range UTCHost.newLocalDate (Some "1/13/26, 19:54")).
  vm_compute. reflexivity.
Defined.

(** X26.  A time stamp in the format of the tracker's export, month/day/year
    followed by a comma, a space and hours:minutes, with a month from 1 to
    12, a day from 1 to 31, hours up to 23 and minutes up to 59, is parsed
    into these fields, the month counted from 0.  A year of two digits
    below 50 is read as 20xx, from 50 on as 19xx; a year from 100 to 9999
    is taken as it is. *)
Theorem tracker_timestamps_parse (newLocalDate : Z -> Z -> Z -> Z -> Z -> Date)
  (month day year hours minutes : Z) :
  1 <= month <= 12 -> 1 <= day <= 31 -> 0 <= hours <= 23 -> 0 <= minutes <= 59 ->
  (0 <= year < 100 ->
   parseDateTime newLocalDate
     (Some (String_ month +:+ "/" +:+ String_ day +:+ "/" +:+
            padStart2 (String_ year) +:+ ", " +:+
            padStart2 (String_ hours) +:+ ":" +:+ padStart2 (String_ minutes)))
   = Some (newLocalDate (twoDigitYear year) (month - 1) day hours minutes)) /\
  (100 <= year < 10000 ->
   parseDateTime newLocalDate
     (Some (String_ month +:+ "/" +:+ String_ day +:+ "/" +:+
            String_ year +:+ ", " +:+
            padStart2 (String_ hours) +:+ ":" +:+ padStart2 (String_ minutes)))
   = Some (newLocalDate year (month - 1) day hours minutes)).
Proof.
  intros Hmonth Hday Hhours Hminutes.
  destruct (text_short month ltac:(lia)) as (Dmo & Lmo & Vmo).
  destruct (text_short day ltac:(lia)) as (Dd & Ld & Vd).
  destruct (text_padded hours ltac:(lia)) as (Dh & Lh & Vh).
  destruct (text_padded minutes ltac:(lia)) as (Dmi & Lmi & Vmi).
  split; intros Hyear.
  - destruct (text_padded year Hyear) as (Dy & Ly & Vy).
    rewrite parseDateTime_text by (try assumption; lia).
    rewrite Vmo, Vd, Vh, Vmi, Vy.
    destruct (Z.ltb_spec year 100); [reflexivity | lia].
  - destruct (text_year year Hyear) as (Dy & Ly & Vy).
    rewrite parseDateTime_text by (try assumption; lia).
    rewrite Vmo, Vd, Vh, Vmi, Vy.
    destruct (Z.ltb_spec year 100); [lia | reflexivity].
Qed.

Lemma tracker_timestamps_parse_witness :
  parseDateTime UTCHost.newLocalDate (Some "1/13/26, 19:54")
  = Some (UTCHost.newLocalDate 2026 0 13 19 54) /\
  parseDateTime UTCHost.newLocalDate (Some "1/13/2026, 19:54")
  = Some (UTCHost.newLocalDate 2026 0 13 19 54).
Proof.
  split.
  - apply (tracker_timestamps_parse UTCHost.newLocalDate 1 13 26 19 54); lia.
  - apply (tracker_timestamps_parse UTCHost.newLocalDate 1 13 2026 19 54); lia.
Defined.

(** X27.  With UTC as local time, a time stamp in the format of the export
    lands on the chart at the minute of the day it names: the aggregator's
    [timeToMinutes] of the parsed date is hours * 60 + minutes. *)
Theorem parsed_timestamp_minute_of_day (month day year hours minutes : Z) :
  1 <= month <= 12 -> 1 <= day <= 31 -> 0 <= hours <= 23 -> 0 <= minutes <= 59 ->
  0 <= year < 100 ->
  exists date,
    parseDateTime UTCHost.newLocalDate
      (Some (String_ month +:+ "/" +:+ String_ day +:+ "/" +:+
             padStart2 (String_ year) +:+ ", " +:+
             padStart2 (String_ hours) +:+ ":" +:+ padStart2 (String_ minutes)))
    = Some date /\
    @timeToMinutes UTC date = hours * 60 + minutes.
Proof.
  intros Hmonth Hday Hhours Hminutes Hyear.
  destruct (text_short month ltac:(lia)) as (Dmo & Lmo & Vmo).
  destruct (text_short day ltac:(lia)) as (Dd & Ld & Vd).
  destruct (text_padded hours ltac:(lia)) as (Dh & Lh & Vh).
  destruct (text_padded minutes ltac:(lia)) as (Dmi & Lmi & Vmi).
  destruct (text_padded year Hyear) as (Dy & Ly & Vy).
  eexists. split.
  - rewrite parseDateTime_text by (try assumption; lia). reflexivity.
  - rewrite Vmo, Vd, Vh, Vmi, Vy.
    unfold timeToMinutes, UTCHost.newLocalDate. cbn [getHours getMinutes UTC].
    unfold UTCDate.hours, UTCDate.minutes, UTCDate.msPerDay, UTCDate.msPerHour,
      UTCDate.msPerMinute.
    generalize (UTCHost.daysFromCivil
      (if (0 <=? (if year <? 100 then twoDigitYear year else year)) &&
          ((if year <? 100 then twoDigitYear year else year) <=? 99)
       then 1900 + (if year <? 100 then twoDigitYear year else year)
       else (if year <? 100 then twoDigitYear year else year))
      (month - 1 + 1) day).
    intros days. Z.div_mod_to_equations. lia.
Qed.

Lemma parsed_timestamp_minute_of_day_witness :
  exists date,
    parseDateTime UTCHost.newLocalDate (Some "1/13/26, 19:54") = Some date /\
    @timeToMinutes UTC date = 19 * 60 + 54.
Proof.
  apply (parsed_timestamp_minute_of_day 1 13 26 19 54); lia.
Defined.

(** X28.  The records that [parseSleep], [parseNursing] and [parsePumping]
    return all have a positive duration; no parser returns more records
    than there are rows; and from rows without a Time column every parser
    returns no record at all. *)
Theorem row_parsers_contract (newLocalDate : Z -> Z -> Z -> Z -> Z -> Date)
  (rows : list (gmap string string)) :
  Forall (fun parse : list (gmap string string) -> list DurationActivity =>
            Forall (fun r => 0 < durationMinutes r) (parse rows) /\
            (length (parse rows) <= length rows)%nat)
    [parseSleep newLocalDate; parseNursing newLocalDate; parsePumping newLocalDate] /\
  (length (parseBottle newLocalDate rows) <= length rows)%nat /\
  (length (parseDiaper newLocalDate rows) <= length rows)%nat /\
  (Forall (fun row => row !! "Time" = None) rows ->
   parseSleep newLocalDate rows = [] /\ parseNursing newLocalDate rows = [] /\
   parsePumping newLocalDate rows = [] /\ parseBottle newLocalDate rows = [] /\
   parseDiaper newLocalDate rows = []).
Proof.
  split_and!.
  - repeat constructor; try apply omap_durationRow; apply length_omap_le.
  - apply length_omap_le.
  - apply length_omap_le.
  - intros Hrows.
    split_and!; apply omap_none; (eapply Forall_impl; [exact Hrows|]);
      intros row Hrow; unfold durationRow, instantRow; rewrite Hrow; reflexivity.
Qed.

(** X29.  An upload of files is rejected, leaving the data as they are,
    exactly when one of its files has a name of no known kind or cannot be
    read by Papa Parse.  When the upload succeeds, every record that was
    loaded before is still there, and if all interval records had a
    positive duration before, they all have one after. *)
Theorem upload_contract (newLocalDate : Z -> Z -> Z -> Z -> Z -> Date)
  (files : list (string * option (list (gmap string string)))) (a : Activities) :
  (uploadFiles newLocalDate files a = None <->
   exists file, file ∈ files /\
     (detectActivityType file.1 = None \/ file.2 = None)) /\
  (forall a', uploadFiles newLocalDate files a = Some a' ->
     subRecords a a' /\ (positiveDurations a -> positiveDurations a')).
Proof.
  unfold uploadFiles. split.
  - rewrite bind_None, mapM_None, Exists_exists. split.
    + intros [(file & Hfile & Hnone)|(results & _ & Hfalse)]; [|discriminate].
      exists file. split; [exact Hfile|]. eapply parseFile_None, Hnone.
    + intros (file & Hfile & Hnone). left. exists file.
      split; [exact Hfile|]. apply parseFile_None, Hnone.
  - intros a' Hsome. apply bind_Some in Hsome as (results & Hresults & Hsome).
    injection Hsome as <-. apply mapM_Some in Hresults.
    revert a. induction Hresults as [|file result files results Hfile _ IH]; intros a.
    + cbn [foldl]. split; [|tauto]. unfold subRecords. split_and!; set_solver.
    + cbn [foldl]. destruct (IH (mergeResult result a)) as [Hsub Hpos]. split.
      * eapply subRecords_trans; [apply mergeResult_keeps | exact Hsub].
      * intros Ha. apply Hpos, mergeResult_positive; [|exact Ha].
        exact (parseFile_positive _ _ _ _ Hfile).
Qed.

(** ** The numbers of the host *)

Module NumberFacts.
Import Number.

Lemma eqb_eq (a b : Number) : eqb a b = true -> a = b.
Proof.
  destruct a as [|s|[n d]], b as [|t|[n' d']]; simpl; try discriminate; try reflexivity.
  - destruct s, t; simpl; congruence.
  - rewrite andb_true_iff, Z.eqb_eq, Pos.eqb_eq. intros [-> ->]. reflexivity.
Qed.

Lemma pow2_pos (e : Z) : (0 < pow2 e)%Q.
Proof. apply Qpower_0_lt. reflexivity. Qed.

Lemma pow2_add (a b : Z) : (pow2 (a + b) == pow2 a * pow2 b)%Q.
Proof. apply Qpower_plus. discriminate. Qed.

Lemma pow2_succ (a : Z) : (pow2 (a + 1) == 2 * pow2 a)%Q.
Proof. rewrite pow2_add. change (pow2 1) with 2%Q. ring. Qed.

Lemma pow2_le (a b : Z) : a <= b -> (pow2 a <= pow2 b)%Q.
Proof. intros H. apply Qpower_le_compat_l; [exact H | discriminate]. Qed.

Lemma pow2_lt_inv (a b : Z) : (pow2 a < pow2 b)%Q -> a < b.
Proof. intros H. apply (Qpower_lt_compat_l_inv 2); [exact H | reflexivity]. Qed.

Lemma pow2_Z (d : Z) : 0 <= d -> (pow2 d == inject_Z (2 ^ d))%Q.
Proof. intros H. unfold pow2. rewrite Zpower_Qpower by exact H. reflexivity. Qed.

(** The binade of a positive rational. *)
Lemma ilog2_spec (q : Q) :
  (0 < q)%Q -> (pow2 (ilog2 q) <= q)%Q /\ (q < pow2 (ilog2 q + 1))%Q.
Proof.
  intros Hq. destruct q as [n d].
  assert (Hn : 0 < n) by (unfold Qlt in Hq; simpl in Hq; lia).
  unfold ilog2. cbn [Qnum Qden].
  set (a := Z.log2 n). set (b := Z.log2 (Z.pos d)).
  destruct (Z.log2_spec n Hn) as [Ha1 Ha2]. fold a in Ha1, Ha2.
  destruct (Z.log2_spec (Z.pos d) ltac:(lia)) as [Hb1 Hb2]. fold b in Hb1, Hb2.
  assert (Ha0 : 0 <= a) by apply Z.log2_nonneg.
  assert (Hb0 : 0 <= b) by apply Z.log2_nonneg.
  rewrite <- Z.add_1_r in Ha2, Hb2.
  assert (HN1 : (pow2 a <= inject_Z n)%Q) by (rewrite pow2_Z, <- Zle_Qle by lia; exact Ha1).
  assert (HN2 : (inject_Z n < 2 * pow2 a)%Q)
    by (rewrite <- pow2_succ, pow2_Z, <- Zlt_Qlt by lia; exact Ha2).
  assert (HD1 : (pow2 b <= inject_Z (Z.pos d))%Q)
    by (rewrite pow2_Z, <- Zle_Qle by lia; exact Hb1).
  assert (HD2 : (inject_Z (Z.pos d) < 2 * pow2 b)%Q)
    by (rewrite <- pow2_succ, pow2_Z, <- Zlt_Qlt by lia; exact Hb2).
  assert (Hsplit : (pow2 a == pow2 (a - b) * pow2 b)%Q)
    by (rewrite <- pow2_add; replace (a - b + b) with a by lia; reflexivity).
  pose proof (pow2_pos a) as Pa. pose proof (pow2_pos b) as Pb.
  pose proof (pow2_pos (a - b)) as Pab.
  assert (HD0 : (0 < inject_Z (Z.pos d))%Q) by reflexivity.
  assert (Hqd : (n # d == inject_Z n / inject_Z (Z.pos d))%Q) by apply Qmake_Qdiv.
  destruct (Qle_bool (pow2 (a - b)) (n # d)) eqn:Hle.
  - apply Qle_bool_iff in Hle. split; [exact Hle|].
    rewrite pow2_succ, Hqd. apply Qlt_shift_div_r; [exact HD0|].
    nra.
  - assert (Hlt : (n # d < pow2 (a - b))%Q).
    { apply Qnot_le_lt. intros H. apply Qle_bool_iff in H. congruence. }
    replace (a - b - 1 + 1) with (a - b) by lia. split; [|exact Hlt].
    assert (Hhalf : (pow2 (a - b) == 2 * pow2 (a - b - 1))%Q).
    { rewrite <- pow2_succ. replace (a - b - 1 + 1) with (a - b) by lia. reflexivity. }
    pose proof (pow2_pos (a - b - 1)) as Pab1.
    rewrite Hqd. apply Qle_shift_div_l; [exact HD0|].
    nra.
Qed.

Lemma ulpExponent_le (x : Q) (e : Z) :
  (0 < x)%Q -> (x < pow2 (e + 53))%Q -> -1074 <= e -> ulpExponent x <= e.
Proof.
  intros Hx Hlt He. destruct (ilog2_spec x Hx) as [Hlo _].
  assert (ilog2 x < e + 53) by (apply pow2_lt_inv; eapply Qle_lt_trans; eassumption).
  unfold ulpExponent. lia.
Qed.

Lemma ulpExponent_ge (x : Q) (e : Z) :
  (0 < x)%Q -> (pow2 (e + 52) <= x)%Q -> e <= ulpExponent x.
Proof.
  intros Hx Hle. destruct (ilog2_spec x Hx) as [_ Hhi].
  assert (e + 52 < ilog2 x + 1) by (apply pow2_lt_inv; eapply Qle_lt_trans; eassumption).
  unfold ulpExponent. lia.
Qed.

Lemma roundHalfEven_bounds (q : Q) :
  (inject_Z (roundHalfEven q) - (1 # 2) <= q)%Q /\
  (q <= inject_Z (roundHalfEven q) + (1 # 2))%Q.
Proof.
  unfold roundHalfEven. pose proof (Qfloor_le q) as Hlo.
  pose proof (Qlt_floor q) as Hhi. rewrite inject_Z_plus in Hhi.
  change (inject_Z 1) with 1%Q in Hhi.
  destruct (q - inject_Z (Qfloor q) ?= 1 # 2)%Q eqn:Hc.
  - apply Qeq_alt in Hc. destruct (Z.even (Qfloor q));
      rewrite ?inject_Z_plus; change (inject_Z 1) with 1%Q; split; lra.
  - apply Qlt_alt in Hc. split; lra.
  - apply Qgt_alt in Hc. rewrite inject_Z_plus. change (inject_Z 1) with 1%Q.
    split; lra.
Qed.

Lemma roundHalfEven_le (q : Q) (k : Z) : (q <= inject_Z k)%Q -> roundHalfEven q <= k.
Proof.
  intros H. destruct (roundHalfEven_bounds q) as [Hlo _].
  assert (roundHalfEven q < k + 1); [|lia].
  rewrite Zlt_Qlt, inject_Z_plus. change (inject_Z 1) with 1%Q. lra.
Qed.

Lemma roundHalfEven_ge (q : Q) (k : Z) : (inject_Z k <= q)%Q -> k <= roundHalfEven q.
Proof.
  intros H. destruct (roundHalfEven_bounds q) as [_ Hhi].
  assert (k < roundHalfEven q + 1); [|lia].
  rewrite Zlt_Qlt, inject_Z_plus. change (inject_Z 1) with 1%Q. lra.
Qed.

(** A multiple of [2 ^ e] is a multiple of [2 ^ u] for [u <= e]. *)
Lemma on_finer_grid (k e u : Z) :
  u <= e -> (inject_Z k * pow2 e == inject_Z (k * 2 ^ (e - u)) * pow2 u)%Q.
Proof.
  intros H. rewrite inject_Z_mult, <- pow2_Z by lia.
  rewrite <- Qmult_assoc, <- pow2_add. replace (e - u + u) with e by lia. reflexivity.
Qed.

Lemma nearest_le (x : Q) (k e : Z) :
  ulpExponent x <= e -> (x <= inject_Z k * pow2 e)%Q ->
  (nearest x <= inject_Z k * pow2 e)%Q.
Proof.
  intros Hu Hx. unfold nearest. set (u := ulpExponent x) in *.
  pose proof (pow2_pos u) as Pu.
  rewrite (on_finer_grid k e u Hu) in Hx |- *.
  apply Qmult_le_compat_r; [|lra].
  rewrite <- Zle_Qle. apply roundHalfEven_le.
  apply Qle_shift_div_r; [exact Pu | exact Hx].
Qed.

Lemma nearest_ge (x : Q) (k e : Z) :
  ulpExponent x <= e -> (inject_Z k * pow2 e <= x)%Q ->
  (inject_Z k * pow2 e <= nearest x)%Q.
Proof.
  intros Hu Hx. unfold nearest. set (u := ulpExponent x) in *.
  pose proof (pow2_pos u) as Pu.
  rewrite (on_finer_grid k e u Hu) in Hx |- *.
  apply Qmult_le_compat_r; [|lra].
  rewrite <- Zle_Qle. apply roundHalfEven_ge.
  apply Qle_shift_div_l; [exact Pu | exact Hx].
Qed.

Lemma nearest_error (x : Q) :
  (nearest x - pow2 (ulpExponent x) * (1 # 2) <= x)%Q /\
  (x <= nearest x + pow2 (ulpExponent x) * (1 # 2))%Q.
Proof.
  unfold nearest. set (u := ulpExponent x). pose proof (pow2_pos u) as Pu.
  destruct (roundHalfEven_bounds (x / pow2 u)) as [Hlo Hhi].
  set (m := inject_Z (roundHalfEven (x / pow2 u))) in *.
  assert (Hx : (x / pow2 u * pow2 u == x)%Q) by (field; lra).
  assert (H1 : ((m - (1 # 2)) * pow2 u <= x / pow2 u * pow2 u)%Q)
    by (apply Qmult_le_compat_r; lra).
  assert (H2 : (x / pow2 u * pow2 u <= (m + (1 # 2)) * pow2 u)%Q)
    by (apply Qmult_le_compat_r; lra).
  rewrite Hx in H1, H2. split.
  - assert (E : (m * pow2 u - pow2 u * (1 # 2) == (m - (1 # 2)) * pow2 u)%Q) by ring.
    rewrite E. exact H1.
  - assert (E : (m * pow2 u + pow2 u * (1 # 2) == (m + (1 # 2)) * pow2 u)%Q) by ring.
    rewrite E. exact H2.
Qed.

(** A power of two that is a number bounds the rounded value from
    below. *)
Lemma nearest_ge_pow2 (x : Q) (a : Z) :
  (0 < x)%Q -> -1074 <= a -> (pow2 a <= x)%Q -> (pow2 a <= nearest x)%Q.
Proof.
  intros Hx Ha Hle.
  destruct (Z.le_gt_cases (ulpExponent x) a) as [Hu|Hu].
  - pose proof (nearest_ge x 1 a Hu) as H. rewrite Qmult_1_l in H. exact (H Hle).
  - destruct (ilog2_spec x Hx) as [Hlo _].
    assert (Hu' : ulpExponent x <= ilog2 x) by (unfold ulpExponent in *; lia).
    pose proof (nearest_ge x 1 (ilog2 x) Hu') as H. rewrite Qmult_1_l in H.
    eapply Qle_trans; [|exact (H Hlo)]. apply pow2_le. lia.
Qed.

Lemma roundPositive_not_NaN (x : Q) : roundPositive x <> NaN.
Proof. unfold roundPositive. destruct (Qle_bool _ _); discriminate. Qed.

Lemma round64_not_NaN (x : Q) : round64 x <> NaN.
Proof.
  unfold round64. destruct (x ?= 0)%Q; [discriminate | |apply roundPositive_not_NaN].
  pose proof (roundPositive_not_NaN (- x)).
  destruct (roundPositive (- x)); [congruence | discriminate | discriminate].
Qed.

(** Rounding a rational between 0 and a multiple of [2 ^ e], for an
    exponent [e] that bounds its last place. *)
Lemma round64_between (x : Q) (k e : Z) :
  (0 <= x)%Q -> (x <= inject_Z k * pow2 e)%Q ->
  (x < pow2 (e + 53))%Q -> -1074 <= e ->
  (inject_Z k * pow2 e < pow2 1024)%Q ->
  exists r, round64 x = Finite r /\ (0 <= r)%Q /\ (r <= inject_Z k * pow2 e)%Q /\
            (r - pow2 e * (1 # 2) <= x)%Q /\ (x <= r + pow2 e * (1 # 2))%Q.
Proof.
  intros Hx0 Hxk Hx53 He Hk. pose proof (pow2_pos e) as Pe. unfold round64.
  destruct (x ?= 0)%Q eqn:Hc.
  - apply Qeq_alt in Hc. exists 0%Q. split; [reflexivity|].
    split_and!; lra.
  - apply Qlt_alt in Hc. lra.
  - apply Qgt_alt in Hc.
    pose proof (ulpExponent_le x e Hc Hx53 He) as Hu.
    pose proof (nearest_le x k e Hu Hxk) as Hle.
    pose proof (nearest_ge x 0 e Hu) as Hge. rewrite Qmult_0_l in Hge.
    specialize (Hge Hx0).
    destruct (nearest_error x) as [Elo Ehi].
    pose proof (pow2_le _ _ Hu) as Hpu.
    unfold roundPositive.
    destruct (Qle_bool (pow2 1024) (nearest x)) eqn:Hover.
    + apply Qle_bool_iff in Hover. lra.
    + exists (Qred (nearest x)). split; [reflexivity|].
      rewrite Qred_correct. split_and!; lra.
Qed.

End NumberFacts.

(** ** The tooltip *)

Module TooltipFacts.
Import Heatmap Render Number Tooltip NumberFacts.

Lemma pixelsPerMinute_double :
  info_pixelsPerMinute chartInfo = Finite (5723324526450005 # 562949953421312).
Proof. vm_compute. reflexivity. Qed.

Lemma chart_height_double : mul (ofZ 24) (info_rowHeight chartInfo) = ofZ 576.
Proof. vm_compute. reflexivity. Qed.

(** The minute of an hour row and a minute within it, as the doubles
    compute it. *)
Lemma minute_table :
  forallb (fun hour =>
    forallb (fun minuteInHour =>
      eqb (min (add (mul (ofZ hour) (ofZ 60)) (ofZ minuteInHour))
               (ofZ (MINUTES_PER_DAY - 1)))
          (ofZ (Z.min (hour * 60 + minuteInHour) 1439)))
      (seqZ 0 61))
    (seqZ 0 25) = true.
Proof. vm_compute. reflexivity. Qed.

Lemma minute_exact (hour minuteInHour : Z) :
  0 <= hour <= 24 -> 0 <= minuteInHour <= 60 ->
  min (add (mul (ofZ hour) (ofZ 60)) (ofZ minuteInHour)) (ofZ (MINUTES_PER_DAY - 1))
  = ofZ (Z.min (hour * 60 + minuteInHour) 1439).
Proof.
  intros Hh Hm. pose proof minute_table as Htable.
  rewrite forallb_forall in Htable. specialize (Htable hour).
  rewrite forallb_forall in Htable.
  apply eqb_eq, Htable; apply list_elem_of_In, elem_of_seqZ; lia.
Qed.

Lemma Qfloor_between (q : Q) (a b : Z) :
  (inject_Z a <= q)%Q -> (q < inject_Z (b + 1))%Q -> a <= Qfloor q <= b.
Proof.
  intros Ha Hb. split.
  - rewrite <- (Qfloor_Z a). apply Qfloor_resp_le. exact Ha.
  - assert (Qfloor q < b + 1); [|lia].
    rewrite Zlt_Qlt. eapply Qle_lt_trans; [apply Qfloor_le | exact Hb].
Qed.

(** The row of a height within the chart. *)
Lemma hour_of (y : Q) :
  (0 <= y)%Q -> (y <= 576)%Q ->
  exists hour, floor (div (Finite y) (info_rowHeight chartInfo)) = ofZ hour /\
               0 <= hour <= 24.
Proof.
  intros H0 H1. cbn [info_rowHeight chartInfo div ofZ].
  change (isZero (inject_Z rowHeight)) with false. cbv iota.
  change (inject_Z rowHeight) with 24%Q.
  destruct (round64_between (y / 24) 24 0) as (r & -> & Hr0 & Hr1 & _).
  - apply Qle_shift_div_l; [reflexivity | lra].
  - apply Qle_shift_div_r; [reflexivity|]. change (inject_Z 24 * pow2 0)%Q with 24%Q. lra.
  - apply Qlt_shift_div_r; [reflexivity|].
    eapply Qle_lt_trans; [exact H1 | reflexivity].
  - lia.
  - reflexivity.
  - change (inject_Z 24 * pow2 0)%Q with 24%Q in Hr1.
    exists (Qfloor r). split; [reflexivity|].
    apply Qfloor_between; [exact Hr0 | eapply Qle_lt_trans; [exact Hr1 | reflexivity]].
Qed.

(** The minute within the row of a position within the chart: the
    quotient by the double [pixelsPerMinute] stays below 61. *)
Lemma minute_of (x : Q) :
  (0 <= x)%Q -> (x <= 610)%Q ->
  exists minuteInHour,
    floor (div (Finite x) (info_pixelsPerMinute chartInfo)) = ofZ minuteInHour /\
    0 <= minuteInHour <= 60.
Proof.
  intros H0 H1. rewrite pixelsPerMinute_double.
  set (p := (5723324526450005 # 562949953421312)%Q).
  cbn [div]. change (isZero p) with false. cbv iota.
  assert (Hp : (0 < p)%Q) by reflexivity.
  destruct (round64_between (x / p) (60 * 2 ^ 47 + 1) (-47)) as (r & -> & Hr0 & Hr1 & _).
  - apply Qle_shift_div_l; [exact Hp | lra].
  - apply Qle_shift_div_r; [exact Hp|].
    eapply Qle_trans; [exact H1|]. vm_compute. discriminate.
  - apply Qlt_shift_div_r; [exact Hp|].
    eapply Qle_lt_trans; [exact H1|]. reflexivity.
  - lia.
  - reflexivity.
  - exists (Qfloor r). split; [reflexivity|].
    apply Qfloor_between; [exact Hr0|].
    eapply Qle_lt_trans; [exact Hr1|]. reflexivity.
Qed.

(** A position that passes the two checks is not a number or lies within
    the chart. *)
Lemma within_checks (x bound : Number) (b : Q) :
  bound = Finite b ->
  lt x (ofZ 0) || gt x bound = false ->
  x = NaN \/ exists q, x = Finite q /\ (0 <= q)%Q /\ (q <= b)%Q.
Proof.
  intros -> Hchecks. apply orb_false_iff in Hchecks as [Hlo Hhi].
  destruct x as [|s|q]; [left; reflexivity | |].
  - destruct s; simpl in Hlo, Hhi; discriminate.
  - right. exists q. split; [reflexivity|].
    unfold gt in Hhi. cbn [lt ofZ] in Hlo, Hhi.
    apply negb_false_iff, Qle_bool_iff in Hlo, Hhi. auto.
Qed.

Lemma add_NaN_r (a : Number) : add a NaN = NaN.
Proof. destruct a; reflexivity. Qed.

(** The product of a finite or infinite factor and a positive finite one,
    and a difference with a finite subtrahend, are numbers. *)
Lemma mul_positive_not_NaN (a : Number) (s : Q) :
  a <> NaN -> (0 < s)%Q -> mul a (Finite s) <> NaN.
Proof.
  intros Ha Hs. destruct a as [|sg|q]; [congruence | |apply round64_not_NaN].
  cbn [mul]. assert (isZero s = false) as ->; [|discriminate].
  unfold isZero. destruct (Qeq_bool s 0) eqn:E; [|reflexivity].
  apply Qeq_bool_iff in E. lra.
Qed.

Lemma sub_finite_not_NaN (a : Number) (q : Q) : a <> NaN -> sub a (Finite q) <> NaN.
Proof.
  intros Ha. destruct a as [|sg|p]; [congruence | discriminate | apply round64_not_NaN].
Qed.

(** The scale of a box at least one unit wide is finite and positive. *)
Lemma scale_positive (view : Z) (w : Q) :
  4 <= view <= 2 ^ 53 -> (1 <= w)%Q -> (w < pow2 1024)%Q ->
  exists s, div (ofZ view) (Finite w) = Finite s /\ (0 < s)%Q.
Proof.
  intros Hview Hw1 Hw2. cbn [div ofZ].
  assert (isZero w = false) as ->.
  { unfold isZero. destruct (Qeq_bool w 0) eqn:E; [|reflexivity].
    apply Qeq_bool_iff in E. lra. }
  assert (Hv4 : (4 <= inject_Z view)%Q)
    by (change 4%Q with (inject_Z 4); rewrite <- Zle_Qle; lia).
  assert (Hv53 : (inject_Z view <= pow2 53)%Q)
    by (rewrite pow2_Z, <- Zle_Qle by lia; lia).
  pose proof (pow2_pos 1024) as P1024. pose proof (pow2_pos (-1022)) as Plow.
  assert (Hq : (0 < inject_Z view / w)%Q) by (apply Qlt_shift_div_l; lra).
  assert (Hlow : (pow2 (-1022) <= inject_Z view / w)%Q).
  { apply Qle_shift_div_l; [lra|].
    assert (Hprod : (pow2 (-1022) * pow2 1024 == 4)%Q) by reflexivity.
    apply Qle_trans with (pow2 (-1022) * pow2 1024)%Q.
    - apply Qmult_le_l; [exact Plow | lra].
    - rewrite Hprod. exact Hv4. }
  assert (Hup : (inject_Z view / w <= inject_Z 1 * pow2 53)%Q).
  { rewrite Qmult_1_l. apply Qle_shift_div_r; [lra|].
    apply Qle_trans with (pow2 53 * 1)%Q; [lra|].
    apply Qmult_le_l; [apply pow2_pos | exact Hw1]. }
  unfold round64. rewrite (proj1 (Qgt_alt _ _) Hq).
  pose proof (nearest_ge_pow2 _ (-1022) Hq ltac:(lia) Hlow) as Hge.
  assert (Hu : ulpExponent (inject_Z view / w) <= 53).
  { apply ulpExponent_le; [exact Hq | | lia].
    eapply Qle_lt_trans; [exact Hup|]. reflexivity. }
  pose proof (nearest_le _ 1 53 Hu Hup) as Hle.
  unfold roundPositive.
  destruct (Qle_bool (pow2 1024) (nearest (inject_Z view / w))) eqn:Hover.
  - apply Qle_bool_iff in Hover. exfalso.
    assert ((inject_Z 1 * pow2 53 < pow2 1024)%Q) by reflexivity. lra.
  - eexists. split; [reflexivity|]. rewrite Qred_correct. lra.
Qed.

Lemma chart_coordinate_not_NaN (client position view size : Number) (offset : Z)
  (c p w : Q) (v : Z) :
  client = Finite c -> position = Finite p -> view = ofZ v -> size = Finite w ->
  4 <= v <= 2 ^ 53 -> (1 <= w)%Q -> (w < pow2 1024)%Q ->
  sub (mul (sub client position) (div view size)) (ofZ offset) <> NaN.
Proof.
  intros -> -> -> -> Hv Hw1 Hw2.
  destruct (scale_positive v w Hv Hw1 Hw2) as (s & -> & Hs).
  apply sub_finite_not_NaN, mul_positive_not_NaN; [|exact Hs].
  apply round64_not_NaN.
Qed.

End TooltipFacts.

Import Heatmap Render Number Tooltip.

(** X20. [getMinuteFromEvent] returns null for an SVG without chart
    information, and otherwise exactly when the position it computes is
    outside the chart.  What it returns else is a whole minute between 0
    and 1439, or, when the horizontal or the vertical position it computes
    is not a number, NaN.  For a pointer at a finite position over an SVG
    laid out at least one unit wide and high both positions are numbers,
    so the result is null or a minute; on a box of width zero a pointer at
    its left edge gives a horizontal position that is not a number. *)
Theorem pointer_minute_in_range (layout : Layout) (clientX clientY : Number) :
  let x := chartX chartInfo layout clientX in
  let y := chartY chartInfo layout clientY in
  let result := getMinuteFromEvent (Some chartInfo) layout clientX clientY in
  getMinuteFromEvent None layout clientX clientY = None /\
  (result = None <->
   lt x (ofZ 0) = true \/ gt x (ofZ chartWidth) = true \/
   lt y (ofZ 0) = true \/ gt y (ofZ (24 * rowHeight)) = true) /\
  (forall r, result = Some r ->
     (r = NaN /\ (x = NaN \/ y = NaN)) \/
     (exists m, r = ofZ m /\ 0 <= m <= 1439)) /\
  (laidOut layout ->
   forall cx cy, clientX = Finite cx -> clientY = Finite cy ->
     x <> NaN /\ y <> NaN /\
     (result = None \/ exists m, result = Some (ofZ m) /\ 0 <= m <= 1439)) /\
  (forall left, rect_left layout = Finite left -> clientX = Finite left ->
     svgWidth layout = ofZ 0 -> viewBox_width layout = ofZ width -> x = NaN).
Proof.
  intros x y result.
  assert (Hresult : result =
    if lt x (ofZ 0) || gt x (ofZ chartWidth) then None
    else if lt y (ofZ 0) || gt y (ofZ (24 * rowHeight)) then None
    else Some (min (add (mul (floor (div y (info_rowHeight chartInfo))) (ofZ 60))
                        (floor (div x (info_pixelsPerMinute chartInfo))))
                   (ofZ (MINUTES_PER_DAY - 1)))).
  { subst result. unfold getMinuteFromEvent. fold x y.
    rewrite TooltipFacts.chart_height_double. reflexivity. }
  assert (Hclass : forall r, result = Some r ->
     (r = NaN /\ (x = NaN \/ y = NaN)) \/
     (exists m, r = ofZ m /\ 0 <= m <= 1439)).
  { clearbody result x y. intros r Hr. rewrite Hresult in Hr.
    destruct (lt x (ofZ 0) || gt x (ofZ chartWidth)) eqn:Hx; [discriminate|].
    destruct (lt y (ofZ 0) || gt y (ofZ (24 * rowHeight))) eqn:Hy; [discriminate|].
    apply (TooltipFacts.within_checks x _ 610 eq_refl) in Hx.
    apply (TooltipFacts.within_checks y _ 576 eq_refl) in Hy.
    destruct Hy as [->|(qy & -> & Hy0 & Hy1)].
    { injection Hr as <-. left. split; [reflexivity | auto]. }
    destruct (TooltipFacts.hour_of qy Hy0 Hy1) as (hour & Hhour & Hh).
    rewrite Hhour in Hr.
    destruct Hx as [->|(qx & -> & Hx0 & Hx1)].
    { injection Hr as <-. left. split; [|auto].
      cbn [div floor]. rewrite TooltipFacts.add_NaN_r. reflexivity. }
    destruct (TooltipFacts.minute_of qx Hx0 Hx1) as (minuteInHour & Hminute & Hm).
    rewrite Hminute, TooltipFacts.minute_exact in Hr by assumption.
    injection Hr as <-. right. eexists. split; [reflexivity | lia]. }
  split_and!.
  - reflexivity.
  - rewrite Hresult.
    destruct (lt x (ofZ 0)), (gt x (ofZ chartWidth)),
      (lt y (ofZ 0)), (gt y (ofZ (24 * rowHeight))); cbn [orb];
      split; try discriminate; try tauto; intuition discriminate.
  - exact Hclass.
  - intros (left & top & w & h & Hlayout & Hw1 & Hw2 & Hh1 & Hh2) cx cy Hcx Hcy.
    assert (Hx : x <> NaN).
    { subst x. unfold chartX. rewrite Hlayout. cbn [rect_left svgWidth viewBox_width].
      apply (TooltipFacts.chart_coordinate_not_NaN _ _ _ _ _ cx left w width);
        try reflexivity; try assumption. vm_compute; split; discriminate. }
    assert (Hy : y <> NaN).
    { subst y. unfold chartY. rewrite Hlayout. cbn [rect_top svgHeight viewBox_height].
      apply (TooltipFacts.chart_coordinate_not_NaN _ _ _ _ _ cy top h height);
        try reflexivity; try assumption. vm_compute; split; discriminate. }
    split_and!; [exact Hx | exact Hy |].
    destruct result as [r|] eqn:Hr; [right | left; reflexivity].
    destruct (Hclass r eq_refl) as [[_ [?|?]]|(m & -> & Hm)]; [contradiction..|].
    exists m. auto.
  - intros left Hleft Hclient Hwidth Hview. subst x. unfold chartX.
    rewrite Hleft, Hclient, Hwidth, Hview. cbn [sub].
    assert (round64 (left - left) = Finite 0) as ->.
    { unfold round64. rewrite (proj1 (Qeq_alt (left - left) 0)); [reflexivity | ring]. }
    reflexivity.
Qed.

(** X23. For an intensity between 0 and 1, [formatPercentage] shows a
    whole number between 0 and 100 followed by the percent sign.  The
    number is the rounding, halves going up, of the double product of the
    intensity and 100; it differs from the exact percentage by at most
    one half and the error of the product, which is at most [2 ^ -47].
    (The double nearest to 0.575 is thus shown as 57%.) *)
Theorem percentage_is_rounded (toString : Number -> string) (intensity : Q) :
  (forall n, 0 <= n <= 100 -> toString (ofZ n) = String_ n) ->
  (0 <= intensity)%Q -> (intensity <= 1)%Q ->
  exists n,
    formatPercentage toString (Finite intensity) = String_ n +:+ "%" /\
    0 <= n <= 100 /\
    (inject_Z n - (1 # 2) - pow2 (-47) <= intensity * 100)%Q /\
    (intensity * 100 < inject_Z n + (1 # 2) + pow2 (-47))%Q.
Proof.
  intros HtoString H0 H1. unfold formatPercentage. cbn [mul ofZ].
  assert (Hgrid : (inject_Z (100 * 2 ^ 46) * pow2 (-46) == 100)%Q) by reflexivity.
  assert (Hhalf : (pow2 (-46) * (1 # 2) == pow2 (-47))%Q) by reflexivity.
  destruct (NumberFacts.round64_between (intensity * inject_Z 100) (100 * 2 ^ 46) (-46))
    as (p & -> & Hp0 & Hp1 & Elo & Ehi); try reflexivity; try lia.
  { change (inject_Z 100) with 100%Q. lra. }
  { rewrite Hgrid. change (inject_Z 100) with 100%Q. lra. }
  { eapply Qle_lt_trans with 100%Q; [|reflexivity].
    change (inject_Z 100) with 100%Q. lra. }
  rewrite Hgrid in Hp1. rewrite Hhalf in Elo, Ehi.
  change (inject_Z 100) with 100%Q in Elo, Ehi.
  cbn [round]. set (n := Qfloor (p + (1 # 2))).
  pose proof (Qfloor_le (p + (1 # 2))) as Hlo.
  pose proof (Qlt_floor (p + (1 # 2))) as Hhi. fold n in Hlo, Hhi.
  rewrite inject_Z_plus in Hhi. change (inject_Z 1) with 1%Q in Hhi.
  assert (Hn : 0 <= n <= 100).
  { apply TooltipFacts.Qfloor_between.
    - change (inject_Z 0) with 0%Q. lra.
    - change (inject_Z (100 + 1)) with 101%Q. lra. }
  exists n. split_and!; try lia; try lra.
  change (Finite (inject_Z n)) with (ofZ n). rewrite HtoString by exact Hn. reflexivity.
Qed.

Lemma percentage_is_rounded_witness :
  let toString := fun x : Number =>
    match x with Finite q => String_ (Qfloor q) | _ => "NaN" end in
  let intensity := (2589569785738035 # 4503599627370496)%Q in
  formatPercentage toString (Finite intensity) = "57%" /\
  exists n,
    formatPercentage toString (Finite intensity) = String_ n +:+ "%" /\
    0 <= n <= 100 /\
    (inject_Z n - (1 # 2) - pow2 (-47) <= intensity * 100)%Q /\
    (intensity * 100 < inject_Z n + (1 # 2) + pow2 (-47))%Q.
Proof.
  split; [vm_compute; reflexivity|].
  apply (percentage_is_rounded
           (fun x : Number => match x with Finite q => String_ (Qfloor q) | _ => "NaN" end)
           (2589569785738035 # 4503599627370496)).
  - intros n _. unfold ofZ. rewrite Qfloor_Z. reflexivity.
  - discriminate.
  - discriminate.
Defined.
